(** * Personal-finance pipeline: normalisation, categorisation, aggregation

    A shallow embedding of [data_importer.py], [categorizer.py],
    [analyzer.py] and [budget_planner.py], followed by the properties of
    the pipeline that were checked against it.

    Conventions of the embedding.
    - A Python [str] is a list of Unicode code points ([pystr]); literals are
      written as UTF-8 strings and decoded by [u].
    - Amounts are read twice.  Where the code compares amounts, tests their
      sign or takes their magnitude they are exact rationals ([Qc]).  Where a
      property depends on what the sums of [analyzer.py] and of
      [get_category_summary] are, they are binary64 numbers, as the float
      objects of the program, and every [+=] is a rounded addition performed
      in list order (module [binary64]).
    - A Python [dict] is an association list in insertion order ([pydict]).
    - A call that may raise returns a [result]: [Ok v] or [Raise e]. *)

From Stdlib Require Import PrimFloat.
From Stdlib Require Import List String Ascii Bool Arith ZArith NArith Lia.
From Stdlib Require Import QArith Qcanon Qcabs Permutation Sorted.
Import ListNotations.

Local Close Scope Qc_scope.
Local Close Scope Q_scope.
Local Open Scope string_scope.
Local Open Scope list_scope.
Local Open Scope N_scope.

Set Warnings "-inexact-float".

(** ** Python values used by the program *)

Module Py.

Definition pystr := list N.

(** Exceptions the modelled calls can raise. *)
Inductive exn := ValueError | KeyError | ZeroDivisionError.

Inductive result (A : Type) :=
| Ok (a : A)
| Raise (e : exn).
Arguments Ok {A} a.
Arguments Raise {A} e.

Definition bind {A B} (m : result A) (k : A -> result B) : result B :=
  match m with
  | Ok a => k a
  | Raise e => Raise e
  end.

(** *** UTF-8 decoding of literals *)

Fixpoint utf8_decode (bs : list N) : pystr :=
  match bs with
  | [] => []
  | b0 :: t0 =>
    if b0 <? 128 then b0 :: utf8_decode t0
    else if b0 <? 224 then
      match t0 with
      | b1 :: t1 => ((b0 - 192) * 64 + (b1 - 128)) :: utf8_decode t1
      | [] => [b0]
      end
    else if b0 <? 240 then
      match t0 with
      | b1 :: b2 :: t2 =>
        ((b0 - 224) * 4096 + (b1 - 128) * 64 + (b2 - 128)) :: utf8_decode t2
      | _ => [b0]
      end
    else
      match t0 with
      | b1 :: b2 :: b3 :: t3 =>
        ((b0 - 240) * 262144 + (b1 - 128) * 4096 + (b2 - 128) * 64 + (b3 - 128))
          :: utf8_decode t3
      | _ => [b0]
      end
  end.

Definition u (s : string) : pystr :=
  utf8_decode (List.map N_of_ascii (list_ascii_of_string s)).

(** *** Character classes

    The tables of [is_word] and [lower_cp] cover Basic Latin, Latin-1
    Supplement and Cyrillic, the blocks the program's literals and the data
    it is run on live in; the white-space and the digit classes are the
    complete ones of Unicode 14.0, the character database of CPython 3.11. *)

Definition in_range (lo hi c : N) : bool := (lo <=? c) && (c <=? hi).

(** [str.isspace] on one character; also [\s] and the separator class of
    [str.split()] and [str.strip()]. *)
Definition is_space (c : N) : bool :=
  in_range 9 13 c || in_range 28 32 c || (c =? 133) || (c =? 160)
  || (c =? 5760) || in_range 8192 8202 c || (c =? 8232) || (c =? 8233)
  || (c =? 8239) || (c =? 8287) || (c =? 12288).

Definition in_ranges (ranges : list (N * N)) (c : N) : bool :=
  List.existsb (fun r => in_range (fst r) (snd r) c) ranges.

(** The code points [str.isdigit] accepts (Numeric_Type Digit or Decimal):
    the decimal digits of every script, superscripts and subscripts,
    circled, parenthesised and dotted digits and the like. *)
Definition digit_ranges : list (N * N) :=
  [ (48, 57); (178, 179); (185, 185); (1632, 1641); (1776, 1785);
    (1984, 1993); (2406, 2415); (2534, 2543); (2662, 2671); (2790, 2799);
    (2918, 2927); (3046, 3055); (3174, 3183); (3302, 3311); (3430, 3439);
    (3558, 3567); (3664, 3673); (3792, 3801); (3872, 3881); (4160, 4169);
    (4240, 4249); (4969, 4977); (6112, 6121); (6160, 6169); (6470, 6479);
    (6608, 6618); (6784, 6793); (6800, 6809); (6992, 7001); (7088, 7097);
    (7232, 7241); (7248, 7257); (8304, 8304); (8308, 8313); (8320, 8329);
    (9312, 9320); (9332, 9340); (9352, 9360); (9450, 9450); (9461, 9469);
    (9471, 9471); (10102, 10110); (10112, 10120); (10122, 10130);
    (42528, 42537); (43216, 43225); (43264, 43273); (43472, 43481);
    (43504, 43513); (43600, 43609); (44016, 44025); (65296, 65305);
    (66720, 66729); (68160, 68163); (68912, 68921); (69216, 69224);
    (69714, 69722); (69734, 69743); (69872, 69881); (69942, 69951);
    (70096, 70105); (70384, 70393); (70736, 70745); (70864, 70873);
    (71248, 71257); (71360, 71369); (71472, 71481); (71904, 71913);
    (72016, 72025); (72784, 72793); (73040, 73049); (73120, 73129);
    (92768, 92777); (92864, 92873); (93008, 93017); (120782, 120831);
    (123200, 123209); (123632, 123641); (125264, 125273); (127232, 127242);
    (130032, 130041) ].

(** [str.isdigit] on one character. *)
Definition is_digit (c : N) : bool := in_ranges digit_ranges c.

(** An ASCII decimal digit. *)
Definition is_decimal (c : N) : bool := in_range 48 57 c.

(** The decimal digits of Unicode (General_Category Nd), the ones [float]
    reads: every script has its ten in a row from its zero on, the
    mathematical digits five times ten. *)
Definition decimal_ranges : list (N * N) :=
  [ (48, 57); (1632, 1641); (1776, 1785); (1984, 1993); (2406, 2415);
    (2534, 2543); (2662, 2671); (2790, 2799); (2918, 2927); (3046, 3055);
    (3174, 3183); (3302, 3311); (3430, 3439); (3558, 3567); (3664, 3673);
    (3792, 3801); (3872, 3881); (4160, 4169); (4240, 4249); (6112, 6121);
    (6160, 6169); (6470, 6479); (6608, 6617); (6784, 6793); (6800, 6809);
    (6992, 7001); (7088, 7097); (7232, 7241); (7248, 7257); (42528, 42537);
    (43216, 43225); (43264, 43273); (43472, 43481); (43504, 43513);
    (43600, 43609); (44016, 44025); (65296, 65305); (66720, 66729);
    (68912, 68921); (69734, 69743); (69872, 69881); (69942, 69951);
    (70096, 70105); (70384, 70393); (70736, 70745); (70864, 70873);
    (71248, 71257); (71360, 71369); (71472, 71481); (71904, 71913);
    (72016, 72025); (72784, 72793); (73040, 73049); (73120, 73129);
    (92768, 92777); (92864, 92873); (93008, 93017); (120782, 120831);
    (123200, 123209); (123632, 123641); (125264, 125273); (130032, 130041) ].

(** [str.isdecimal] on one character. *)
Definition is_unicode_decimal (c : N) : bool := in_ranges decimal_ranges c.

(** The digit a decimal character stands for. *)
Definition unicode_digit_value (c : N) : Z :=
  match List.find (fun r => in_range (fst r) (snd r) c) decimal_ranges with
  | Some r => Z.of_N ((c - fst r) mod 10)
  | None => 0%Z
  end.

(** [\w]: alphanumeric or underscore. *)
Definition is_word (c : N) : bool :=
  in_range 48 57 c || in_range 65 90 c || (c =? 95) || in_range 97 122 c
  || (c =? 170) || (c =? 178) || (c =? 179) || (c =? 181) || (c =? 185)
  || (c =? 186) || in_range 188 190 c
  || in_range 192 214 c || in_range 216 246 c || in_range 248 255 c
  || in_range 1024 1153 c || in_range 1162 1327 c.

(** [str.lower] on one character. *)
Definition lower_cp (c : N) : N :=
  if in_range 65 90 c then c + 32
  else if in_range 192 222 c && negb (c =? 215) then c + 32
  else if in_range 1024 1039 c then c + 80
  else if in_range 1040 1071 c then c + 32
  else if in_range 1120 1153 c && N.even c then c + 1
  else if in_range 1162 1215 c && N.even c then c + 1
  else if in_range 1232 1327 c && N.even c then c + 1
  else if in_range 1217 1230 c && N.odd c then c + 1
  else if c =? 1216 then 1231
  else c.

Definition lower (s : pystr) : pystr := List.map lower_cp s.

(** *** String operations *)

Fixpoint str_eqb (a b : pystr) : bool :=
  match a, b with
  | [], [] => true
  | x :: a', y :: b' => (x =? y) && str_eqb a' b'
  | _, _ => false
  end.

Fixpoint startswith (s p : pystr) : bool :=
  match p, s with
  | [], _ => true
  | x :: p', y :: s' => (x =? y) && startswith s' p'
  | _ :: _, [] => false
  end.

(** [sub in s]. *)
Fixpoint str_in (sub s : pystr) : bool :=
  match s with
  | [] => match sub with [] => true | _ => false end
  | _ :: s' => startswith s sub || str_in sub s'
  end.

(** [s.replace(old, new)] for a one-character [old]. *)
Definition replace_char (old : N) (new : pystr) (s : pystr) : pystr :=
  List.flat_map (fun c => if c =? old then new else [c]) s.

(** [s.count(c)] for a one-character [c]. *)
Definition count_char (c : N) (s : pystr) : nat :=
  List.length (List.filter (N.eqb c) s).

Fixpoint drop_space (s : pystr) : pystr :=
  match s with
  | c :: s' => if is_space c then drop_space s' else s
  | [] => []
  end.

(** [s.strip()]. *)
Definition strip (s : pystr) : pystr :=
  List.rev (drop_space (List.rev (drop_space s))).

(** [s.split()]: the maximal runs of non-white-space characters. [cur]
    holds the current run, reversed. *)
Fixpoint split_ws_from (cur : pystr) (s : pystr) : list pystr :=
  match s with
  | [] => match cur with [] => [] | _ => [List.rev cur] end
  | c :: s' =>
    if is_space c then
      match cur with
      | [] => split_ws_from [] s'
      | _ => List.rev cur :: split_ws_from [] s'
      end
    else split_ws_from (c :: cur) s'
  end.

Definition split_ws (s : pystr) : list pystr := split_ws_from [] s.

(** [s.split(sep)] for a one-character [sep]: never empty. *)
Fixpoint split_on_from (sep : N) (cur : pystr) (s : pystr) : list pystr :=
  match s with
  | [] => [List.rev cur]
  | c :: s' =>
    if c =? sep then List.rev cur :: split_on_from sep [] s'
    else split_on_from sep (c :: cur) s'
  end.

Definition split_on (sep : N) (s : pystr) : list pystr :=
  split_on_from sep [] s.

(** [s.isdigit()]: non-empty and all digits. *)
Definition isdigit (s : pystr) : bool :=
  match s with
  | [] => false
  | _ => List.forallb is_digit s
  end.

(** *** Dictionaries, in insertion order *)

Definition pydict (V : Type) := list (pystr * V).

Fixpoint dict_get {V} (d : pydict V) (k : pystr) : option V :=
  match d with
  | [] => None
  | (k', v) :: d' => if str_eqb k' k then Some v else dict_get d' k
  end.

(** [k in d]. *)
Definition dict_mem {V} (d : pydict V) (k : pystr) : bool :=
  match dict_get d k with Some _ => true | None => false end.

(** [d[k] = v]: an existing key keeps its place. *)
Fixpoint dict_set {V} (d : pydict V) (k : pystr) (v : V) : pydict V :=
  match d with
  | [] => [(k, v)]
  | (k', v') :: d' =>
    if str_eqb k' k then (k', v) :: d' else (k', v') :: dict_set d' k v
  end.

(** [if k not in d: d[k] = init], then [d[k] = g(d[k])]. *)
Definition dict_upsert {V} (d : pydict V) (k : pystr) (init : V) (g : V -> V)
  : pydict V :=
  let d1 := if dict_mem d k then d else dict_set d k init in
  match dict_get d1 k with
  | Some row => dict_set d1 k (g row)
  | None => d1
  end.

Definition dict_keys {V} (d : pydict V) : list pystr := List.map fst d.
Definition dict_values {V} (d : pydict V) : list V := List.map snd d.

(** [x in xs] for a list of strings. *)
Definition list_mem (x : pystr) (xs : list pystr) : bool :=
  List.existsb (str_eqb x) xs.

(** *** Numbers *)

Definition Qcleb (x y : Qc) : bool := Qle_bool x y.
Definition Qcltb (x y : Qc) : bool := negb (Qle_bool y x).
Definition Qceqb (x y : Qc) : bool := Qeq_bool x y.

Definition Qc_of_Z (z : Z) : Qc := Q2Qc (inject_Z z).

End Py.

Import Py.

(** ** categorizer.py *)

Module categorizer.

Definition create_categories : pydict (list pystr) :=
  [ (u "еда",
     List.map u
       ["пятерочка"; "магнит"; "перекресток"; "ашан"; "лента"; "продукты";
        "еда"; "продуктовый"; "супермаркет"; "овощи"; "фрукты"; "молоко";
        "хлеб"; "мясо"; "рыба"; "курочка"; "гастроном"; "бакалея"; "спар"]);
    (u "транспорт",
     List.map u
       ["метро"; "автобус"; "такси"; "бензин"; "заправка"; "транспорт";
        "проезд"; "каршеринг"; "яндекс.такси"; "uber"; "ситимобил";
        "транспортная карта"; "парковка"; "штраф гибдд"]);
    (u "развлечения",
     List.map u
       ["кино"; "ресторан"; "кафе"; "концерт"; "бар"; "паб"; "клуб";
        "билет"; "игра"; "хобби"; "развлечения"; "театр"; "выставка";
        "музей"; "боулинг"; "караоке"; "кофейня"; "стейкхаус"; "суши"]);
    (u "здоровье",
     List.map u
       ["аптека"; "врач"; "больница"; "лекарства"; "медицина"; "стоматолог";
        "поликлиника"; "анализы"; "медцентр"; "витамины"; "спортзал"; "фитнес"]);
    (u "коммуналка",
     List.map u
       ["квартплата"; "электричество"; "вода"; "газ"; "интернет"; "телефон";
        "связь"; "жкх"; "коммунальные"; "аренда"; "ипотека"; "рко"; "домофон"]);
    (u "одежда",
     List.map u
       ["одежда"; "обувь"; "магазин"; "бутик"; "шопинг"; "бренд"; "zara";
        "hm"; "резерв"; "ламиния"; "обувной"; "ателье"; "трикотаж"]);
    (u "образование",
     List.map u
       ["курсы"; "учеба"; "образование"; "книги"; "учебник"; "репетитор";
        "школа"; "университет"; "онлайн-курс"; "литература"; "канцелярия"]);
    (u "техника",
     List.map u
       ["техника"; "электроника"; "смартфон"; "ноутбук"; "компьютер";
        "телевизор"; "dns"; "м.видео"; "ситилинк"; "гаджет"; "аксессуар"]);
    (u "красота",
     List.map u
       ["парикмахер"; "салон"; "косметика"; "косметолог"; "маникюр";
        "стрижка"; "spa"; "уход"; "парфюмерия"; "рив гош"; "лендри"]);
    (u "зарплата",
     List.map u
       ["зарплата"; "оклад"; "аванс"; "заработная"; "зп"; "payroll";
        "начисление зп"; "расчетный счет"]);
    (u "премия",
     List.map u ["премия"; "бонус"; "поощрение"; "вознаграждение"; "kpi"]);
    (u "инвестиции",
     List.map u
       ["дивиденды"; "проценты"; "инвестиции"; "вклад"; "депозит";
        "акции"; "облигации"; "купон"; "инвест"]);
    (u "подарки",
     List.map u ["подарок"; "сюрприз"; "поздравление"; "перевод"; "от друга"]);
    (u "фриланс",
     List.map u ["фриланс"; "проект"; "удаленная работа"; "заказ"; "исполнение"]) ].

Definition income_categories : list pystr :=
  List.map u ["зарплата"; "премия"; "инвестиции"; "подарки"; "фриланс"].

(** [re.sub(r'[^\w\s]', ' ', s)]. *)
Definition strip_punct (s : pystr) : pystr :=
  List.map (fun c => if is_word c || is_space c then c else 32) s.

(** The test of the income branch on one keyword. *)
Definition income_hit (desc_lower desc_clean keyword : pystr) : bool :=
  str_in keyword desc_lower || str_in keyword desc_clean.

(** The test of the first expense pass on one keyword. *)
Definition expense_hit (desc_lower desc_clean keyword : pystr) : bool :=
  str_in keyword desc_lower
  || str_in keyword desc_clean
  || List.existsb (fun word => str_in word desc_lower) (split_ws keyword)
  || List.existsb (fun word => str_in word desc_clean) (split_ws keyword).

(** The test of the second expense pass on one keyword. *)
Definition extended_hit (desc_lower keyword : pystr) : bool :=
  let keyword_parts := split_ws keyword in
  (1 <? List.length keyword_parts)%nat
  && List.forallb (fun part => str_in part desc_lower) keyword_parts.

(** [for category in names: if category in categories: for keyword in
    categories[category]: if hit: return category]. *)
Fixpoint income_search (categories : pydict (list pystr))
         (hit : pystr -> bool) (names : list pystr) : option pystr :=
  match names with
  | [] => None
  | category :: rest =>
    match dict_get categories category with
    | Some keywords =>
      if List.existsb hit keywords then Some category
      else income_search categories hit rest
    | None => income_search categories hit rest
    end
  end.

(** [for category in names: for keyword in categories[category]: if hit:
    return category]; the subscript raises [KeyError] on a missing key. *)
Fixpoint expense_search (categories : pydict (list pystr))
         (hit : pystr -> bool) (names : list pystr) : result (option pystr) :=
  match names with
  | [] => Ok None
  | category :: rest =>
    match dict_get categories category with
    | Some keywords =>
      if List.existsb hit keywords then Ok (Some category)
      else expense_search categories hit rest
    | None => Raise KeyError
    end
  end.

Definition expense_categories (categories : pydict (list pystr)) : list pystr :=
  List.filter (fun cat => negb (list_mem cat income_categories))
              (dict_keys categories).

Definition categorize_transaction (description : pystr) (amount : Qc)
           (categories : pydict (list pystr)) : result pystr :=
  let desc_lower := lower description in
  let desc_clean := strip_punct desc_lower in
  if Qcleb 0 amount then
    match income_search categories (income_hit desc_lower desc_clean)
                        income_categories with
    | Some category => Ok category
    | None => Ok (u "прочие доходы")
    end
  else
    let names := expense_categories categories in
    bind (expense_search categories (expense_hit desc_lower desc_clean) names)
      (fun first =>
         match first with
         | Some category => Ok category
         | None =>
           bind (expense_search categories (extended_hit desc_lower) names)
             (fun second =>
                match second with
                | Some category => Ok category
                | None => Ok (u "другое")
                end)
         end).

End categorizer.

(** ** The canonical transaction

    The amount is read here as the exact number it stands for, which is
    enough for the sign tests, the comparisons and the magnitudes the
    properties over this record are about.  What depends on the sums being
    binary64 sums is stated over [binary64.transaction] below. *)

Record transaction := {
  date : pystr;
  amount : Qc;
  description : pystr;
  type : pystr;
  category : option pystr
}.

(** ** analyzer.py *)

Module analyzer.

Record month_row := {
  month_income : Qc;
  month_expenses : Qc;
  month_balance : Qc
}.

Record basic_stats := {
  total_income : Qc;
  total_expenses : Qc;
  balance : Qc;
  transaction_count : nat;
  largest_expenses : list transaction;
  monthly_stats : pydict month_row
}.

(** The running state of the first loop: [income], [expenses] and
    [largest_expenses]. *)
Definition totals_step (st : Qc * Qc * list transaction) (t : transaction)
  : Qc * Qc * list transaction :=
  let '(income, expenses, largest) := st in
  if Qcleb 0 (amount t) then ((income + amount t)%Qc, expenses, largest)
  else (income, (expenses + amount t)%Qc, largest ++ [t]).

Definition totals (transactions : list transaction)
  : Qc * Qc * list transaction :=
  List.fold_left totals_step transactions (0%Qc, 0%Qc, []).

(** [list.sort(key=lambda x: x["amount"])] is a stable sort; it is written
    here as the stable insertion sort, which returns the same list. *)
Fixpoint insert_by_amount (t : transaction) (l : list transaction)
  : list transaction :=
  match l with
  | [] => [t]
  | x :: l' =>
    if Qcleb (amount t) (amount x) then t :: x :: l'
    else x :: insert_by_amount t l'
  end.

Definition sort_by_amount (l : list transaction) : list transaction :=
  List.fold_right insert_by_amount [] l.

Definition zero_row : month_row :=
  {| month_income := 0%Qc; month_expenses := 0%Qc; month_balance := 0%Qc |}.

(** One iteration of the per-month loop. *)
Definition monthly_step (monthly : pydict month_row) (t : transaction)
  : pydict month_row :=
  let date_str := date t in
  if (7 <=? List.length date_str)%nat then
    let month_key := List.firstn 7 date_str in
    let monthly1 :=
      if dict_mem monthly month_key then monthly
      else dict_set monthly month_key zero_row in
    match dict_get monthly1 month_key with
    | Some row =>
      let row1 :=
        if Qcleb 0 (amount t) then
          {| month_income := (month_income row + amount t)%Qc;
             month_expenses := month_expenses row;
             month_balance := month_balance row |}
        else
          {| month_income := month_income row;
             month_expenses := (month_expenses row + amount t)%Qc;
             month_balance := month_balance row |} in
      dict_set monthly1 month_key
        {| month_income := month_income row1;
           month_expenses := month_expenses row1;
           month_balance := (month_income row1 + month_expenses row1)%Qc |}
    | None => monthly1
    end
  else monthly.

Definition calculate_basic_stats (transactions : list transaction)
  : basic_stats :=
  let '(income, expenses, largest) := totals transactions in
  let balance := (income + expenses)%Qc in
  let largest_sorted := sort_by_amount largest in
  let monthly := List.fold_left monthly_step transactions [] in
  {| total_income := income;
     total_expenses := Qcabs expenses;
     balance := balance;
     transaction_count := List.length transactions;
     largest_expenses := List.firstn 5 largest_sorted;
     monthly_stats := monthly |}.

Record category_stats := {
  expenses_by_category : pydict Qc;
  income_by_category : pydict Qc
}.

(** [if k not in d: d[k] = 0] followed by [d[k] += v]. *)
Definition dict_add (d : pydict Qc) (k : pystr) (v : Qc) : pydict Qc :=
  let d1 := if dict_mem d k then d else dict_set d k 0%Qc in
  match dict_get d1 k with
  | Some x => dict_set d1 k (x + v)%Qc
  | None => d1
  end.

(** [transaction.get("category", "другое")]. *)
Definition category_or_default (t : transaction) : pystr :=
  match category t with
  | Some c => c
  | None => u "другое"
  end.

Definition by_category_step (st : category_stats) (t : transaction)
  : category_stats :=
  let category := category_or_default t in
  let amount := amount t in
  if Qcltb amount 0 then
    {| expenses_by_category := dict_add (expenses_by_category st) category amount;
       income_by_category := income_by_category st |}
  else
    {| expenses_by_category := expenses_by_category st;
       income_by_category := dict_add (income_by_category st) category amount |}.

Definition calculate_by_category (transactions : list transaction)
  : category_stats :=
  List.fold_left by_category_step transactions
    {| expenses_by_category := []; income_by_category := [] |}.

(** The result of [_calculate_basic_stats_original]. *)
Record original_stats := {
  original_income : Qc;
  original_expenses : Qc;
  original_balance : Qc;
  transactions_n : nat
}.

(** One iteration of its loop: the type is compared with the two Russian
    labels. *)
Definition original_step (st : Qc * Qc) (t : transaction) : Qc * Qc :=
  let '(income, expenses) := st in
  if str_eqb (type t) (u "доход") then ((income + amount t)%Qc, expenses)
  else if str_eqb (type t) (u "расход") then (income, (expenses + amount t)%Qc)
  else (income, expenses).

Definition _calculate_basic_stats_original (transactions : list transaction)
  : original_stats :=
  let '(income, expenses) :=
    List.fold_left original_step transactions (0%Qc, 0%Qc) in
  {| original_income := income;
     original_expenses := expenses;
     original_balance := (income + expenses)%Qc;
     transactions_n := List.length transactions |}.

End analyzer.

(** [sum(xs)], the amounts being exact. *)
Definition Qcsum (xs : list Qc) : Qc :=
  List.fold_left Qcplus xs 0%Qc.

(** [x / y], raising on a zero divisor. *)
Definition py_div (x y : Qc) : result Qc :=
  if Qceqb y 0 then Raise ZeroDivisionError else Ok (x / y)%Qc.

(** [round(x, 2)]: to the nearest hundredth, ties to the even one. *)
Definition round2 (x : Qc) : Qc :=
  let n := (Qnum x * 100)%Z in
  let d := Zpos (Qden x) in
  let q := (n / d)%Z in
  let r := (n mod d)%Z in
  let up :=
    match (2 * r ?= d)%Z with
    | Lt => false
    | Gt => true
    | Eq => Z.odd q
    end in
  Q2Qc (Qmake (if up then q + 1 else q)%Z 100).

(** ** budget_planner.py *)

Module budget_planner.

(** The two labels as the source file spells them. *)
Definition fallback_label : pystr := u "–¥—Ä—É–≥–æ–µ".
Definition savings_label : pystr := u "–Ω–∞–∫–æ–ø–ª–µ–Ω–∏—è".

Record category_row := {
  average_monthly : Qc;
  percentage_of_total : Qc
}.

Record analysis := {
  category_analysis : pydict category_row;
  total_monthly_expenses : Qc
}.

Definition category_or_default (t : transaction) : pystr :=
  match category t with
  | Some c => c
  | None => fallback_label
  end.

(** [if k not in d: d[k] = []] followed by [d[k].append(v)]. *)
Definition dict_append (d : pydict (list Qc)) (k : pystr) (v : Qc)
  : pydict (list Qc) :=
  let d1 := if dict_mem d k then d else dict_set d k [] in
  match dict_get d1 k with
  | Some xs => dict_set d1 k (xs ++ [v])
  | None => d1
  end.

Definition is_expense (t : transaction) : bool := Qcltb (amount t) 0.

Definition group_expenses (expenses : list transaction) : pydict (list Qc) :=
  List.fold_left
    (fun d expense =>
       dict_append d (category_or_default expense) (Qcabs (amount expense)))
    expenses [].

(** The body of the loop over [expenses_by_category.items()]. *)
Definition analyse_row (total_expenses : Qc) (amounts : list Qc)
  : result category_row :=
  bind (match amounts with
        | [] => Ok 0%Qc
        | _ => py_div (Qcsum amounts) (Qc_of_Z (Z.of_nat (List.length amounts)))
        end)
    (fun avg_monthly =>
       let total_category := Qcsum amounts in
       bind (if Qcltb 0 total_expenses then
               bind (py_div total_category total_expenses)
                 (fun ratio => Ok (ratio * Qc_of_Z 100)%Qc)
             else Ok 0%Qc)
         (fun percentage =>
            Ok {| average_monthly := round2 avg_monthly;
                  percentage_of_total := round2 percentage |})).

Fixpoint analyse_rows (total_expenses : Qc) (groups : pydict (list Qc))
  : result (pydict category_row) :=
  match groups with
  | [] => Ok []
  | (category, amounts) :: rest =>
    bind (analyse_row total_expenses amounts)
      (fun row =>
         bind (analyse_rows total_expenses rest)
           (fun rows => Ok ((category, row) :: rows)))
  end.

Definition analyze_historical_spending (transactions : list transaction)
  : result analysis :=
  let expenses := List.filter is_expense transactions in
  let expenses_by_category := group_expenses expenses in
  let total_expenses :=
    Qcsum (List.map (fun e => Qcabs (amount e)) expenses) in
  bind (analyse_rows total_expenses expenses_by_category)
    (fun rows =>
       Ok {| category_analysis := rows;
             total_monthly_expenses := round2 total_expenses |}).

Record budget := {
  budget_limits : pydict Qc;
  savings_goal : Qc
}.

(** The recommendation lines, before they are rendered as text. *)
Inductive recommendation :=
| WithinBudget
| OverBudget
| Reduce (category : pystr) (excess_percent : Qc)
| Goal (savings_goal : Qc).

Record comparison := {
  recommendations : list recommendation;
  total_budget : Qc;
  total_actual : Qc;
  comparison_savings_goal : Qc
}.

Definition actual_step (d : pydict Qc) (t : transaction) : pydict Qc :=
  if Qcltb (amount t) 0 then
    analyzer.dict_add d (category_or_default t) (Qcabs (amount t))
  else d.

(** The loop over [budget_limits.items()]. *)
Fixpoint category_advice (actual_expenses : pydict Qc) (limits : pydict Qc)
  : result (list recommendation) :=
  match limits with
  | [] => Ok []
  | (category, budget_limit) :: rest =>
    if str_eqb category savings_label then
      category_advice actual_expenses rest
    else
      let actual_amount :=
        match dict_get actual_expenses category with
        | Some a => a
        | None => 0%Qc
        end in
      if Qcltb budget_limit actual_amount then
        bind (py_div (actual_amount - budget_limit)%Qc budget_limit)
          (fun ratio =>
             bind (category_advice actual_expenses rest)
               (fun more =>
                  Ok (Reduce category (ratio * Qc_of_Z 100)%Qc :: more)))
      else category_advice actual_expenses rest
  end.

Definition compare_budget_vs_actual (b : budget)
           (actual_transactions : list transaction) : result comparison :=
  let actual_expenses := List.fold_left actual_step actual_transactions [] in
  let total_budget := Qcsum (dict_values (budget_limits b)) in
  let total_actual := Qcsum (dict_values actual_expenses) in
  let first :=
    if Qcleb total_actual total_budget then WithinBudget else OverBudget in
  bind (category_advice actual_expenses (budget_limits b))
    (fun advice =>
       let goal :=
         if Qcltb 0 (savings_goal b) then [Goal (savings_goal b)] else [] in
       Ok {| recommendations := first :: advice ++ goal;
             total_budget := round2 total_budget;
             total_actual := round2 total_actual;
             comparison_savings_goal := savings_goal b |}).

(** [create_budget_template]; the literals [0.9] and [0.1] are the
    rationals 9/10 and 1/10. *)
Definition create_budget_template (a : analysis) : budget :=
  let limits :=
    List.fold_left
      (fun d '(category, data) =>
         dict_set d category
                  (round2 (average_monthly data * Q2Qc (9 # 10))%Qc))
      (category_analysis a) [] in
  let savings_amount := (total_monthly_expenses a * Q2Qc (1 # 10))%Qc in
  {| budget_limits := dict_set limits savings_label (round2 savings_amount);
     savings_goal := round2 savings_amount |}.

(** The lines of [generate_budget_recommendations], before they are rendered
    as text: three fixed ones, then the category with the largest expenses. *)
Inductive advice :=
| FixedWithinBudget
| FixedReduceEntertainment
| FixedGoal
| LargestCategory (category_name : pystr) (amount : Qc).

(** [max(items, key=lambda x: abs(x[1]))] from a first item on: a later item
    replaces the best one only when its key is strictly larger. *)
Fixpoint max_by_abs (best : pystr * Qc) (items : list (pystr * Qc))
  : pystr * Qc :=
  match items with
  | [] => best
  | item :: rest =>
    if Qcltb (Qcabs (snd best)) (Qcabs (snd item)) then max_by_abs item rest
    else max_by_abs best rest
  end.

(** The argument [budget_analysis] is not read by the source. *)
Definition generate_budget_recommendations (budget_analysis : analysis)
           (expenses_by_category : pydict Qc) : list advice :=
  [FixedWithinBudget; FixedReduceEntertainment; FixedGoal]
    ++ match expenses_by_category with
       | [] => []
       | item :: rest =>
         let max_category := max_by_abs item rest in
         [LargestCategory (fst max_category) (Qcabs (snd max_category))]
       end.

End budget_planner.

(** ** data_importer.py *)

Module data_importer.

(** The raw values a reader hands over: [csv.DictReader] yields strings
    (and [None] for a missing column), [json.load] also [null], booleans
    and whole numbers.  A JSON number with a fraction is left out: its text
    is the shortest decimal of a binary float. *)
Inductive pyval :=
| VNone
| VBool (b : bool)
| VInt (z : Z)
| VStr (s : pystr).

Definition raw_record := pydict pyval.

(** Truth value of a raw value. *)
Definition truthy (v : pyval) : bool :=
  match v with
  | VNone => false
  | VBool b => b
  | VInt z => negb (z =? 0)%Z
  | VStr [] => false
  | VStr (_ :: _) => true
  end.

Definition digit_cp (n : N) : N := 48 + n.

(** The decimal digits of [n], most significant first. [fuel] is at least
    their number. *)
Fixpoint digits_from (fuel : nat) (n : N) (acc : pystr) : pystr :=
  match fuel with
  | O => acc
  | S fuel' =>
    let acc' := digit_cp (n mod 10) :: acc in
    if n / 10 =? 0 then acc' else digits_from fuel' (n / 10) acc'
  end.

Definition str_of_N (n : N) : pystr :=
  digits_from (S (N.to_nat (N.log2 n))) n [].

Definition zero_pad (width : nat) (s : pystr) : pystr :=
  List.repeat 48 (width - List.length s) ++ s.

(** [str(v)]. *)
Definition str (v : pyval) : pystr :=
  match v with
  | VNone => u "None"
  | VBool true => u "True"
  | VBool false => u "False"
  | VInt z =>
    if (z <? 0)%Z then 45 :: str_of_N (Z.abs_N z) else str_of_N (Z.abs_N z)
  | VStr s => s
  end.

Definition _get_first_matching_value (data_dict : raw_record)
           (fields : list pystr) : pystr :=
  match
    List.find
      (fun field =>
         match dict_get data_dict field with
         | Some v => truthy v
         | None => false
         end)
      fields
  with
  | Some field =>
    match dict_get data_dict field with
    | Some v => str v
    | None => []
    end
  | None => []
  end.

Definition _is_float (value : pystr) : bool :=
  match value with
  | [] => false
  | _ =>
    let cleaned_value := replace_char 32 [] (replace_char 44 [46] value) in
    let dot_count := count_char 46 cleaned_value in
    let numeric_chars :=
      replace_char 45 [] (replace_char 46 [] cleaned_value) in
    (dot_count <=? 1)%nat
    && isdigit numeric_chars
    && (0 <? List.length numeric_chars)%nat
    && negb (list_mem cleaned_value [[46]; [45]])
  end.

(** *** [float(s)]

    The decimal forms [[+-]digits[.digits]], [[+-].digits] between optional
    white space, the digits being the decimal digits of any script.
    Exponents, underscores, [inf] and [nan] contain a character that
    [_is_float] refuses, so they never reach [float] here.  The value is the
    number the text denotes. *)

Definition digit_value (c : N) : Z := Z.of_N (c - 48).

Definition int_of_digits (s : pystr) : Z :=
  List.fold_left (fun acc c => (acc * 10 + digit_value c)%Z) s 0%Z.

Definition all_decimal (s : pystr) : bool := List.forallb is_decimal s.

Definition int_of_unicode_digits (s : pystr) : Z :=
  List.fold_left (fun acc c => (acc * 10 + unicode_digit_value c)%Z) s 0%Z.

Definition all_unicode_decimal (s : pystr) : bool :=
  List.forallb is_unicode_decimal s.

Fixpoint pow10 (n : nat) : positive :=
  match n with
  | O => 1%positive
  | S n' => (10 * pow10 n')%positive
  end.

Definition unsigned_float (s : pystr) : result Qc :=
  match split_on 46 s with
  | [whole] =>
    if all_unicode_decimal whole && (0 <? List.length whole)%nat
    then Ok (Qc_of_Z (int_of_unicode_digits whole))
    else Raise ValueError
  | [whole; frac] =>
    if all_unicode_decimal whole && all_unicode_decimal frac
       && (0 <? List.length whole + List.length frac)%nat
    then Ok (Q2Qc (Qmake (int_of_unicode_digits (whole ++ frac))
                         (pow10 (List.length frac))))
    else Raise ValueError
  | _ => Raise ValueError
  end.

Definition float (s : pystr) : result Qc :=
  match strip s with
  | 45 :: rest => bind (unsigned_float rest) (fun x => Ok (- x)%Qc)
  | 43 :: rest => unsigned_float rest
  | body => unsigned_float body
  end.

(** *** Dates *)

Definition is_leap (year : N) : bool :=
  (year mod 4 =? 0) && (negb (year mod 100 =? 0) || (year mod 400 =? 0)).

Definition days_in_month (year month : N) : N :=
  if month =? 2 then (if is_leap year then 29 else 28)
  else if (month =? 4) || (month =? 6) || (month =? 9) || (month =? 11)
       then 30
       else 31.

Inductive directive := dY | dm | dd.

(** A format: three directives joined by one separator character. *)
Record date_format := {
  first : directive;
  second : directive;
  third : directive;
  sep : N
}.

Definition date_formats : list date_format :=
  [ {| first := dY; second := dm; third := dd; sep := 45 |};
    {| first := dd; second := dm; third := dY; sep := 46 |};
    {| first := dd; second := dm; third := dY; sep := 47 |};
    {| first := dm; second := dd; third := dY; sep := 47 |};
    {| first := dY; second := dm; third := dd; sep := 46 |} ].

(** The text a directive accepts, as [_strptime] spells it:
    [%Y] is [\d\d\d\d], [%m] is [1[0-2]|0[1-9]|[1-9]] and
    [%d] is [3[01]|[12]\d|0[1-9]|[1-9]| [1-9]]. *)
Definition directive_value (d : directive) (s : pystr) : option N :=
  match d, s with
  | dY, [a; b; c; e] =>
    if all_decimal s then Some (Z.to_N (int_of_digits s)) else None
  | dY, _ => None
  | dm, [a] => if in_range 49 57 a then Some (a - 48) else None
  | dm, [a; b] =>
    if (a =? 49) && in_range 48 50 b then Some (10 + (b - 48))
    else if (a =? 48) && in_range 49 57 b then Some (b - 48)
    else None
  | dm, _ => None
  | dd, [a] => if in_range 49 57 a then Some (a - 48) else None
  | dd, [a; b] =>
    if (a =? 51) && in_range 48 49 b then Some (30 + (b - 48))
    else if in_range 49 50 a && in_range 48 57 b
         then Some ((a - 48) * 10 + (b - 48))
    else if ((a =? 48) || (a =? 32)) && in_range 49 57 b then Some (b - 48)
    else None
  | dd, _ => None
  end.

(** [datetime.strptime(date_str, fmt)] as (year, month, day); [None] when
    it raises [ValueError]. *)
Definition directive_eqb (a b : directive) : bool :=
  match a, b with
  | dY, dY | dm, dm | dd, dd => true
  | _, _ => false
  end.

(** The value parsed for directive [d] among the three of [fmt]. *)
Definition field (fmt : date_format) (d : directive) (v1 v2 v3 : N) : N :=
  if directive_eqb (first fmt) d then v1
  else if directive_eqb (second fmt) d then v2
  else v3.

(** [datetime.strptime(date_str, fmt)] as (year, month, day); [None] when
    it raises [ValueError]. *)
Definition strptime (date_str : pystr) (fmt : date_format)
  : option (N * N * N) :=
  match split_on (sep fmt) date_str with
  | [p1; p2; p3] =>
    match directive_value (first fmt) p1,
          directive_value (second fmt) p2,
          directive_value (third fmt) p3 with
    | Some v1, Some v2, Some v3 =>
      let year := field fmt dY v1 v2 v3 in
      let month := field fmt dm v1 v2 v3 in
      let day := field fmt dd v1 v2 v3 in
      if (1 <=? year) && (day <=? days_in_month year month)
      then Some (year, month, day)
      else None
    | _, _, _ => None
    end
  | _ => None
  end.

Definition _is_valid_date (date_str : pystr) (fmt : date_format) : bool :=
  match strptime date_str fmt with
  | Some _ => true
  | None => false
  end.

(** [date_obj.strftime('%Y-%m-%d')]. The C library renders [%Y]; glibc
    does not pad it, so a year below 1000 comes out with fewer than four
    digits. *)
Definition strftime (d : N * N * N) : pystr :=
  let '(year, month, day) := d in
  str_of_N year ++ [45] ++ zero_pad 2 (str_of_N month)
            ++ [45] ++ zero_pad 2 (str_of_N day).

Definition normalize_date (date_str : pystr) : pystr :=
  match date_str with
  | [] => date_str
  | _ =>
    let clean_date := List.hd [] (split_on 32 date_str) in
    match List.find (_is_valid_date clean_date) date_formats with
    | Some fmt =>
      match strptime clean_date fmt with
      | Some date_obj => strftime date_obj
      | None => clean_date
      end
    | None => clean_date
    end
  end.

(** *** Sign resolution *)

Definition any_in (words : list pystr) (s : pystr) : bool :=
  List.existsb (fun word => str_in word s) words.

Definition _determine_amount_sign (amount : Qc) (row : raw_record) : Qc :=
  let sign_fields := List.map u ["type"; "тип"; "debit/credit"] in
  let sign_value := lower (_get_first_matching_value row sign_fields) in
  if any_in (List.map u ["debit"; "расход"; "списание"; "-"]) sign_value
  then (- Qcabs amount)%Qc
  else if any_in (List.map u ["credit"; "доход"; "пополнение"; "+"]) sign_value
       then Qcabs amount
       else amount.

Definition _adjust_json_amount_sign (amount : Qc) (item : raw_record) : Qc :=
  match dict_get item (u "type") with
  | None => amount
  | Some v =>
    let trans_type := lower (str v) in
    if any_in (List.map u ["debit"; "expense"; "расход"; "outcome"]) trans_type
    then (- Qcabs amount)%Qc
    else if any_in (List.map u ["credit"; "income"; "доход"; "revenue"]) trans_type
         then Qcabs amount
         else amount
  end.

(** [not s]. *)
Definition is_empty (s : pystr) : bool :=
  match s with
  | [] => true
  | _ => false
  end.

Definition or_default (s default : pystr) : pystr :=
  match s with
  | [] => default
  | _ => s
  end.

Definition make_transaction (normalized_date : pystr) (amount : Qc)
           (description : pystr) : transaction :=
  {| date := normalized_date;
     amount := amount;
     description := description;
     type := if Qcleb 0 amount then u "income" else u "expense";
     category := None |}.

(** [{key.lower().strip(): value for key, value in row.items()}]. *)
Definition normalize_keys (row : raw_record) : raw_record :=
  List.fold_left (fun d '(key, value) => dict_set d (strip (lower key)) value)
                 row [].

Definition csv_date_fields : list pystr :=
  List.map u ["date"; "дата"; "data"; "transaction_date"].
Definition csv_amount_fields : list pystr :=
  List.map u ["amount"; "сумма"; "sum"; "transaction_amount"].
Definition csv_desc_fields : list pystr :=
  List.map u ["description"; "описание"; "comment"; "назначение"; "merchant"].

(** [None] is the rejection of the record. *)
Definition normalize_csv_row (row : raw_record)
  : result (option transaction) :=
  let row := normalize_keys row in
  let date_value := _get_first_matching_value row csv_date_fields in
  if is_empty date_value then Ok None
  else
    let normalized_date := normalize_date date_value in
    if is_empty normalized_date then Ok None
    else
      let amount_value := _get_first_matching_value row csv_amount_fields in
      if is_empty amount_value || negb (_is_float amount_value) then Ok None
      else
        bind (float (replace_char 32 [] (replace_char 44 [46] amount_value)))
          (fun amount =>
             let amount := _determine_amount_sign amount row in
             let description :=
               or_default (_get_first_matching_value row csv_desc_fields)
                          (u "No description") in
             Ok (Some (make_transaction normalized_date amount description))).

Definition json_date_fields : list pystr :=
  List.map u ["date"; "дата"; "transactionDate"; "timestamp"].
Definition json_amount_fields : list pystr :=
  List.map u ["amount"; "сумма"; "sum"; "value"].
Definition json_desc_fields : list pystr :=
  List.map u ["description"; "описание"; "comment"; "message"; "details"].

Definition normalize_json_item (item : raw_record)
  : result (option transaction) :=
  let date_value := _get_first_matching_value item json_date_fields in
  if is_empty date_value then Ok None
  else
    let normalized_date := normalize_date date_value in
    if is_empty normalized_date then Ok None
    else
      let amount_value := _get_first_matching_value item json_amount_fields in
      if is_empty amount_value || negb (_is_float amount_value) then Ok None
      else
        bind (float (replace_char 44 [46] amount_value))
          (fun amount =>
             let amount := _adjust_json_amount_sign amount item in
             let description :=
               or_default (_get_first_matching_value item json_desc_fields)
                          (u "No description") in
             Ok (Some (make_transaction normalized_date amount description))).

(** The comprehension of a reader: the rows whose normalisation is kept. *)
Fixpoint keep_normalized (normalize : raw_record -> result (option transaction))
         (guard : raw_record -> bool) (rows : list raw_record)
  : result (list transaction) :=
  match rows with
  | [] => Ok []
  | row :: rest =>
    if guard row then
      bind (normalize row)
        (fun r =>
           match r with
           | Some t =>
             bind (keep_normalized normalize guard rest)
               (fun ts => Ok (t :: ts))
           | None => keep_normalized normalize guard rest
           end)
    else keep_normalized normalize guard rest
  end.

(** [rows] is what [csv.DictReader] yields for the file. *)
Definition read_csv_file (rows : list raw_record) : result (list transaction) :=
  keep_normalized normalize_csv_row
    (fun row => List.existsb truthy (dict_values row)) rows.

(** [items] is the list [json.load] yields for the file. *)
Definition read_json_file (items : list raw_record) : result (list transaction) :=
  keep_normalized normalize_json_item (fun _ => true) items.

(** The final filter of the importer. *)
Definition is_valid (t : transaction) : bool :=
  match date t with
  | [] => false
  | _ => negb (Qceqb (amount t) 0)
  end.

(** [files] maps the path of an existing file to the records its reader
    yields. *)
Definition import_financial_data (files : pystr -> option (list raw_record))
           (filename : pystr) : result (list transaction) :=
  match files filename with
  | None => Ok []
  | Some records =>
    let file_extension := List.last (split_on 46 (lower filename)) [] in
    if str_eqb file_extension (u "csv") then
      bind (read_csv_file records)
        (fun raw_data => Ok (List.filter is_valid raw_data))
    else if str_eqb file_extension (u "json") then
      bind (read_json_file records)
        (fun raw_data => Ok (List.filter is_valid raw_data))
    else Ok []
  end.

End data_importer.

(** ** categorizer.py, the functions over transaction lists *)

(** [transaction.copy()] with the key ['category'] set. *)
Definition with_category (t : transaction) (c : pystr) : transaction :=
  {| date := date t;
     amount := amount t;
     description := description t;
     type := type t;
     category := Some c |}.

Fixpoint categorize_all_transactions (transactions : list transaction)
  : result (list transaction) :=
  match transactions with
  | [] => Ok []
  | t :: rest =>
    bind (categorizer.categorize_transaction (description t) (amount t)
            categorizer.create_categories)
      (fun c =>
         bind (categorize_all_transactions rest)
           (fun categorized => Ok (with_category t c :: categorized)))
  end.

(** A row of [get_category_summary]. *)
Record summary_row := {
  count : nat;
  total_amount : Qc;
  transactions_of : list transaction
}.

(** [transaction.get('category', 'не определена')]. *)
Definition summary_key (t : transaction) : pystr :=
  match category t with
  | Some c => c
  | None => u "не определена"
  end.

Definition summary_step (summary : pydict summary_row) (t : transaction)
  : pydict summary_row :=
  let category := summary_key t in
  let summary1 :=
    if dict_mem summary category then summary
    else dict_set summary category
                  {| count := 0; total_amount := 0%Qc; transactions_of := [] |} in
  match dict_get summary1 category with
  | Some row =>
    dict_set summary1 category
             {| count := S (count row);
                total_amount := (total_amount row + amount t)%Qc;
                transactions_of := transactions_of row ++ [t] |}
  | None => summary1
  end.

Definition get_category_summary (transactions : list transaction)
  : pydict summary_row :=
  List.fold_left summary_step transactions [].

(** ** main.py *)

Module main.

(** The module-level variables [process_data] assigns. *)
Record state := {
  categorized_transactions : list transaction;
  stats : analyzer.basic_stats;
  category_stats : analyzer.category_stats;
  budget_analysis : budget_planner.analysis;
  budget_template : budget_planner.budget
}.

(** [process_data] on the loaded [transactions]; [None] when there are none
    and nothing is assigned. *)
Definition process_data (transactions : list transaction)
  : result (option state) :=
  match transactions with
  | [] => Ok None
  | _ =>
    bind (categorize_all_transactions transactions)
      (fun categorized =>
         let stats := analyzer.calculate_basic_stats categorized in
         let category_stats := analyzer.calculate_by_category categorized in
         bind (budget_planner.analyze_historical_spending categorized)
           (fun analysis =>
              Ok (Some {| categorized_transactions := categorized;
                          stats := stats;
                          category_stats := category_stats;
                          budget_analysis := analysis;
                          budget_template :=
                            budget_planner.create_budget_template analysis |})))
  end.

End main.

(** ** The sums in binary64

    The amounts the importer produces are float objects, and every [+=] of
    [calculate_basic_stats], [calculate_by_category] and
    [get_category_summary] is a binary64 addition, rounded to nearest, in
    list order.  This module is the code of these functions once more, the
    amounts being the floats of the kernel ([PrimFloat.float], IEEE 754
    binary64) instead of rationals.  An accumulator starts at the integer
    [0], which the first addition converts to [0.0]; it is [0.0] here from
    the start. *)

Module binary64.

Record transaction := {
  date : pystr;
  amount : float;
  description : pystr;
  type : pystr;
  category : option pystr
}.

(** *** analyzer.py *)

Record month_row := {
  month_income : float;
  month_expenses : float;
  month_balance : float
}.

Record basic_stats := {
  total_income : float;
  total_expenses : float;
  balance : float;
  transaction_count : nat;
  largest_expenses : list transaction;
  monthly_stats : pydict month_row
}.

(** The running state of the first loop: [income], [expenses] and
    [largest_expenses].  [amount >= 0] is false of a NaN. *)
Definition totals_step (st : float * float * list transaction) (t : transaction)
  : float * float * list transaction :=
  let '(income, expenses, largest) := st in
  if (0 <=? amount t)%float then ((income + amount t)%float, expenses, largest)
  else (income, (expenses + amount t)%float, largest ++ [t]).

Definition totals (transactions : list transaction)
  : float * float * list transaction :=
  List.fold_left totals_step transactions (0%float, 0%float, []).

(** [list.sort(key=lambda x: x["amount"])], a stable sort that compares
    keys with [<]: written as the stable insertion sort, which returns the
    same list when no amount is a NaN. *)
Fixpoint insert_by_amount (t : transaction) (l : list transaction)
  : list transaction :=
  match l with
  | [] => [t]
  | x :: l' =>
    if (amount x <? amount t)%float then x :: insert_by_amount t l'
    else t :: x :: l'
  end.

Definition sort_by_amount (l : list transaction) : list transaction :=
  List.fold_right insert_by_amount [] l.

Definition zero_row : month_row :=
  {| month_income := 0%float; month_expenses := 0%float;
     month_balance := 0%float |}.

(** What one transaction does to the row of its month. *)
Definition month_update (t : transaction) (row : month_row) : month_row :=
  let row1 :=
    if (0 <=? amount t)%float then
      {| month_income := (month_income row + amount t)%float;
         month_expenses := month_expenses row;
         month_balance := month_balance row |}
    else
      {| month_income := month_income row;
         month_expenses := (month_expenses row + amount t)%float;
         month_balance := month_balance row |} in
  {| month_income := month_income row1;
     month_expenses := month_expenses row1;
     month_balance := (month_income row1 + month_expenses row1)%float |}.

(** One iteration of the per-month loop. *)
Definition monthly_step (monthly : pydict month_row) (t : transaction)
  : pydict month_row :=
  let date_str := date t in
  if (7 <=? List.length date_str)%nat then
    dict_upsert monthly (List.firstn 7 date_str) zero_row (month_update t)
  else monthly.

Definition calculate_basic_stats (transactions : list transaction)
  : basic_stats :=
  let '(income, expenses, largest) := totals transactions in
  let balance := (income + expenses)%float in
  let largest_sorted := sort_by_amount largest in
  let monthly := List.fold_left monthly_step transactions [] in
  {| total_income := income;
     total_expenses := abs expenses;
     balance := balance;
     transaction_count := List.length transactions;
     largest_expenses := List.firstn 5 largest_sorted;
     monthly_stats := monthly |}.

Record category_stats := {
  expenses_by_category : pydict float;
  income_by_category : pydict float
}.

(** [if k not in d: d[k] = 0] followed by [d[k] += v]. *)
Definition dict_add (d : pydict float) (k : pystr) (v : float) : pydict float :=
  dict_upsert d k 0%float (fun x => (x + v)%float).

(** [transaction.get("category", "другое")]. *)
Definition category_or_default (t : transaction) : pystr :=
  match category t with
  | Some c => c
  | None => u "другое"
  end.

(** [amount < 0] is false of a NaN, which is filed as an income here and
    counted as an expense by [calculate_basic_stats]. *)
Definition by_category_step (st : category_stats) (t : transaction)
  : category_stats :=
  let category := category_or_default t in
  let amount := amount t in
  if (amount <? 0)%float then
    {| expenses_by_category := dict_add (expenses_by_category st) category amount;
       income_by_category := income_by_category st |}
  else
    {| expenses_by_category := expenses_by_category st;
       income_by_category := dict_add (income_by_category st) category amount |}.

Definition calculate_by_category (transactions : list transaction)
  : category_stats :=
  List.fold_left by_category_step transactions
    {| expenses_by_category := []; income_by_category := [] |}.

(** *** categorizer.py *)

(** A row of [get_category_summary]. *)
Record summary_row := {
  count : nat;
  total_amount : float;
  transactions_of : list transaction
}.

(** [transaction.get('category', 'не определена')]. *)
Definition summary_key (t : transaction) : pystr :=
  match category t with
  | Some c => c
  | None => u "не определена"
  end.

Definition summary_step (summary : pydict summary_row) (t : transaction)
  : pydict summary_row :=
  dict_upsert summary (summary_key t)
    {| count := 0; total_amount := 0%float; transactions_of := [] |}
    (fun row =>
       {| count := S (count row);
          total_amount := (total_amount row + amount t)%float;
          transactions_of := transactions_of row ++ [t] |}).

Definition get_category_summary (transactions : list transaction)
  : pydict summary_row :=
  List.fold_left summary_step transactions [].

End binary64.

(** ** Vocabulary of the statements *)

(** The transactions of one amount, in their order. *)
Definition with_amount (a : Qc) (l : list transaction) : list transaction :=
  List.filter (fun t => Qceqb (amount t) a) l.

(** A well-formed calendar date, as [datetime] holds it. *)
Definition valid_date (d : N * N * N) : Prop :=
  let '(year, month, day) := d in
  1 <= year <= 9999 /\ 1 <= month <= 12
  /\ 1 <= day <= data_importer.days_in_month year month.

(** The text handed to [float] by the tabular normaliser. *)
Definition cleaned (value : pystr) : pystr :=
  replace_char 32 [] (replace_char 44 [46] value).

(** The pairs of the default taxonomy an expense can fall into. *)
Definition expense_entry (category : pystr) (keywords : list pystr) : Prop :=
  In (category, keywords) categorizer.create_categories
  /\ list_mem category categorizer.income_categories = false.

(** An expense: a transaction with a negative amount. *)
Definition negative_amount (t : transaction) : bool := Qcltb (amount t) 0.

(** The sum of the amounts of the expenses, with their sign. *)
Definition signed_expense_sum (transactions : list transaction) : Qc :=
  Qcsum (List.map amount (List.filter negative_amount transactions)).

(** The sum of the non-negative amounts. *)
Definition income_sum (transactions : list transaction) : Qc :=
  Qcsum (List.map amount
           (List.filter (fun t => Qcleb 0 (amount t)) transactions)).

Definition le_amount (x y : transaction) : Prop := (amount x <= amount y)%Qc.

(** A transaction written down by hand, with a whole amount. *)
Definition entry (day : string) (amount_num : Z) (label : string)
           (cat : option string) : transaction :=
  {| date := u day;
     amount := Q2Qc (Qmake amount_num 1);
     description := u label;
     type := if (0 <=? amount_num)%Z then u "income" else u "expense";
     category := option_map u cat |}.

(** The record of the import scenario. *)
Definition scenario_record : data_importer.raw_record :=
  [ (u "date", data_importer.VStr (u "15.01.2024"));
    (u "amount", data_importer.VStr (u "1 234,50"));
    (u "type", data_importer.VStr (u "расход")) ].

(** A record whose amount passes the numeric test with a minus sign in the
    middle. *)
Definition inner_minus_record : data_importer.raw_record :=
  [ (u "date", data_importer.VStr (u "2024-01-15"));
    (u "amount", data_importer.VStr (u "1-2")) ].

(** What a canonical transaction owes to its amount. *)
Definition type_follows_sign (t : transaction) : Prop :=
  ((0 <= amount t)%Qc -> type t = u "income")
  /\ ((amount t < 0)%Qc -> type t = u "expense").

(** A file system with one tabular file of three rows. *)
Definition one_csv_file (filename : pystr)
  : option (list data_importer.raw_record) :=
  if str_eqb filename (u "bank.CSV") then
    Some [ scenario_record;
           [ (u "Дата", data_importer.VStr (u "2024-01-16"));
             (u "Сумма", data_importer.VStr (u "0,00"));
             (u "Тип", data_importer.VStr (u "доход")) ];
           [ (u " Date ", data_importer.VStr (u "01/17/2024 10:30"));
             (u "SUM", data_importer.VStr (u "-99.9"));
             (u "debit/credit", data_importer.VStr (u "Credit")) ] ]
  else None.

(** The extension the importer dispatches on. *)
Definition file_extension (filename : pystr) : pystr :=
  List.last (split_on 46 (lower filename)) [].

(** A file system with one tabular file whose second row has the amount
    "1-2". *)
Definition broken_csv_file (filename : pystr)
  : option (list data_importer.raw_record) :=
  if str_eqb filename (u "bank.csv") then
    Some [scenario_record; inner_minus_record]
  else None.

(** What every normalised transaction looks like. *)
Definition canonical_shape (t : transaction) : Prop :=
  date t <> [] /\ ~ In 32 (date t) /\ description t <> []
  /\ category t = None.

(** The pattern [%Y-%m-%d], the first one [normalize_date] tries. *)
Definition iso_format : data_importer.date_format :=
  {| data_importer.first := data_importer.dY;
     data_importer.second := data_importer.dm;
     data_importer.third := data_importer.dd;
     data_importer.sep := 45 |}.

(** The amount text the record-oriented normaliser reads from an item. *)
Definition json_amount_value (item : data_importer.raw_record) : pystr :=
  data_importer._get_first_matching_value item data_importer.json_amount_fields.

(** No digit of the text is a superscript, a circled digit or the like:
    every character [str.isdigit] accepts is a decimal digit. *)
Definition plain_digits (value : pystr) : Prop :=
  Forall (fun c => is_digit c = true -> is_unicode_decimal c = true) value.

(** A raw value [str] converts: a whole number of more than 4300 digits is
    beyond the default limit of the conversion (CPython 3.11), a case the
    embedding of [str] leaves out. *)
Definition convertible (v : data_importer.pyval) : Prop :=
  match v with
  | data_importer.VInt z => (Z.abs z < 10 ^ 4300)%Z
  | _ => True
  end.

(** A record-oriented item with a plain amount. *)
Definition plain_item : data_importer.raw_record :=
  [ (u "timestamp", data_importer.VStr (u "2024-03-01 08:00"));
    (u "value", data_importer.VStr (u "-1234,50"));
    (u "type", data_importer.VStr (u "Income")) ].

(** What was spent in a category: the absolute amounts of the expenses the
    budget comparison files under it. *)
Definition spent_in (c : pystr) (transactions : list transaction) : Qc :=
  Qcsum (List.map (fun t => Qcabs (amount t))
           (List.filter
              (fun t => negative_amount t
                        && str_eqb (budget_planner.category_or_default t) c)
              transactions)).

(** [d.get(c, 0)]. *)
Definition spent_or_zero (d : pydict Qc) (c : pystr) : Qc :=
  match dict_get d c with
  | Some a => a
  | None => 0%Qc
  end.

(** What a [Reduce] line says, given what was spent per category. *)
Definition sound_advice (limits : pydict Qc) (spent : pystr -> Qc)
           (r : budget_planner.recommendation) : Prop :=
  exists c l,
    r = budget_planner.Reduce c ((spent c - l) / l * Qc_of_Z 100)%Qc
    /\ In (c, l) limits
    /\ c <> budget_planner.savings_label
    /\ l <> 0%Qc
    /\ (l < spent c)%Qc.

(** The pattern [%d/%m/%Y], tried before [%m/%d/%Y]. *)
Definition day_first_format : data_importer.date_format :=
  {| data_importer.first := data_importer.dd;
     data_importer.second := data_importer.dm;
     data_importer.third := data_importer.dY;
     data_importer.sep := 47 |}.

(** *** Sums in binary64 *)

(** What a loop of [+=] from [0] leaves: the sum from left to right. *)
Definition fsum (xs : list float) : float :=
  List.fold_left PrimFloat.add xs 0%float.

(** The test [amount >= 0] of [calculate_basic_stats]. *)
Definition counted_as_income (t : binary64.transaction) : bool :=
  (0 <=? binary64.amount t)%float.

(** The amounts [calculate_basic_stats] adds to [income], in list order. *)
Definition income_amounts (l : list binary64.transaction) : list float :=
  List.map binary64.amount (List.filter counted_as_income l).

(** The amounts it adds to [expenses], in list order. *)
Definition expense_amounts (l : list binary64.transaction) : list float :=
  List.map binary64.amount
           (List.filter (fun t => negb (counted_as_income t)) l).

(** The test [amount < 0] of [calculate_by_category]. *)
Definition filed_as_expense (t : binary64.transaction) : bool :=
  (binary64.amount t <? 0)%float.

(** The amounts [calculate_by_category] files as expenses of the category
    [c], in list order. *)
Definition category_expense_amounts (c : pystr)
           (l : list binary64.transaction) : list float :=
  List.map binary64.amount
    (List.filter
       (fun t => filed_as_expense t
                 && str_eqb (binary64.category_or_default t) c) l).

(** The amounts it files as incomes of the category [c], in list order. *)
Definition category_income_amounts (c : pystr)
           (l : list binary64.transaction) : list float :=
  List.map binary64.amount
    (List.filter
       (fun t => negb (filed_as_expense t)
                 && str_eqb (binary64.category_or_default t) c) l).

(** The entry of a rollup whose key has the amounts [xs]: none when there
    are none. *)
Definition sum_if_any (xs : list float) : option float :=
  match xs with
  | [] => None
  | _ => Some (fsum xs)
  end.

(** [d.get(c, 0)] on a rollup. *)
Definition entry_or_zero (d : pydict float) (c : pystr) : float :=
  match dict_get d c with
  | Some x => x
  | None => 0%float
  end.

(** The entries of a rollup, added in the order of the dictionary. *)
Definition rollup_sum (d : pydict float) : float := fsum (dict_values d).

(** The transactions the per-month loop files under [key]. *)
Definition in_month (key : pystr) (t : binary64.transaction) : bool :=
  (7 <=? List.length (binary64.date t))%nat
  && str_eqb (List.firstn 7 (binary64.date t)) key.

(** The incomes and the expenses of the per-month rollup, added over the
    months. *)
Definition months_income (s : binary64.basic_stats) : float :=
  fsum (List.map binary64.month_income
                 (dict_values (binary64.monthly_stats s))).

Definition months_expenses (s : binary64.basic_stats) : float :=
  fsum (List.map binary64.month_expenses
                 (dict_values (binary64.monthly_stats s))).

(** A transaction written down by hand, its amount a float. *)
Definition posting (day : string) (amount_num : float) (label : string)
           (cat : option string) : binary64.transaction :=
  {| binary64.date := u day;
     binary64.amount := amount_num;
     binary64.description := u label;
     binary64.type :=
       if (0 <=? amount_num)%float then u "income" else u "expense";
     binary64.category := option_map u cat |}.

(** * Properties *)

(** ** Strings, dictionaries and numbers *)

Section PyFacts.

Lemma str_eqb_eq (a b : pystr) : str_eqb a b = true <-> a = b.
Proof.
  revert b; induction a as [|x a IH]; intros [|y b]; simpl;
    try (split; [discriminate | congruence]).
  - tauto.
  - rewrite andb_true_iff, N.eqb_eq, IH. split.
    + intros [-> ->]; reflexivity.
    + intros E; injection E; auto.
Qed.

Lemma str_eqb_refl (a : pystr) : str_eqb a a = true.
Proof. apply str_eqb_eq; reflexivity. Qed.

Lemma dict_get_key {V} (d : pydict V) (k : pystr) :
  In k (dict_keys d) -> exists v, dict_get d k = Some v.
Proof.
  induction d as [|[k' v'] d IH]; simpl; [tauto|].
  intros [E | Hin].
  - subst k'. rewrite str_eqb_refl. eauto.
  - destruct (str_eqb k' k); eauto.
Qed.

Lemma Qcleb_le (x y : Qc) : Qcleb x y = true <-> (x <= y)%Qc.
Proof. unfold Qcleb, Qcle. apply Qle_bool_iff. Qed.

Lemma Qcleb_gt (x y : Qc) : Qcleb x y = false <-> (y < x)%Qc.
Proof.
  split; intros H.
  - apply Qcnot_le_lt. intros L. apply Qcleb_le in L. congruence.
  - destruct (Qcleb x y) eqn:E; [|reflexivity].
    apply Qcleb_le in E. exfalso. exact (Qclt_not_le _ _ H E).
Qed.

Lemma Qcltb_lt (x y : Qc) : Qcltb x y = true <-> (x < y)%Qc.
Proof.
  unfold Qcltb. rewrite negb_true_iff. apply (Qcleb_gt y x).
Qed.

Lemma Qcltb_ge (x y : Qc) : Qcltb x y = false <-> (y <= x)%Qc.
Proof.
  unfold Qcltb. rewrite negb_false_iff. apply (Qcleb_le y x).
Qed.

Lemma Qceqb_eq (x y : Qc) : Qceqb x y = true <-> x = y.
Proof.
  unfold Qceqb. rewrite Qeq_bool_iff. split.
  - apply Qc_is_canon.
  - intros ->. reflexivity.
Qed.

Lemma Qceqb_neq (x y : Qc) : Qceqb x y = false <-> x <> y.
Proof.
  rewrite <- Qceqb_eq. destruct (Qceqb x y); split; congruence.
Qed.

End PyFacts.

(** ** Categorisation *)

Section Categorisation.

Import categorizer.

Variable categories : pydict (list pystr).

(** A search over names that are all keys of the taxonomy never raises. *)
Lemma expense_search_total (hit : pystr -> bool) (names : list pystr) :
  (forall c, In c names -> In c (dict_keys categories)) ->
  exists r, expense_search categories hit names = Ok r.
Proof.
  induction names as [|c names IH]; intros Hkeys; simpl.
  - eauto.
  - destruct (dict_get_key categories c) as [kws ->].
    + apply Hkeys; left; reflexivity.
    + destruct (existsb hit kws); [eauto|].
      apply IH. intros c' Hc'. apply Hkeys; right; exact Hc'.
Qed.

Lemma expense_categories_keys (c : pystr) :
  In c (expense_categories categories) -> In c (dict_keys categories).
Proof. unfold expense_categories. rewrite filter_In. tauto. Qed.

(** When every keyword of every searched category misses, the search
    finds nothing. *)
Lemma expense_search_miss (hit : pystr -> bool) (names : list pystr) :
  (forall c, In c names -> In c (dict_keys categories)) ->
  (forall c kws kw,
      In c names -> dict_get categories c = Some kws -> In kw kws ->
      hit kw = false) ->
  expense_search categories hit names = Ok None.
Proof.
  induction names as [|c names IH]; intros Hkeys Hmiss; simpl.
  - reflexivity.
  - destruct (dict_get_key categories c) as [kws E].
    + apply Hkeys; left; reflexivity.
    + rewrite E.
      assert (existsb hit kws = false) as ->.
      { destruct (existsb hit kws) eqn:X; [|reflexivity].
        apply existsb_exists in X. destruct X as [kw [Hin Hhit]].
        rewrite (Hmiss c kws kw) in Hhit; [discriminate| |exact E|exact Hin].
        left; reflexivity. }
      apply IH.
      * intros c' Hc'. apply Hkeys; right; exact Hc'.
      * intros c' kws' kw Hc'. apply Hmiss; right; exact Hc'.
Qed.

(** The second pass asks for more than the first one: a keyword of
    several words, all of them present, has one of them present. *)
Lemma extended_hit_expense_hit (desc_lower desc_clean kw : pystr) :
  extended_hit desc_lower kw = true ->
  expense_hit desc_lower desc_clean kw = true.
Proof.
  unfold extended_hit, expense_hit. intros H.
  apply andb_true_iff in H. destruct H as [Hlen Hall].
  destruct (split_ws kw) as [|w ws]; [discriminate|].
  simpl in Hall. apply andb_true_iff in Hall. destruct Hall as [Hw _].
  simpl. rewrite Hw. rewrite !orb_true_r. reflexivity.
Qed.

Lemma categorize_expense_fallback (description : pystr) (amount : Qc) :
  (amount < 0)%Qc ->
  (forall c kws kw,
      In c (expense_categories categories) ->
      dict_get categories c = Some kws -> In kw kws ->
      expense_hit (lower description) (strip_punct (lower description)) kw
      = false) ->
  categorize_transaction description amount categories = Ok (u "другое").
Proof.
  intros Hneg Hmiss. unfold categorize_transaction.
  assert (Qcleb 0 amount = false) as -> by (apply Qcleb_gt; exact Hneg).
  rewrite expense_search_miss; [simpl| apply expense_categories_keys | exact Hmiss].
  rewrite expense_search_miss; [reflexivity| apply expense_categories_keys |].
  intros c kws kw Hc Hget Hkw.
  destruct (extended_hit (lower description) kw) eqn:X; [|reflexivity].
  apply (extended_hit_expense_hit _ (strip_punct (lower description))) in X.
  rewrite (Hmiss c kws kw Hc Hget Hkw) in X. discriminate.
Qed.

End Categorisation.

(** C4. Categorisation is a total function of the description, the amount
    and the taxonomy: whatever they are, the call returns a label and does
    not raise, and the label is the same at every call on the same three
    arguments. *)
Theorem C4_categorize_total_deterministic
        (description : pystr) (amount : Qc) (categories : pydict (list pystr)) :
  exists label,
    categorizer.categorize_transaction description amount categories = Ok label
    /\ forall r,
      categorizer.categorize_transaction description amount categories = r ->
      r = Ok label.
Proof.
  assert (exists label,
             categorizer.categorize_transaction description amount categories
             = Ok label) as [label E].
  { unfold categorizer.categorize_transaction.
    destruct (Qcleb 0 amount).
    - destruct (categorizer.income_search _ _ _); eauto.
    - destruct (expense_search_total categories
                  (categorizer.expense_hit (lower description)
                     (categorizer.strip_punct (lower description)))
                  (categorizer.expense_categories categories)
                  (expense_categories_keys categories)) as [r1 ->].
      simpl. destruct r1; [eauto|].
      destruct (expense_search_total categories
                  (categorizer.extended_hit (lower description))
                  (categorizer.expense_categories categories)
                  (expense_categories_keys categories)) as [r2 ->].
      simpl. destruct r2; eauto. }
  exists label. split; [exact E|]. intros r <-. exact E.
Qed.

(** C5. Under the default taxonomy "Такси Яндекс" with amount -350 is
    labelled "транспорт", and a description on which no keyword of an
    expense category matches, with amount -10, is labelled "другое". *)
Theorem C5_taxi_and_fallback :
  categorizer.categorize_transaction (u "Такси Яндекс") (Q2Qc (-350 # 1)%Q)
    categorizer.create_categories = Ok (u "транспорт")
  /\ forall description,
    (forall category keywords keyword,
        expense_entry category keywords -> In keyword keywords ->
        categorizer.expense_hit (lower description)
          (categorizer.strip_punct (lower description)) keyword = false) ->
    categorizer.categorize_transaction description (Q2Qc (-10 # 1)%Q)
      categorizer.create_categories = Ok (u "другое").
Proof.
  split; [vm_compute; reflexivity|].
  intros description Hmiss.
  apply categorize_expense_fallback; [reflexivity|].
  intros c kws kw Hc Hget Hkw.
  apply (Hmiss c kws kw); [|exact Hkw].
  vm_compute in Hc.
  repeat (destruct Hc as [Hc | Hc];
          [subst c; vm_compute in Hget; injection Hget as <-;
           split; [vm_compute; tauto | vm_compute; reflexivity]|]).
  contradiction.
Qed.

(** A description that misses every keyword. *)
Lemma C5_fallback_witness :
  categorizer.categorize_transaction (u "qwxz 42") (Q2Qc (-10 # 1)%Q)
    categorizer.create_categories = Ok (u "другое").
Proof.
  apply (proj2 C5_taxi_and_fallback).
  intros category keywords keyword [Hin _] Hkw.
  vm_compute in Hin.
  repeat (destruct Hin as [Hin | Hin];
          [injection Hin as <- <-; vm_compute in Hkw;
           repeat (destruct Hkw as [<- | Hkw]; [vm_compute; reflexivity|]);
           contradiction|]).
  contradiction.
Defined.

(** ** Aggregation *)

Section Sums.

Local Open Scope Qc_scope.

Lemma fold_left_Qcplus (xs : list Qc) (a : Qc) :
  fold_left Qcplus xs a = a + Qcsum xs.
Proof.
  unfold Qcsum. revert a. induction xs as [|x xs IH]; intros a; simpl.
  - ring.
  - rewrite (IH (a + x)), (IH (0 + x)). ring.
Qed.

Lemma Qcsum_cons (x : Qc) (xs : list Qc) : Qcsum (x :: xs) = x + Qcsum xs.
Proof. unfold Qcsum at 1. simpl. rewrite fold_left_Qcplus. ring. Qed.

Lemma negative_amount_spec (t : transaction) :
  negative_amount t = negb (Qcleb 0 (amount t)).
Proof. reflexivity. Qed.

Lemma income_sum_cons (t : transaction) (l : list transaction) :
  income_sum (t :: l)
  = (if Qcleb 0 (amount t) then amount t else 0) + income_sum l.
Proof.
  unfold income_sum. simpl. destruct (Qcleb 0 (amount t)); simpl.
  - apply Qcsum_cons.
  - ring.
Qed.

Lemma signed_expense_sum_cons (t : transaction) (l : list transaction) :
  signed_expense_sum (t :: l)
  = (if Qcleb 0 (amount t) then 0 else amount t) + signed_expense_sum l.
Proof.
  unfold signed_expense_sum. simpl. rewrite negative_amount_spec.
  destruct (Qcleb 0 (amount t)); simpl.
  - ring.
  - apply Qcsum_cons.
Qed.

Lemma sums_cover (l : list transaction) :
  income_sum l + signed_expense_sum l = Qcsum (map amount l).
Proof.
  induction l as [|t l IH].
  - reflexivity.
  - rewrite income_sum_cons, signed_expense_sum_cons. simpl map.
    rewrite Qcsum_cons, <- IH. destruct (Qcleb 0 (amount t)); ring.
Qed.

Lemma signed_expense_sum_nonpos (l : list transaction) :
  signed_expense_sum l <= 0.
Proof.
  induction l as [|t l IH].
  - apply Qcle_refl.
  - rewrite signed_expense_sum_cons.
    destruct (Qcleb 0 (amount t)) eqn:E.
    + replace (0 + signed_expense_sum l) with (signed_expense_sum l) by ring.
      exact IH.
    + apply Qcleb_gt in E. apply Qclt_le_weak in E.
      assert (amount t + signed_expense_sum l <= 0 + 0) as L
          by (apply Qcplus_le_compat; assumption).
      replace (0 + 0) with 0 in L by ring. exact L.
Qed.

(** The first loop of [calculate_basic_stats], from any running state. *)
Lemma totals_from (l : list transaction) (income expenses : Qc)
      (largest : list transaction) :
  fold_left analyzer.totals_step l (income, expenses, largest)
  = (income + income_sum l, expenses + signed_expense_sum l,
     (largest ++ filter negative_amount l)%list).
Proof.
  revert income expenses largest.
  induction l as [|t l IH]; intros income expenses largest.
  - simpl. rewrite app_nil_r. f_equal. f_equal; unfold income_sum, signed_expense_sum; simpl;
      unfold Qcsum; simpl; ring.
  - simpl fold_left.
    rewrite income_sum_cons, signed_expense_sum_cons.
    simpl filter. rewrite negative_amount_spec.
    destruct (Qcleb 0 (amount t)) eqn:E; simpl negb; cbv iota.
    + rewrite IH. f_equal. f_equal; ring.
    + rewrite IH, <- app_assoc. simpl app. f_equal. f_equal; ring.
Qed.

Lemma totals_spec (l : list transaction) :
  analyzer.totals l
  = (income_sum l, signed_expense_sum l, filter negative_amount l).
Proof.
  unfold analyzer.totals. rewrite totals_from. simpl app.
  f_equal. f_equal; ring.
Qed.

Lemma stats_total_income (l : list transaction) :
  analyzer.total_income (analyzer.calculate_basic_stats l) = income_sum l.
Proof. unfold analyzer.calculate_basic_stats. rewrite totals_spec. reflexivity. Qed.

Lemma stats_total_expenses (l : list transaction) :
  analyzer.total_expenses (analyzer.calculate_basic_stats l)
  = - signed_expense_sum l.
Proof.
  unfold analyzer.calculate_basic_stats. rewrite totals_spec. simpl.
  apply Qcabs_neg, signed_expense_sum_nonpos.
Qed.

Lemma stats_balance (l : list transaction) :
  analyzer.balance (analyzer.calculate_basic_stats l) = Qcsum (map amount l).
Proof.
  unfold analyzer.calculate_basic_stats. rewrite totals_spec. simpl.
  apply sums_cover.
Qed.

Lemma stats_largest (l : list transaction) :
  analyzer.largest_expenses (analyzer.calculate_basic_stats l)
  = firstn 5 (analyzer.sort_by_amount (filter negative_amount l)).
Proof. unfold analyzer.calculate_basic_stats. rewrite totals_spec. reflexivity. Qed.

Lemma stats_monthly (l : list transaction) :
  analyzer.monthly_stats (analyzer.calculate_basic_stats l)
  = fold_left analyzer.monthly_step l [].
Proof. unfold analyzer.calculate_basic_stats. rewrite totals_spec. reflexivity. Qed.

Lemma stats_count (l : list transaction) :
  analyzer.transaction_count (analyzer.calculate_basic_stats l) = List.length l.
Proof. unfold analyzer.calculate_basic_stats. rewrite totals_spec. reflexivity. Qed.

End Sums.

(** ** Rollups *)

Section Rollups.

Local Open Scope Qc_scope.

Lemma dict_get_set_same {V} (d : pydict V) (k : pystr) (v : V) :
  dict_get (dict_set d k v) k = Some v.
Proof.
  induction d as [|[k' v'] d IH]; simpl.
  - rewrite str_eqb_refl. reflexivity.
  - destruct (str_eqb k' k) eqn:E; simpl; rewrite E; [reflexivity | exact IH].
Qed.

Lemma dict_mem_false {V} (d : pydict V) (k : pystr) :
  dict_mem d k = false -> dict_get d k = None.
Proof. unfold dict_mem. destruct (dict_get d k); [discriminate | reflexivity]. Qed.

(** Storing at a key that is absent appends the pair. *)
Lemma dict_set_absent {V} (d : pydict V) (k : pystr) (v : V) :
  dict_get d k = None -> dict_set d k v = (d ++ [(k, v)])%list.
Proof.
  induction d as [|[k' v'] d IH]; simpl; [reflexivity|].
  destruct (str_eqb k' k); [discriminate|]. intros H. rewrite IH; auto.
Qed.

End Rollups.

(** ** Largest expenses *)

Section Sorting.

Lemma insert_by_amount_perm (t : transaction) (l : list transaction) :
  Permutation (analyzer.insert_by_amount t l) (t :: l).
Proof.
  induction l as [|x l IH]; simpl.
  - apply Permutation_refl.
  - destruct (Qcleb (amount t) (amount x)).
    + apply Permutation_refl.
    + apply perm_trans with (x :: t :: l).
      * apply perm_skip, IH.
      * apply perm_swap.
Qed.

Lemma sort_by_amount_perm (l : list transaction) :
  Permutation (analyzer.sort_by_amount l) l.
Proof.
  induction l as [|t l IH]; simpl.
  - apply perm_nil.
  - apply perm_trans with (t :: analyzer.sort_by_amount l).
    + apply insert_by_amount_perm.
    + apply perm_skip, IH.
Qed.

Lemma le_amount_trans (x y z : transaction) :
  le_amount x y -> le_amount y z -> le_amount x z.
Proof. unfold le_amount. apply Qcle_trans. Qed.

Lemma insert_by_amount_sorted (t : transaction) (l : list transaction) :
  StronglySorted le_amount l ->
  StronglySorted le_amount (analyzer.insert_by_amount t l).
Proof.
  induction 1 as [|x l Hs IH Hall]; simpl.
  - constructor; constructor.
  - destruct (Qcleb (amount t) (amount x)) eqn:E.
    + apply Qcleb_le in E. constructor.
      * constructor; assumption.
      * constructor; [exact E|].
        apply Forall_impl with (P := le_amount x); [|exact Hall].
        intros y. apply le_amount_trans. exact E.
    + apply Qcleb_gt, Qclt_le_weak in E. constructor; [exact IH|].
      apply (Permutation_Forall (Permutation_sym (insert_by_amount_perm t l))).
      constructor; assumption.
Qed.

Lemma sort_by_amount_sorted (l : list transaction) :
  StronglySorted le_amount (analyzer.sort_by_amount l).
Proof.
  induction l as [|t l IH]; simpl.
  - constructor.
  - apply insert_by_amount_sorted, IH.
Qed.

Lemma sorted_app_split (l1 l2 : list transaction) :
  StronglySorted le_amount (l1 ++ l2) ->
  StronglySorted le_amount l1
  /\ forall x y, In x l1 -> In y l2 -> le_amount x y.
Proof.
  induction l1 as [|a l1 IH]; simpl; intros H.
  - split; [constructor | contradiction].
  - inversion H as [|? ? Hs Hall]; subst.
    destruct (IH Hs) as [Hs1 Hcross].
    apply Forall_app in Hall. destruct Hall as [Hall1 Hall2].
    split.
    + constructor; assumption.
    + intros x y [<-|Hx] Hy.
      * rewrite Forall_forall in Hall2. apply Hall2, Hy.
      * apply Hcross; assumption.
Qed.

End Sorting.

(** C8. The largest-expenses list holds [min 5 n] of the [n] expenses, in
    ascending order of signed amount, and every expense left out has an
    amount at least that of every one kept; on the expenses -100, -5, -50 it
    is -100, -50, -5. *)
Theorem C8_largest_expenses_sorted_top5 (transactions : list transaction) :
  let kept :=
    analyzer.largest_expenses (analyzer.calculate_basic_stats transactions) in
  let expenses := List.filter negative_amount transactions in
  List.length kept = Nat.min 5 (List.length expenses)
  /\ StronglySorted le_amount kept
  /\ (exists rest,
         Permutation (kept ++ rest) expenses
         /\ forall x y, In x kept -> In y rest -> le_amount x y)
  /\ List.map amount
       (analyzer.largest_expenses
          (analyzer.calculate_basic_stats
             [entry "2024-01-01" (-100) "a" None;
              entry "2024-01-02" (-5) "b" None;
              entry "2024-01-03" (-50) "c" None]))
     = [Q2Qc (-100 # 1)%Q; Q2Qc (-50 # 1)%Q; Q2Qc (-5 # 1)%Q].
Proof.
  cbv zeta. rewrite (stats_largest transactions).
  set (sorted := analyzer.sort_by_amount (filter negative_amount transactions)).
  assert (StronglySorted le_amount (firstn 5 sorted ++ skipn 5 sorted)) as Hs
      by (rewrite firstn_skipn; apply sort_by_amount_sorted).
  apply sorted_app_split in Hs. destruct Hs as [Hkept Hcross].
  split; [|split; [|split]].
  - rewrite length_firstn. f_equal.
    apply Permutation_length, sort_by_amount_perm.
  - exact Hkept.
  - exists (skipn 5 sorted). split; [|exact Hcross].
    rewrite firstn_skipn. apply sort_by_amount_perm.
  - vm_compute. reflexivity.
Qed.

(** ** Budget percentages *)

Section Budget.

Import budget_planner.

Lemma py_div_nonzero (x y : Qc) : y <> 0%Qc -> py_div x y = Ok (x / y)%Qc.
Proof.
  intros H. unfold py_div. apply Qceqb_neq in H. rewrite H. reflexivity.
Qed.

Lemma Qc_of_nat_succ_nonzero (n : nat) : Qc_of_Z (Z.of_nat (S n)) <> 0%Qc.
Proof.
  intros H. unfold Qc_of_Z in H. apply Q2Qc_eq_iff in H.
  unfold Qeq, inject_Z in H. simpl Qnum in H. simpl Qden in H. lia.
Qed.

Lemma round2_zero : round2 0%Qc = 0%Qc.
Proof. apply Qc_is_canon. reflexivity. Qed.

(** The row of one category is computed without a division fault, and its
    percentage is 0 when the total is not positive. *)
Lemma analyse_row_total (total_expenses : Qc) (amounts : list Qc) :
  exists row,
    analyse_row total_expenses amounts = Ok row
    /\ ((total_expenses <= 0)%Qc -> percentage_of_total row = 0%Qc).
Proof.
  unfold analyse_row.
  assert (exists avg,
             match amounts with
             | [] => Ok 0%Qc
             | _ :: _ =>
               py_div (Qcsum amounts) (Qc_of_Z (Z.of_nat (List.length amounts)))
             end = Ok avg) as [avg ->].
  { destruct amounts as [|a amounts]; [eauto|].
    rewrite py_div_nonzero; [eauto|]. apply Qc_of_nat_succ_nonzero. }
  simpl bind at 1.
  destruct (Qcltb 0 total_expenses) eqn:E.
  - rewrite py_div_nonzero.
    + simpl. eexists. split; [reflexivity|].
      intros Hle. apply Qcltb_lt in E.
      exfalso. exact (Qclt_not_le _ _ E Hle).
    + apply Qcltb_lt in E. intros ->. exact (Qclt_not_le _ _ E (Qcle_refl 0)).
  - simpl. eexists. split; [reflexivity|].
    intros _. simpl. apply round2_zero.
Qed.

Lemma analyse_rows_total (total_expenses : Qc) (groups : pydict (list Qc)) :
  exists rows,
    analyse_rows total_expenses groups = Ok rows
    /\ ((total_expenses <= 0)%Qc ->
        Forall (fun entry => percentage_of_total (snd entry) = 0%Qc) rows).
Proof.
  induction groups as [|[category amounts] groups IH]; simpl.
  - eexists. split; [reflexivity|]. intros _. constructor.
  - destruct (analyse_row_total total_expenses amounts) as [row [-> Hrow]].
    destruct IH as [rows [-> Hrows]]. simpl.
    eexists. split; [reflexivity|].
    intros Hle. constructor; [apply Hrow, Hle | apply Hrows, Hle].
Qed.

End Budget.

(** C9. Historical analysis never faults, and when the total of the
    historical expenses is zero every [percentage_of_total] it reports is 0.
    The comparison of a budget with the actual expenses does not do the
    same: with a limit of 0 for a category and an actual expense of 10 in
    it, the overage percentage divides by the limit and the call raises
    [ZeroDivisionError]. *)
Theorem C9_zero_total_is_guarded_zero_limit_raises :
  (forall transactions,
      exists a,
        budget_planner.analyze_historical_spending transactions = Ok a
        /\ (Qcsum (List.map (fun e => Qcabs (amount e))
                            (List.filter budget_planner.is_expense transactions))
            = 0%Qc ->
            Forall (fun entry =>
                      budget_planner.percentage_of_total (snd entry) = 0%Qc)
                   (budget_planner.category_analysis a)))
  /\ budget_planner.compare_budget_vs_actual
       {| budget_planner.budget_limits := [(u "еда", 0%Qc)];
          budget_planner.savings_goal := 0%Qc |}
       [entry "2024-01-15" (-10) "обед" (Some "еда")]
     = Raise ZeroDivisionError.
Proof.
  split.
  - intros transactions. unfold budget_planner.analyze_historical_spending.
    destruct (analyse_rows_total
                (Qcsum (List.map (fun e => Qcabs (amount e))
                          (List.filter budget_planner.is_expense transactions)))
                (budget_planner.group_expenses
                   (List.filter budget_planner.is_expense transactions)))
      as [rows [-> Hrows]].
    simpl. eexists. split; [reflexivity|].
    intros Hzero. simpl. apply Hrows. rewrite Hzero. apply Qcle_refl.
  - vm_compute. reflexivity.
Qed.

(** ** Import *)

Section Importer.

Import data_importer.

Lemma make_transaction_type (d : pystr) (a : Qc) (desc : pystr) :
  type_follows_sign (make_transaction d a desc).
Proof.
  unfold type_follows_sign, make_transaction; simpl. split; intros H.
  - apply Qcleb_le in H. rewrite H. reflexivity.
  - apply Qcleb_gt in H. rewrite H. reflexivity.
Qed.

Ltac open_normalizer H :=
  repeat match type of H with
         | context [match ?x with _ => _ end] =>
           destruct x eqn:?; try discriminate H
         | context [if ?c then _ else _] =>
           destruct c eqn:?; try discriminate H
         end.

Lemma normalize_csv_row_made (row : raw_record) (t : transaction) :
  normalize_csv_row row = Ok (Some t) ->
  exists d a desc, t = make_transaction d a desc.
Proof.
  unfold normalize_csv_row, bind. intros H. open_normalizer H.
  injection H as <-. eauto.
Qed.

Lemma normalize_json_item_made (item : raw_record) (t : transaction) :
  normalize_json_item item = Ok (Some t) ->
  exists d a desc, t = make_transaction d a desc.
Proof.
  unfold normalize_json_item, bind. intros H. open_normalizer H.
  injection H as <-. eauto.
Qed.

Lemma keep_normalized_Forall (P : transaction -> Prop)
      (normalize : raw_record -> result (option transaction))
      (guard : raw_record -> bool) (rows : list raw_record)
      (kept : list transaction) :
  (forall row t, normalize row = Ok (Some t) -> P t) ->
  keep_normalized normalize guard rows = Ok kept ->
  Forall P kept.
Proof.
  intros HP. revert kept.
  induction rows as [|row rows IH]; simpl; intros kept H.
  - injection H as <-. constructor.
  - destruct (guard row); [|apply IH, H].
    destruct (normalize row) as [[t|]|e] eqn:E; simpl in H.
    + destruct (keep_normalized normalize guard rows) as [ts|e]; simpl in H;
        [|discriminate].
      injection H as <-. constructor; [exact (HP row t E) | apply IH; reflexivity].
    + apply IH, H.
    + discriminate.
Qed.

Lemma is_valid_nonzero (t : transaction) :
  is_valid t = true -> amount t <> 0%Qc.
Proof.
  unfold is_valid. destruct (date t); [discriminate|].
  rewrite negb_true_iff. apply Qceqb_neq.
Qed.

Lemma filter_valid (raw_data : list transaction) :
  Forall type_follows_sign raw_data ->
  Forall (fun t => amount t <> 0%Qc /\ type_follows_sign t)
         (filter is_valid raw_data).
Proof.
  intros H. apply Forall_forall. intros t Hin.
  apply filter_In in Hin. destruct Hin as [Hin Hvalid].
  split; [apply is_valid_nonzero, Hvalid|].
  rewrite Forall_forall in H. apply H, Hin.
Qed.

End Importer.

(** C1, at the scenario record. The tabular normaliser returns the
    canonical transaction of 2024-01-15, -1234.50, "expense"; the
    record-oriented one keeps the space of "1 234,50" in the text it hands to
    [float] and raises [ValueError]. *)
Theorem C1_scenario_tabular_ok_record_oriented_raises :
  (exists t,
      data_importer.normalize_csv_row scenario_record = Ok (Some t)
      /\ date t = u "2024-01-15"
      /\ amount t = Q2Qc (-2469 # 2)%Q
      /\ type t = u "expense")
  /\ data_importer.normalize_json_item scenario_record = Raise ValueError.
Proof.
  split.
  - eexists. split; [vm_compute; reflexivity|].
    split; [reflexivity|]. split; [|reflexivity].
    apply Qc_is_canon. reflexivity.
  - vm_compute. reflexivity.
Qed.

(** C2, at the amount "1-2". The numeric test accepts it, [float] raises
    [ValueError] on it, and both normalisers raise with it. The other half
    holds: a record whose amount the numeric test refuses is rejected by
    both normalisers, without an error. *)
Theorem C2_accepted_amount_raises :
  (data_importer._is_float (u "1-2") = true
   /\ data_importer.float (u "1-2") = Raise ValueError
   /\ data_importer.normalize_csv_row inner_minus_record = Raise ValueError
   /\ data_importer.normalize_json_item inner_minus_record = Raise ValueError)
  /\ (forall row,
         data_importer._is_float
           (data_importer._get_first_matching_value
              (data_importer.normalize_keys row)
              data_importer.csv_amount_fields) = false ->
         data_importer.normalize_csv_row row = Ok None)
  /\ (forall item,
         data_importer._is_float
           (data_importer._get_first_matching_value
              item data_importer.json_amount_fields) = false ->
         data_importer.normalize_json_item item = Ok None).
Proof.
  split; [vm_compute; repeat split|]. split.
  - intros row H. unfold data_importer.normalize_csv_row.
    rewrite H, orb_true_r.
    repeat match goal with
           | |- context [if ?c then _ else _] => destruct c
           end; reflexivity.
  - intros item H. unfold data_importer.normalize_json_item.
    rewrite H, orb_true_r.
    repeat match goal with
           | |- context [if ?c then _ else _] => destruct c
           end; reflexivity.
Qed.

(** C3. Every transaction the importer returns has a non-zero amount, and
    its type is "income" when the amount is at least 0 and "expense"
    otherwise. *)
Theorem C3_imported_nonzero_and_type_from_sign
        (files : pystr -> option (list data_importer.raw_record))
        (filename : pystr) (imported : list transaction)
        (H : data_importer.import_financial_data files filename = Ok imported) :
  Forall (fun t => amount t <> 0%Qc /\ type_follows_sign t) imported.
Proof.
  unfold data_importer.import_financial_data in H.
  destruct (files filename) as [records|];
    [|injection H as <-; constructor].
  destruct (str_eqb _ (u "csv")).
  - destruct (data_importer.read_csv_file records) as [raw_data|e] eqn:E;
      simpl in H; [|discriminate].
    injection H as <-. apply filter_valid.
    apply (keep_normalized_Forall _ _ _ _ _
             (fun row t Ht =>
                match normalize_csv_row_made row t Ht with
                | ex_intro _ d (ex_intro _ a (ex_intro _ desc Et)) =>
                  eq_ind_r type_follows_sign (make_transaction_type d a desc) Et
                end) E).
  - destruct (str_eqb _ (u "json")); [|injection H as <-; constructor].
    destruct (data_importer.read_json_file records) as [raw_data|e] eqn:E;
      simpl in H; [|discriminate].
    injection H as <-. apply filter_valid.
    apply (keep_normalized_Forall _ _ _ _ _
             (fun row t Ht =>
                match normalize_json_item_made row t Ht with
                | ex_intro _ d (ex_intro _ a (ex_intro _ desc Et)) =>
                  eq_ind_r type_follows_sign (make_transaction_type d a desc) Et
                end) E).
Qed.

Lemma C3_import_witness :
  Forall (fun t => amount t <> 0%Qc /\ type_follows_sign t)
         (match data_importer.import_financial_data one_csv_file (u "bank.CSV") with
          | Ok imported => imported
          | Raise _ => []
          end).
Proof.
  apply (C3_imported_nonzero_and_type_from_sign one_csv_file (u "bank.CSV")).
  vm_compute. reflexivity.
Defined.

(** * Further properties of the code *)

(** ** The direction gate and the order of the taxonomy *)

Section Gate.

Import categorizer.

Variable categories : pydict (list pystr).

Lemma income_search_found (hit : pystr -> bool) (names : list pystr)
      (c : pystr) :
  income_search categories hit names = Some c ->
  In c names
  /\ exists kws, dict_get categories c = Some kws /\ existsb hit kws = true.
Proof.
  induction names as [|n names IH]; simpl; [discriminate|].
  destruct (dict_get categories n) as [kws|] eqn:G.
  - destruct (existsb hit kws) eqn:X.
    + intros E. injection E as <-. split; [left; reflexivity | eauto].
    + intros E. destruct (IH E) as [Hin Hk]. split; [right; exact Hin | exact Hk].
  - intros E. destruct (IH E) as [Hin Hk]. split; [right; exact Hin | exact Hk].
Qed.

Lemma expense_search_found (hit : pystr -> bool) (names : list pystr)
      (c : pystr) :
  expense_search categories hit names = Ok (Some c) ->
  In c names
  /\ exists kws, dict_get categories c = Some kws /\ existsb hit kws = true.
Proof.
  induction names as [|n names IH]; simpl; [discriminate|].
  destruct (dict_get categories n) as [kws|] eqn:G; [|discriminate].
  destruct (existsb hit kws) eqn:X.
  - intros E. injection E as <-. split; [left; reflexivity | eauto].
  - intros E. destruct (IH E) as [Hin Hk]. split; [right; exact Hin | exact Hk].
Qed.

(** The search stops at the first name whose keywords hit. *)
Lemma expense_search_first (hit : pystr -> bool) (before after : list pystr)
      (c : pystr) (kws : list pystr) :
  (forall c' kws', In c' before -> dict_get categories c' = Some kws' ->
                   existsb hit kws' = false) ->
  (forall c', In c' before -> In c' (dict_keys categories)) ->
  dict_get categories c = Some kws ->
  existsb hit kws = true ->
  expense_search categories hit (before ++ c :: after) = Ok (Some c).
Proof.
  intros Hmiss Hkeys Hget Hhit.
  induction before as [|b before IH]; simpl.
  - rewrite Hget, Hhit. reflexivity.
  - destruct (dict_get_key categories b) as [kb Hb].
    + apply Hkeys; left; reflexivity.
    + rewrite Hb, (Hmiss b kb (or_introl eq_refl) Hb).
      apply IH.
      * intros c' kws' Hin. apply Hmiss; right; exact Hin.
      * intros c' Hin. apply Hkeys; right; exact Hin.
Qed.

Lemma categorize_returns (description : pystr) (amount : Qc) :
  exists label,
    categorize_transaction description amount categories = Ok label.
Proof.
  unfold categorize_transaction.
  destruct (Qcleb 0 amount).
  - destruct (income_search _ _ _); eauto.
  - destruct (expense_search_total categories
                (expense_hit (lower description) (strip_punct (lower description)))
                (expense_categories categories)
                (expense_categories_keys categories)) as [r1 ->].
    simpl. destruct r1; [eauto|].
    destruct (expense_search_total categories
                (extended_hit (lower description))
                (expense_categories categories)
                (expense_categories_keys categories)) as [r2 ->].
    simpl. destruct r2; eauto.
Qed.

End Gate.

(** X1. The direction gate. A non-negative amount is labelled with one of
    the five income categories, and one that is a key of the taxonomy, or
    with "прочие доходы"; a negative amount is labelled with a key of the
    taxonomy outside the five income categories, or with "другое". *)
Theorem categorize_direction_gate
        (description : pystr) (amount : Qc) (categories : pydict (list pystr))
        (label : pystr)
        (H : categorizer.categorize_transaction description amount categories
             = Ok label) :
  ((0 <= amount)%Qc ->
   (In label categorizer.income_categories /\ In label (dict_keys categories))
   \/ label = u "прочие доходы")
  /\ ((amount < 0)%Qc ->
      (In label (dict_keys categories)
       /\ list_mem label categorizer.income_categories = false)
      \/ label = u "другое").
Proof.
  unfold categorizer.categorize_transaction in H.
  destruct (Qcleb 0 amount) eqn:E.
  - split.
    + intros _.
      destruct (categorizer.income_search _ _ _) as [c|] eqn:S.
      * injection H as <-.
        destruct (income_search_found _ _ _ _ S) as [Hin [kws [G _]]].
        left. split; [exact Hin|].
        clear - G. induction categories as [|[k v] d IH]; simpl in *;
          [discriminate|].
        destruct (str_eqb k c) eqn:K.
        -- left. apply str_eqb_eq, K.
        -- right. apply IH, G.
      * injection H as <-. right. reflexivity.
    + intros Hneg. apply Qcleb_le in E.
      exfalso. exact (Qclt_not_le _ _ Hneg E).
  - split.
    + intros Hpos. apply Qcleb_gt in E.
      exfalso. exact (Qclt_not_le _ _ E Hpos).
    + intros _.
      assert (forall c,
                 In c (categorizer.expense_categories categories) ->
                 In c (dict_keys categories)
                 /\ list_mem c categorizer.income_categories = false) as Hexp.
      { intros c Hc. unfold categorizer.expense_categories in Hc.
        apply filter_In in Hc. destruct Hc as [Hk Hn].
        split; [exact Hk|]. apply negb_true_iff, Hn. }
      destruct (categorizer.expense_search categories
                  (categorizer.expense_hit _ _) _) as [[c|]|e] eqn:S1;
        simpl in H; [| |discriminate].
      * injection H as <-. left. apply Hexp.
        exact (proj1 (expense_search_found _ _ _ _ S1)).
      * destruct (categorizer.expense_search categories
                    (categorizer.extended_hit _) _) as [[c|]|e] eqn:S2;
          simpl in H; [| |discriminate].
        -- injection H as <-. left. apply Hexp.
           exact (proj1 (expense_search_found _ _ _ _ S2)).
        -- injection H as <-. right. reflexivity.
Qed.

Lemma categorize_direction_gate_witness :
  ((0 <= Q2Qc (-350 # 1)%Q)%Qc ->
   (In (u "транспорт") categorizer.income_categories
    /\ In (u "транспорт") (dict_keys categorizer.create_categories))
   \/ u "транспорт" = u "прочие доходы")
  /\ ((Q2Qc (-350 # 1)%Q < 0)%Qc ->
      (In (u "транспорт") (dict_keys categorizer.create_categories)
       /\ list_mem (u "транспорт") categorizer.income_categories = false)
      \/ u "транспорт" = u "другое").
Proof.
  apply (categorize_direction_gate (u "Такси Яндекс") (Q2Qc (-350 # 1)%Q)
           categorizer.create_categories (u "транспорт")).
  vm_compute. reflexivity.
Defined.

(** X2. The earliest category wins. For a negative amount, when no keyword
    of the expense categories before [c] passes the first-pass test and one
    keyword of [c] does, the label is [c], whatever the later categories
    hold. *)
Theorem categorize_earliest_category_wins
        (description : pystr) (amount : Qc) (categories : pydict (list pystr))
        (before after : list pystr) (c : pystr) (kws : list pystr) (kw : pystr)
        (Hneg : (amount < 0)%Qc)
        (Horder : categorizer.expense_categories categories
                  = before ++ c :: after)
        (Hmiss : forall c' kws' kw',
            In c' before -> dict_get categories c' = Some kws' -> In kw' kws' ->
            categorizer.expense_hit (lower description)
              (categorizer.strip_punct (lower description)) kw' = false)
        (Hget : dict_get categories c = Some kws)
        (Hkw : In kw kws)
        (Hhit : categorizer.expense_hit (lower description)
                  (categorizer.strip_punct (lower description)) kw = true) :
  categorizer.categorize_transaction description amount categories = Ok c.
Proof.
  unfold categorizer.categorize_transaction.
  assert (Qcleb 0 amount = false) as -> by (apply Qcleb_gt; exact Hneg).
  rewrite Horder.
  rewrite (expense_search_first categories _ before after c kws);
    [reflexivity| | |exact Hget|].
  - intros c' kws' Hin G.
    destruct (existsb _ kws') eqn:X; [|reflexivity].
    apply existsb_exists in X. destruct X as [kw' [Hin' Hh]].
    rewrite (Hmiss c' kws' kw' Hin G Hin') in Hh. discriminate.
  - intros c' Hin. apply expense_categories_keys.
    rewrite Horder. apply in_or_app. left. exact Hin.
  - apply existsb_exists. exists kw. split; assumption.
Qed.

(** "Кафе у метро": "метро" (транспорт) is declared before "кафе"
    (развлечения). *)
Lemma categorize_earliest_category_wins_witness :
  categorizer.categorize_transaction (u "Кафе у метро") (Q2Qc (-200 # 1)%Q)
    categorizer.create_categories = Ok (u "транспорт").
Proof.
  apply (categorize_earliest_category_wins
           (u "Кафе у метро") (Q2Qc (-200 # 1)%Q) categorizer.create_categories
           [u "еда"]
           (List.map u ["развлечения"; "здоровье"; "коммуналка"; "одежда";
                        "образование"; "техника"; "красота"])
           (u "транспорт")
           (List.map u
              ["метро"; "автобус"; "такси"; "бензин"; "заправка"; "транспорт";
               "проезд"; "каршеринг"; "яндекс.такси"; "uber"; "ситимобил";
               "транспортная карта"; "парковка"; "штраф гибдд"])
           (u "метро")).
  - reflexivity.
  - vm_compute. reflexivity.
  - intros c' kws' kw' [<-|[]] G Hin. vm_compute in G. injection G as <-.
    vm_compute in Hin.
    repeat (destruct Hin as [<- | Hin]; [vm_compute; reflexivity|]).
    contradiction.
  - vm_compute. reflexivity.
  - left. reflexivity.
  - vm_compute. reflexivity.
Defined.

(** ** Categorising a list *)

Lemma categorize_all_spec (transactions : list transaction) :
  exists categorized,
    categorize_all_transactions transactions = Ok categorized
    /\ Forall2 (fun t t' =>
                  exists c,
                    categorizer.categorize_transaction
                      (description t) (amount t) categorizer.create_categories
                    = Ok c
                    /\ t' = with_category t c)
               transactions categorized.
Proof.
  induction transactions as [|t rest IH]; simpl.
  - eexists. split; [reflexivity | constructor].
  - destruct (categorize_returns categorizer.create_categories
                (description t) (amount t)) as [c Hc].
    destruct IH as [categorized [-> HF]]. rewrite Hc. simpl.
    eexists. split; [reflexivity|]. constructor; [eauto | exact HF].
Qed.

(** X3. [categorize_all_transactions] returns, for every list and without
    raising, a list of the same length and order in which each transaction
    keeps its date, amount, description and type and carries the label
    [categorize_transaction] gives to its description and amount under the
    default taxonomy. *)
Theorem categorize_all_keeps_fields (transactions : list transaction) :
  exists categorized,
    categorize_all_transactions transactions = Ok categorized
    /\ List.length categorized = List.length transactions
    /\ List.map date categorized = List.map date transactions
    /\ List.map amount categorized = List.map amount transactions
    /\ List.map description categorized = List.map description transactions
    /\ List.map type categorized = List.map type transactions
    /\ List.map (fun t => Ok (summary_key t)) categorized
       = List.map (fun t =>
                     categorizer.categorize_transaction
                       (description t) (amount t) categorizer.create_categories)
                  transactions
    /\ Forall (fun t => category t <> None) categorized.
Proof.
  destruct (categorize_all_spec transactions) as [categorized [E HF]].
  exists categorized. split; [exact E|]. clear E.
  induction HF as [|t t' l l' [c [Hc ->]] _ IH]; simpl.
  - repeat split; constructor.
  - destruct IH as [H1 [H2 [H3 [H4 [H5 [H6 H7]]]]]].
    rewrite H1, H2, H3, H4, H5, H6, Hc. unfold summary_key. simpl.
    repeat split. constructor; [discriminate | exact H7].
Qed.

(** ** Ties in the largest expenses *)

Section Stability.

Lemma insert_by_amount_stable (a : Qc) (t : transaction)
      (l : list transaction) :
  with_amount a (analyzer.insert_by_amount t l) = with_amount a (t :: l).
Proof.
  unfold with_amount.
  induction l as [|x l IH]; simpl; [reflexivity|].
  destruct (Qcleb (amount t) (amount x)) eqn:E; [reflexivity|].
  simpl. simpl in IH. rewrite IH.
  apply Qcleb_gt in E.
  destruct (Qceqb (amount t) a) eqn:Et; [|reflexivity].
  destruct (Qceqb (amount x) a) eqn:Ex; [|reflexivity].
  apply Qceqb_eq in Et, Ex. rewrite Et, Ex in E.
  exfalso. exact (Qclt_not_le _ _ E (Qcle_refl a)).
Qed.

Lemma sort_by_amount_stable (a : Qc) (l : list transaction) :
  with_amount a (analyzer.sort_by_amount l) = with_amount a l.
Proof.
  induction l as [|t l IH]; simpl; [reflexivity|].
  rewrite insert_by_amount_stable. unfold with_amount in *. simpl.
  rewrite IH. reflexivity.
Qed.

Lemma with_amount_firstn_prefix (a : Qc) (n : nat) (l : list transaction) :
  exists rest, with_amount a l = with_amount a (firstn n l) ++ rest.
Proof.
  exists (with_amount a (skipn n l)).
  unfold with_amount. rewrite <- filter_app, firstn_skipn. reflexivity.
Qed.

End Stability.

(** X6. Ties are broken by the order of the input: among the expenses of
    one amount, those kept in the largest-expenses list are the first ones
    of the input, in the order of the input. *)
Theorem largest_expenses_ties_in_input_order
        (transactions : list transaction) (a : Qc) :
  exists later,
    with_amount a (List.filter negative_amount transactions)
    = with_amount a
        (analyzer.largest_expenses (analyzer.calculate_basic_stats transactions))
      ++ later.
Proof.
  rewrite stats_largest.
  rewrite <- (sort_by_amount_stable a (filter negative_amount transactions)).
  apply with_amount_firstn_prefix.
Qed.

(** ** The statistics kept for backward compatibility *)

Section Legacy.

Local Open Scope Qc_scope.

Lemma original_fold_canonical (l : list transaction) (st : Qc * Qc) :
  Forall (fun t => type t = u "income" \/ type t = u "expense") l ->
  fold_left analyzer.original_step l st = st.
Proof.
  induction 1 as [|t l Ht _ IH]; simpl; [reflexivity|].
  assert (analyzer.original_step st t = st) as ->; [|exact IH].
  unfold analyzer.original_step. destruct st as [income expenses].
  destruct Ht as [-> | ->]; reflexivity.
Qed.

Lemma type_follows_sign_canonical (t : transaction) :
  type_follows_sign t -> type t = u "income" \/ type t = u "expense".
Proof.
  intros [Hpos Hneg].
  destruct (Qclt_le_dec (amount t) 0) as [L | L]; [right | left]; auto.
Qed.

End Legacy.

(** X7. [_calculate_basic_stats_original] looks for the types "доход" and
    "расход", the importer writes "income" and "expense": over any list the
    importer returns, its income, expenses and balance are 0 and only the
    count is that of the list. *)
Theorem original_stats_see_no_imported_amount
        (files : pystr -> option (list data_importer.raw_record))
        (filename : pystr) (imported : list transaction)
        (H : data_importer.import_financial_data files filename = Ok imported) :
  let stats := analyzer._calculate_basic_stats_original imported in
  analyzer.original_income stats = 0%Qc
  /\ analyzer.original_expenses stats = 0%Qc
  /\ analyzer.original_balance stats = 0%Qc
  /\ analyzer.transactions_n stats = List.length imported.
Proof.
  assert (Forall (fun t => type t = u "income" \/ type t = u "expense") imported)
    as Hcanon.
  { unfold data_importer.import_financial_data in H.
    assert (forall normalize guard rows kept,
               (forall row t, normalize row = Ok (Some t) ->
                              exists d a desc,
                                t = data_importer.make_transaction d a desc) ->
               data_importer.keep_normalized normalize guard rows = Ok kept ->
               Forall (fun t => type t = u "income" \/ type t = u "expense")
                      (filter data_importer.is_valid kept)) as G.
    { intros normalize guard rows kept Hmade Hk.
      apply Forall_forall. intros t Hin. apply filter_In in Hin.
      destruct Hin as [Hin _].
      assert (Forall type_follows_sign kept) as F.
      { apply (keep_normalized_Forall _ normalize guard rows kept); [|exact Hk].
        intros row t' Ht'. destruct (Hmade row t' Ht') as [d [a [desc ->]]].
        apply make_transaction_type. }
      rewrite Forall_forall in F. apply type_follows_sign_canonical, F, Hin. }
    destruct (files filename) as [records|]; [|injection H as <-; constructor].
    destruct (str_eqb _ (u "csv")).
    - destruct (data_importer.read_csv_file records) as [raw|e] eqn:E;
        simpl in H; [|discriminate].
      injection H as <-.
      exact (G _ _ _ _ normalize_csv_row_made E).
    - destruct (str_eqb _ (u "json")); [|injection H as <-; constructor].
      destruct (data_importer.read_json_file records) as [raw|e] eqn:E;
        simpl in H; [|discriminate].
      injection H as <-.
      exact (G _ _ _ _ normalize_json_item_made E). }
  cbv zeta. unfold analyzer._calculate_basic_stats_original.
  rewrite (original_fold_canonical imported _ Hcanon). simpl.
  split; [reflexivity|]. split; [reflexivity|]. split; reflexivity.
Qed.

Lemma original_stats_see_no_imported_amount_witness :
  let stats :=
    analyzer._calculate_basic_stats_original
      (match data_importer.import_financial_data one_csv_file (u "bank.CSV") with
       | Ok imported => imported
       | Raise _ => []
       end) in
  analyzer.original_income stats = 0%Qc
  /\ analyzer.original_expenses stats = 0%Qc
  /\ analyzer.original_balance stats = 0%Qc
  /\ analyzer.transactions_n stats = 2%nat.
Proof.
  apply (original_stats_see_no_imported_amount one_csv_file (u "bank.CSV")).
  vm_compute. reflexivity.
Defined.

(** ** Sign resolution *)

Section Signs.

Local Open Scope Qc_scope.

Lemma Qcabs_idem (x : Qc) : Qcabs (Qcabs x) = Qcabs x.
Proof. apply Qcabs_pos, Qcabs_nonneg. Qed.

Lemma Qcabs_neg_abs (x : Qc) : Qcabs (- Qcabs x) = Qcabs x.
Proof. rewrite Qcabs_opp. apply Qcabs_idem. Qed.

End Signs.

(** X9. Sign resolution changes the sign only: in both normalisers the
    resolved amount has the absolute value of the parsed one, whatever the
    type field holds. *)
Theorem sign_resolution_keeps_magnitude
        (parsed : Qc) (row : data_importer.raw_record) :
  Qcabs (data_importer._determine_amount_sign parsed row) = Qcabs parsed
  /\ Qcabs (data_importer._adjust_json_amount_sign parsed row) = Qcabs parsed.
Proof.
  unfold data_importer._determine_amount_sign,
    data_importer._adjust_json_amount_sign.
  split.
  - destruct (data_importer.any_in _ _);
      [apply Qcabs_neg_abs|].
    destruct (data_importer.any_in _ _); [apply Qcabs_idem | reflexivity].
  - destruct (dict_get row (u "type")); [|reflexivity].
    destruct (data_importer.any_in _ _);
      [apply Qcabs_neg_abs|].
    destruct (data_importer.any_in _ _); [apply Qcabs_idem | reflexivity].
Qed.

(** ** What a normalised date looks like *)

Section DateShape.

Import data_importer.

Lemma split_on_head_no_sep (sep : N) (s cur : pystr) :
  ~ In sep cur -> ~ In sep (hd [] (split_on_from sep cur s)).
Proof.
  revert cur. induction s as [|c s IH]; intros cur Hcur; simpl.
  - rewrite <- in_rev. exact Hcur.
  - destruct (c =? sep) eqn:E; simpl.
    + rewrite <- in_rev. exact Hcur.
    + apply IH. intros [<- | Hin]; [|exact (Hcur Hin)].
      rewrite N.eqb_refl in E. discriminate.
Qed.

Lemma digits_from_decimal (fuel : nat) (n : N) (acc : pystr) :
  Forall (fun c => 48 <= c <= 57) acc ->
  Forall (fun c => 48 <= c <= 57) (digits_from fuel n acc).
Proof.
  revert n acc. induction fuel as [|fuel IH]; intros n acc Hacc; simpl.
  - exact Hacc.
  - assert (Forall (fun c => 48 <= c <= 57) (digit_cp (n mod 10) :: acc)) as H1.
    { constructor; [|exact Hacc]. unfold digit_cp.
      assert (n mod 10 < 10) as Hr by (apply N.mod_upper_bound; discriminate).
      set (r := n mod 10) in *. clearbody r. lia. }
    destruct (n / 10 =? 0); [exact H1 | apply IH, H1].
Qed.

Lemma str_of_N_decimal (n : N) : Forall (fun c => 48 <= c <= 57) (str_of_N n).
Proof. apply digits_from_decimal. constructor. Qed.

Lemma zero_pad_decimal (width : nat) (s : pystr) :
  Forall (fun c => 48 <= c <= 57) s ->
  Forall (fun c => 48 <= c <= 57) (zero_pad width s).
Proof.
  intros H. unfold zero_pad. apply Forall_app. split; [|exact H].
  apply Forall_forall. intros c Hc. apply repeat_spec in Hc. subst c. lia.
Qed.

Lemma strftime_shape (d : N * N * N) :
  Forall (fun c => 48 <= c <= 57 \/ c = 45) (strftime d).
Proof.
  destruct d as [[year month] day]. unfold strftime.
  assert (forall s, Forall (fun c => 48 <= c <= 57) s ->
                    Forall (fun c => 48 <= c <= 57 \/ c = 45) s) as W
      by (intros s; apply Forall_impl; intros; left; assumption).
  apply Forall_app; split; [apply W, str_of_N_decimal|].
  apply Forall_app; split; [constructor; [right; reflexivity | constructor]|].
  apply Forall_app; split; [apply W, zero_pad_decimal, str_of_N_decimal|].
  apply Forall_app; split; [constructor; [right; reflexivity | constructor]|].
  apply W, zero_pad_decimal, str_of_N_decimal.
Qed.

Lemma normalize_date_no_space (date_str : pystr) :
  ~ In 32 (normalize_date date_str).
Proof.
  unfold normalize_date. destruct date_str as [|c0 s0]; [intros []|].
  set (clean := hd [] (split_on 32 (c0 :: s0))).
  assert (~ In 32 clean) as Hclean
      by (apply split_on_head_no_sep; intros []).
  destruct (find _ date_formats) as [fmt|]; [|exact Hclean].
  destruct (strptime clean fmt) as [d|]; [|exact Hclean].
  intros Hin. pose proof (strftime_shape d) as F.
  rewrite Forall_forall in F. destruct (F 32 Hin) as [B | B]; lia.
Qed.

Ltac open_normalizer_at H :=
  repeat match type of H with
         | context [if ?c then _ else _] =>
           destruct c eqn:?; try discriminate H
         | context [match ?x with _ => _ end] =>
           destruct x eqn:?; try discriminate H
         end.

Lemma or_default_nonempty (s default : pystr) :
  default <> [] -> or_default s default <> [].
Proof. destruct s; simpl; [auto | discriminate]. Qed.

Lemma is_empty_false (s : pystr) : is_empty s = false -> s <> [].
Proof. destruct s; [discriminate | discriminate]. Qed.

Lemma normalize_csv_row_shape (row : raw_record) (t : transaction) :
  normalize_csv_row row = Ok (Some t) -> canonical_shape t.
Proof.
  unfold normalize_csv_row, bind. intros H. open_normalizer_at H.
  injection H as <-. unfold canonical_shape, make_transaction; simpl.
  split; [apply is_empty_false; assumption|].
  split; [apply normalize_date_no_space|].
  split; [apply or_default_nonempty; discriminate | reflexivity].
Qed.

Lemma normalize_json_item_shape (item : raw_record) (t : transaction) :
  normalize_json_item item = Ok (Some t) -> canonical_shape t.
Proof.
  unfold normalize_json_item, bind. intros H. open_normalizer_at H.
  injection H as <-. unfold canonical_shape, make_transaction; simpl.
  split; [apply is_empty_false; assumption|].
  split; [apply normalize_date_no_space|].
  split; [apply or_default_nonempty; discriminate | reflexivity].
Qed.

Lemma keep_normalized_raises
      (normalize : raw_record -> result (option transaction))
      (guard : raw_record -> bool) (rows : list raw_record)
      (row : raw_record) (e : exn) :
  In row rows -> guard row = true -> normalize row = Raise e ->
  exists e', keep_normalized normalize guard rows = Raise e'.
Proof.
  intros Hin Hg Hn.
  induction rows as [|r rows IH]; simpl; [contradiction|].
  destruct Hin as [-> | Hin].
  - rewrite Hg, Hn. simpl. eauto.
  - destruct (IH Hin) as [e' IH'].
    destruct (guard r); [|eauto].
    destruct (normalize r) as [[t|]|e0]; simpl; [|eauto|eauto].
    rewrite IH'. simpl. eauto.
Qed.

End DateShape.

(** X10. Every transaction the importer returns has a non-empty date
    without a space in it, a non-empty description and no category: the
    description defaults to "No description", and the importer's own test
    of the date never removes a transaction. *)
Theorem imported_transactions_are_canonical
        (files : pystr -> option (list data_importer.raw_record))
        (filename : pystr) (imported : list transaction)
        (H : data_importer.import_financial_data files filename = Ok imported) :
  Forall canonical_shape imported
  /\ forall records,
      files filename = Some records ->
      (file_extension filename = u "csv" ->
       exists raw_data,
         data_importer.read_csv_file records = Ok raw_data
         /\ imported
            = List.filter (fun t => negb (Qceqb (amount t) 0)) raw_data)
      /\ (file_extension filename = u "json" ->
          exists raw_data,
            data_importer.read_json_file records = Ok raw_data
            /\ imported
               = List.filter (fun t => negb (Qceqb (amount t) 0)) raw_data).
Proof.
  assert (forall raw_data,
             Forall canonical_shape raw_data ->
             List.filter data_importer.is_valid raw_data
             = List.filter (fun t => negb (Qceqb (amount t) 0)) raw_data) as Hf.
  { induction 1 as [|t l [Hd _] _ IH]; simpl; [reflexivity|].
    rewrite IH. unfold data_importer.is_valid at 1.
    destruct (date t); [contradiction | reflexivity]. }
  assert (forall raw_data,
             Forall canonical_shape raw_data ->
             Forall canonical_shape
                    (List.filter data_importer.is_valid raw_data)) as Hk.
  { intros raw_data F. apply Forall_forall. intros t Hin.
    apply filter_In in Hin. rewrite Forall_forall in F. apply F, Hin. }
  unfold data_importer.import_financial_data in H.
  fold (file_extension filename) in H.
  destruct (files filename) as [records|].
  - destruct (str_eqb (file_extension filename) (u "csv")) eqn:Ecsv.
    + destruct (data_importer.read_csv_file records) as [raw|e] eqn:E;
        simpl in H; [|discriminate].
      injection H as <-.
      assert (Forall canonical_shape raw) as F
          by exact (keep_normalized_Forall _ _ _ _ _ normalize_csv_row_shape E).
      split; [apply Hk, F|].
      intros records' R. injection R as <-. split.
      * intros _. exists raw. split; [exact E | apply Hf, F].
      * intros Ej. rewrite Ej in Ecsv. discriminate.
    + destruct (str_eqb (file_extension filename) (u "json")) eqn:Ejson.
      * destruct (data_importer.read_json_file records) as [raw|e] eqn:E;
          simpl in H; [|discriminate].
        injection H as <-.
        assert (Forall canonical_shape raw) as F
            by exact (keep_normalized_Forall _ _ _ _ _
                        normalize_json_item_shape E).
        split; [apply Hk, F|].
        intros records' R. injection R as <-. split.
        -- intros Ec. rewrite Ec in Ecsv. discriminate.
        -- intros _. exists raw. split; [exact E | apply Hf, F].
      * injection H as <-. split; [constructor|].
        intros records' _. split; intros Ex.
        -- rewrite Ex in Ecsv. discriminate.
        -- rewrite Ex in Ejson. discriminate.
  - injection H as <-. split; [constructor|]. intros records' R. discriminate.
Qed.

Lemma imported_transactions_are_canonical_witness :
  Forall canonical_shape
         (match data_importer.import_financial_data one_csv_file (u "bank.CSV") with
          | Ok imported => imported
          | Raise _ => []
          end).
Proof.
  apply (imported_transactions_are_canonical one_csv_file (u "bank.CSV")).
  vm_compute. reflexivity.
Defined.

(** X11. One record on which the normaliser raises aborts the whole import:
    when a row of a tabular file that has a non-empty value, or an item of a
    record-oriented file, makes its normaliser raise, the importer raises
    and returns no transaction of the other records. *)
Theorem raising_record_aborts_import
        (files : pystr -> option (list data_importer.raw_record))
        (filename : pystr) (records : list data_importer.raw_record)
        (record : data_importer.raw_record) (e : exn)
        (Hfile : files filename = Some records)
        (Hin : In record records)
        (Hraise :
           (file_extension filename = u "csv"
            /\ List.existsb data_importer.truthy (dict_values record) = true
            /\ data_importer.normalize_csv_row record = Raise e)
           \/ (file_extension filename = u "json"
               /\ data_importer.normalize_json_item record = Raise e)) :
  exists e', data_importer.import_financial_data files filename = Raise e'.
Proof.
  unfold data_importer.import_financial_data.
  fold (file_extension filename). rewrite Hfile.
  destruct Hraise as [[Ex [Hg Hn]] | [Ex Hn]]; rewrite Ex.
  - assert (str_eqb (u "csv") (u "csv") = true) as -> by reflexivity.
    destruct (keep_normalized_raises data_importer.normalize_csv_row
                (fun row => List.existsb data_importer.truthy (dict_values row))
                records record e Hin Hg Hn) as [e' He'].
    unfold data_importer.read_csv_file. rewrite He'. simpl. eauto.
  - assert (str_eqb (u "json") (u "csv") = false) as -> by reflexivity.
    assert (str_eqb (u "json") (u "json") = true) as -> by reflexivity.
    destruct (keep_normalized_raises data_importer.normalize_json_item
                (fun _ => true) records record e Hin eq_refl Hn) as [e' He'].
    unfold data_importer.read_json_file. rewrite He'. simpl. eauto.
Qed.

Lemma raising_record_aborts_import_witness :
  exists e',
    data_importer.import_financial_data broken_csv_file (u "bank.csv") = Raise e'.
Proof.
  apply (raising_record_aborts_import broken_csv_file (u "bank.csv")
           [scenario_record; inner_minus_record] inner_minus_record ValueError).
  - vm_compute. reflexivity.
  - right. left. reflexivity.
  - left. split; [vm_compute; reflexivity|].
    split; vm_compute; reflexivity.
Defined.

(** ** Dates in canonical form *)

Section Dates.

Import data_importer.

Lemma split_on_from_nosep (sep : N) (a cur : pystr) :
  ~ In sep a -> split_on_from sep cur a = [rev cur ++ a].
Proof.
  revert cur. induction a as [|c a IH]; intros cur Ha; simpl.
  - rewrite app_nil_r. reflexivity.
  - destruct (c =? sep) eqn:E.
    + apply N.eqb_eq in E. exfalso. apply Ha. left. exact E.
    + rewrite IH; [|intros Hin; apply Ha; right; exact Hin].
      simpl. rewrite <- app_assoc. reflexivity.
Qed.

Lemma split_on_from_app (sep : N) (a rest cur : pystr) :
  ~ In sep a ->
  split_on_from sep cur (a ++ sep :: rest)
  = (rev cur ++ a) :: split_on_from sep [] rest.
Proof.
  revert cur. induction a as [|c a IH]; intros cur Ha; simpl.
  - rewrite N.eqb_refl, app_nil_r. reflexivity.
  - destruct (c =? sep) eqn:E.
    + apply N.eqb_eq in E. exfalso. apply Ha. left. exact E.
    + rewrite IH; [|intros Hin; apply Ha; right; exact Hin].
      simpl. rewrite <- app_assoc. reflexivity.
Qed.

Lemma decimal_excludes (s : pystr) (x : N) :
  Forall (fun c => 48 <= c <= 57) s -> x < 48 \/ 57 < x -> ~ In x s.
Proof.
  intros F Hx Hin. rewrite Forall_forall in F. specialize (F x Hin). lia.
Qed.

Lemma below_enum (P : N -> bool) (n : N) :
  forallb P (map N.of_nat (seq 0 (N.to_nat n))) = true ->
  forall x, x < n -> P x = true.
Proof.
  intros H x Hx. rewrite forallb_forall in H. apply H.
  apply in_map_iff. exists (N.to_nat x). split; [apply N2Nat.id|].
  apply in_seq. lia.
Qed.

(** The four-digit years are read back, the shorter ones are refused. *)
Lemma year_table (y : N) :
  y < 10000 ->
  directive_value dY (str_of_N y) = if 1000 <=? y then Some y else None.
Proof.
  intros Hy.
  pose (P := fun y =>
               match directive_value dY (str_of_N y) with
               | Some v => (1000 <=? y) && (v =? y)
               | None => y <? 1000
               end).
  assert (P y = true) as H
      by (apply (below_enum P 10000); [vm_compute; reflexivity | exact Hy]).
  unfold P in H. clear P.
  destruct (directive_value dY (str_of_N y)) as [v|].
  - apply andb_true_iff in H. destruct H as [H1 H2].
    rewrite H1. apply N.eqb_eq in H2. subst v. reflexivity.
  - apply N.ltb_lt in H.
    assert ((1000 <=? y) = false) as -> by (apply N.leb_gt; exact H).
    reflexivity.
Qed.

Lemma month_table (m : N) :
  1 <= m <= 12 -> directive_value dm (zero_pad 2 (str_of_N m)) = Some m.
Proof.
  intros Hm.
  pose (P := fun m =>
               (m =? 0)
               || match directive_value dm (zero_pad 2 (str_of_N m)) with
                  | Some v => v =? m
                  | None => false
                  end).
  assert (P m = true) as H
      by (apply (below_enum P 13); [vm_compute; reflexivity | lia]).
  unfold P in H. clear P.
  assert ((m =? 0) = false) as E by (apply N.eqb_neq; lia).
  rewrite E, orb_false_l in H.
  destruct (directive_value dm (zero_pad 2 (str_of_N m))) as [v|];
    [|discriminate H].
  apply N.eqb_eq in H. subst v. reflexivity.
Qed.

Lemma day_table (d : N) :
  1 <= d <= 31 -> directive_value dd (zero_pad 2 (str_of_N d)) = Some d.
Proof.
  intros Hd.
  pose (P := fun d =>
               (d =? 0)
               || match directive_value dd (zero_pad 2 (str_of_N d)) with
                  | Some v => v =? d
                  | None => false
                  end).
  assert (P d = true) as H
      by (apply (below_enum P 32); [vm_compute; reflexivity | lia]).
  unfold P in H. clear P.
  assert ((d =? 0) = false) as E by (apply N.eqb_neq; lia).
  rewrite E, orb_false_l in H.
  destruct (directive_value dd (zero_pad 2 (str_of_N d))) as [v|];
    [|discriminate H].
  apply N.eqb_eq in H. subst v. reflexivity.
Qed.

Lemma days_in_month_le_31 (y m : N) : days_in_month y m <= 31.
Proof.
  unfold days_in_month.
  destruct (m =? 2); [destruct (is_leap y); lia|].
  destruct (_ || _); lia.
Qed.

Lemma strftime_parts (y m d : N) :
  strftime (y, m, d)
  = str_of_N y ++ 45 :: zero_pad 2 (str_of_N m)
              ++ 45 :: zero_pad 2 (str_of_N d).
Proof. reflexivity. Qed.

Lemma strftime_split (y m d : N) :
  split_on 45 (strftime (y, m, d))
  = [str_of_N y; zero_pad 2 (str_of_N m); zero_pad 2 (str_of_N d)].
Proof.
  rewrite strftime_parts. unfold split_on.
  rewrite split_on_from_app
    by (apply decimal_excludes; [apply str_of_N_decimal | lia]).
  rewrite split_on_from_app
    by (apply decimal_excludes;
        [apply zero_pad_decimal, str_of_N_decimal | lia]).
  rewrite split_on_from_nosep
    by (apply decimal_excludes;
        [apply zero_pad_decimal, str_of_N_decimal | lia]).
  reflexivity.
Qed.

Lemma strftime_no (x : N) (d : N * N * N) :
  x < 45 \/ (45 < x /\ x < 48) \/ 57 < x -> ~ In x (strftime d).
Proof.
  intros Hx Hin. pose proof (strftime_shape d) as F.
  rewrite Forall_forall in F. specialize (F x Hin). lia.
Qed.

Lemma strftime_nonempty (d : N * N * N) : strftime d <> [].
Proof.
  destruct d as [[y m] d]. rewrite strftime_parts.
  intros H. apply app_eq_nil in H. destruct H as [_ H]. discriminate.
Qed.

(** Reading a rendered date with the pattern [%Y-%m-%d]. *)
Lemma strptime_strftime (y m d : N) :
  valid_date (y, m, d) ->
  strptime (strftime (y, m, d)) iso_format
  = if 1000 <=? y then Some (y, m, d) else None.
Proof.
  intros [Hy [Hm Hd]].
  pose proof (days_in_month_le_31 y m) as H31.
  unfold strptime. change (sep iso_format) with 45.
  rewrite strftime_split.
  change (first iso_format) with dY. change (second iso_format) with dm.
  change (third iso_format) with dd.
  rewrite year_table by lia.
  destruct (1000 <=? y); [|reflexivity].
  rewrite month_table by lia. rewrite day_table by lia.
  change (field iso_format dY y m d) with y.
  change (field iso_format dm y m d) with m.
  change (field iso_format dd y m d) with d.
  assert ((1 <=? y) = true) as -> by (apply N.leb_le; lia).
  assert ((d <=? days_in_month y m) = true) as -> by (apply N.leb_le; lia).
  reflexivity.
Qed.

Lemma strptime_needs_sep (s : pystr) (fmt : date_format) :
  ~ In (sep fmt) s -> strptime s fmt = None.
Proof.
  intros H. unfold strptime, split_on.
  rewrite split_on_from_nosep by exact H. reflexivity.
Qed.

Lemma normalize_date_clean (s : pystr) :
  s <> [] -> ~ In 32 s ->
  normalize_date s
  = match find (_is_valid_date s) date_formats with
    | Some fmt =>
      match strptime s fmt with
      | Some date_obj => strftime date_obj
      | None => s
      end
    | None => s
    end.
Proof.
  intros Hne Hsp. unfold normalize_date.
  destruct s as [|c s]; [contradiction|].
  unfold split_on. rewrite split_on_from_nosep by exact Hsp. reflexivity.
Qed.

Lemma normalize_date_suffix (s time_of_day : pystr) :
  s <> [] -> ~ In 32 s ->
  normalize_date (s ++ 32 :: time_of_day) = normalize_date s.
Proof.
  intros Hne Hsp. rewrite (normalize_date_clean s Hne Hsp).
  unfold normalize_date.
  destruct (s ++ 32 :: time_of_day) as [|c r] eqn:E.
  - apply app_eq_nil in E. destruct E as [_ E]. discriminate.
  - rewrite <- E. unfold split_on.
    rewrite split_on_from_app by exact Hsp. reflexivity.
Qed.

Lemma normalize_date_strftime (y m d : N) :
  valid_date (y, m, d) ->
  normalize_date (strftime (y, m, d)) = strftime (y, m, d).
Proof.
  intros Hv.
  rewrite normalize_date_clean;
    [|apply strftime_nonempty | apply strftime_no; lia].
  destruct (1000 <=? y) eqn:Ey.
  - assert (find (_is_valid_date (strftime (y, m, d))) date_formats
            = Some iso_format) as ->.
    { unfold date_formats. cbn [find]. fold iso_format.
      unfold _is_valid_date at 1.
      rewrite (strptime_strftime y m d Hv), Ey. reflexivity. }
    rewrite (strptime_strftime y m d Hv), Ey. reflexivity.
  - assert (find (_is_valid_date (strftime (y, m, d))) date_formats = None)
      as ->; [|reflexivity].
    destruct (find _ date_formats) as [fmt|] eqn:F; [|reflexivity].
    apply find_some in F. destruct F as [Hin Hvalid].
    unfold _is_valid_date in Hvalid.
    assert (strptime (strftime (y, m, d)) fmt = None) as Hnone.
    { unfold date_formats in Hin. simpl in Hin.
      destruct Hin as [<-|[<-|[<-|[<-|[<-|[]]]]]].
      - fold iso_format. rewrite (strptime_strftime y m d Hv), Ey. reflexivity.
      - apply strptime_needs_sep. simpl sep. apply strftime_no. lia.
      - apply strptime_needs_sep. simpl sep. apply strftime_no. lia.
      - apply strptime_needs_sep. simpl sep. apply strftime_no. lia.
      - apply strptime_needs_sep. simpl sep. apply strftime_no. lia. }
    rewrite Hnone in Hvalid. discriminate.
Qed.

Ltac bool_facts :=
  repeat match goal with
         | H : _ && _ = true |- _ => apply andb_true_iff in H; destruct H
         | H : in_range _ _ _ = true |- _ =>
           unfold in_range in H
         | H : (_ <=? _) = true |- _ => apply N.leb_le in H
         | H : (_ =? _) = true |- _ => apply N.eqb_eq in H
         | H : _ || _ = true |- _ => apply orb_true_iff in H; destruct H
         end.

Ltac some_eq E :=
  match type of E with
  | Some ?x = Some ?y =>
    let H := fresh in assert (x = y) as H by congruence; subst y; clear E
  end.

Lemma month_value_range (p : pystr) (v : N) :
  directive_value dm p = Some v -> 1 <= v <= 12.
Proof.
  destruct p as [|a [|b [|c p]]]; cbn [directive_value]; try discriminate.
  - destruct (in_range 49 57 a) eqn:A; [|discriminate].
    intros E. some_eq E. bool_facts. lia.
  - destruct ((a =? 49) && in_range 48 50 b) eqn:A.
    + intros E. some_eq E. bool_facts. lia.
    + destruct ((a =? 48) && in_range 49 57 b) eqn:B; [|discriminate].
      intros E. some_eq E. bool_facts. lia.
Qed.

Lemma day_value_range (p : pystr) (v : N) :
  directive_value dd p = Some v -> 1 <= v <= 31.
Proof.
  destruct p as [|a [|b [|c p]]]; cbn [directive_value]; try discriminate.
  - destruct (in_range 49 57 a) eqn:A; [|discriminate].
    intros E. some_eq E. bool_facts. lia.
  - destruct ((a =? 51) && in_range 48 49 b) eqn:A.
    + intros E. some_eq E. bool_facts. lia.
    + destruct (in_range 49 50 a && in_range 48 57 b) eqn:B.
      * intros E. some_eq E. bool_facts. nia.
      * destruct (((a =? 48) || (a =? 32)) && in_range 49 57 b) eqn:C;
          [|discriminate].
        intros E. some_eq E. bool_facts; lia.
Qed.

Lemma year_value_range (p : pystr) (v : N) :
  directive_value dY p = Some v -> v <= 9999.
Proof.
  destruct p as [|a [|b [|c [|e [|f p]]]]]; cbn [directive_value];
    try discriminate.
  unfold all_decimal. cbn [forallb].
  destruct (is_decimal a && (is_decimal b && (is_decimal c && (is_decimal e && true))))
           eqn:A; [|discriminate].
  intros E. some_eq E.
  unfold is_decimal in A. bool_facts.
  unfold int_of_digits, digit_value. cbn [fold_left]. lia.
Qed.

Lemma strptime_valid (s : pystr) (fmt : date_format) (d : N * N * N) :
  In fmt date_formats -> strptime s fmt = Some d -> valid_date d.
Proof.
  intros Hin H. unfold strptime in H.
  destruct (split_on (sep fmt) s) as [|p1 [|p2 [|p3 [|p4 ps]]]];
    try discriminate.
  destruct (directive_value (first fmt) p1) as [v1|] eqn:E1; [|discriminate].
  destruct (directive_value (second fmt) p2) as [v2|] eqn:E2; [|discriminate].
  destruct (directive_value (third fmt) p3) as [v3|] eqn:E3; [|discriminate].
  unfold date_formats in Hin. simpl in Hin.
  destruct Hin as [<-|[<-|[<-|[<-|[<-|[]]]]]];
    cbn [first second third field directive_eqb] in *;
    match type of H with
    | (if ?c then _ else _) = _ => destruct c eqn:C; [|discriminate]
    end;
    injection H as <-; apply andb_true_iff in C; destruct C as [C1 C2];
    apply N.leb_le in C1, C2;
    repeat match goal with
           | E : directive_value dY _ = Some _ |- _ =>
             apply year_value_range in E
           | E : directive_value dm _ = Some _ |- _ =>
             apply month_value_range in E
           | E : directive_value dd _ = Some _ |- _ =>
             apply day_value_range in E
           end;
    unfold valid_date; lia.
Qed.

End Dates.

(** X12. A date in canonical form is a fixed point: for every calendar date
    of the years 1 to 9999, [normalize_date] returns the text that
    [strftime('%Y-%m-%d')] renders for it unchanged, and also when a space
    and a time of day follow it. *)
Theorem canonical_date_is_fixed_point
        (year month day : N) (time_of_day : pystr)
        (Hvalid : valid_date (year, month, day)) :
  data_importer.normalize_date (data_importer.strftime (year, month, day))
  = data_importer.strftime (year, month, day)
  /\ data_importer.normalize_date
       (data_importer.strftime (year, month, day) ++ 32 :: time_of_day)
     = data_importer.strftime (year, month, day).
Proof.
  split.
  - apply normalize_date_strftime, Hvalid.
  - rewrite normalize_date_suffix;
      [apply normalize_date_strftime, Hvalid
      | apply strftime_nonempty | apply strftime_no; lia].
Qed.

Lemma canonical_date_is_fixed_point_witness :
  data_importer.normalize_date (u "2024-01-15") = u "2024-01-15"
  /\ data_importer.normalize_date (u "2024-01-15 10:30:00") = u "2024-01-15".
Proof.
  apply (canonical_date_is_fixed_point 2024 1 15 (u "10:30:00")).
  vm_compute. repeat split; discriminate.
Defined.

(** X13. [normalize_date] is idempotent: normalising its result gives the
    same text, whether a pattern matched or the text was passed through. *)
Theorem normalize_date_idempotent (date_str : pystr) :
  data_importer.normalize_date (data_importer.normalize_date date_str)
  = data_importer.normalize_date date_str.
Proof.
  destruct date_str as [|c0 s0]; [reflexivity|].
  unfold data_importer.normalize_date at 2 3.
  set (clean := hd [] (split_on 32 (c0 :: s0))).
  assert (~ In 32 clean) as Hclean
      by (apply split_on_head_no_sep; intros []).
  destruct (find (data_importer._is_valid_date clean) data_importer.date_formats)
    as [fmt|] eqn:F.
  - apply find_some in F. destruct F as [Hin V].
    unfold data_importer._is_valid_date in V.
    destruct (data_importer.strptime clean fmt) as [[[y m] d]|] eqn:P;
      [|discriminate].
    apply normalize_date_strftime.
    exact (strptime_valid clean fmt (y, m, d) Hin P).
  - destruct clean as [|c1 s1] eqn:Ec; [reflexivity|].
    rewrite normalize_date_clean; [|discriminate | exact Hclean].
    rewrite F. reflexivity.
Qed.

(** ** The numeric test and [float] *)

Section Numeric.

Import data_importer.

Lemma cleaned_cons (c : N) (v : pystr) :
  cleaned (c :: v)
  = if c =? 44 then 46 :: cleaned v
    else if c =? 32 then cleaned v else c :: cleaned v.
Proof.
  unfold cleaned, replace_char. cbn [flat_map].
  destruct (c =? 44) eqn:E44.
  - cbn [flat_map app]. reflexivity.
  - cbn [flat_map app]. destruct (c =? 32); reflexivity.
Qed.

Lemma replace_nil_cons (old c : N) (s : pystr) :
  replace_char old [] (c :: s)
  = if c =? old then replace_char old [] s else c :: replace_char old [] s.
Proof.
  unfold replace_char. cbn [flat_map]. destruct (c =? old); reflexivity.
Qed.

Lemma replace_nil_In (old x : N) (s : pystr) :
  In x (replace_char old [] s) <-> In x s /\ x <> old.
Proof.
  induction s as [|c s IH]; [simpl; tauto|].
  rewrite replace_nil_cons. destruct (c =? old) eqn:E.
  - apply N.eqb_eq in E. rewrite IH. simpl. split.
    + intros [H1 H2]. auto.
    + intros [[H1 | H1] H2]; [congruence | auto].
  - apply N.eqb_neq in E. simpl. rewrite IH. split.
    + intros [<- | [H1 H2]]; auto.
    + intros [[H1 | H1] H2]; auto.
Qed.

Lemma cleaned_In (x : N) (v : pystr) :
  In x (cleaned v) -> (In x v /\ x <> 32 /\ x <> 44) \/ (x = 46 /\ In 44 v).
Proof.
  induction v as [|c v IH]; [intros []|].
  rewrite cleaned_cons. destruct (c =? 44) eqn:E44.
  - apply N.eqb_eq in E44. subst c. intros [<- | H].
    + right. split; [reflexivity | left; reflexivity].
    + destruct (IH H) as [[A B] | [A B]]; [left | right]; simpl; auto.
  - destruct (c =? 32) eqn:E32.
    + intros H. destruct (IH H) as [[A B] | [A B]]; [left | right]; simpl; auto.
    + apply N.eqb_neq in E44, E32. intros [<- | H].
      * left. simpl. auto.
      * destruct (IH H) as [[A B] | [A B]]; [left | right]; simpl; auto.
Qed.

Lemma In_cleaned (x : N) (v : pystr) :
  In x v -> x <> 32 -> x <> 44 -> In x (cleaned v).
Proof.
  induction v as [|c v IH]; [intros []|].
  intros Hin H32 H44. rewrite cleaned_cons.
  destruct Hin as [-> | Hin].
  - apply N.eqb_neq in H32, H44. rewrite H32, H44. left. reflexivity.
  - destruct (c =? 44); [right; auto|].
    destruct (c =? 32); [auto | right; auto].
Qed.

Lemma count_cleaned (v : pystr) :
  count_char 46 (cleaned v) = (count_char 46 v + count_char 44 v)%nat.
Proof.
  unfold count_char.
  induction v as [|c v IH]; [reflexivity|].
  rewrite cleaned_cons. cbn [filter].
  destruct (c =? 44) eqn:E44.
  - apply N.eqb_eq in E44. subst c. cbn [filter]. simpl (46 =? 46).
    simpl (46 =? 44). simpl (44 =? 44). cbn [List.length]. rewrite IH. lia.
  - rewrite (N.eqb_sym 44 c), E44.
    destruct (c =? 32) eqn:E32.
    + apply N.eqb_eq in E32. subst c. simpl (46 =? 32). exact IH.
    + cbn [filter]. destruct (46 =? c); cbn [List.length]; rewrite IH; reflexivity.
Qed.

(** What [_is_float] has checked when it answers [True]. *)
Lemma _is_float_checked (value : pystr) :
  _is_float value = true ->
  (count_char 46 (cleaned value) <= 1)%nat
  /\ (forall c, In c (cleaned value) ->
                c = 46 \/ c = 45 \/ is_digit c = true)
  /\ exists c, In c (cleaned value) /\ c <> 46 /\ c <> 45
               /\ is_digit c = true.
Proof.
  unfold _is_float. destruct value as [|c0 v0]; [discriminate|].
  fold (cleaned (c0 :: v0)). set (s := cleaned (c0 :: v0)).
  intros H. apply andb_true_iff in H. destruct H as [H _].
  apply andb_true_iff in H. destruct H as [H _].
  apply andb_true_iff in H. destruct H as [Hdots Hdig].
  apply Nat.leb_le in Hdots.
  unfold isdigit in Hdig.
  destruct (replace_char 45 [] (replace_char 46 [] s)) as [|n ns] eqn:En;
    [discriminate|].
  rewrite forallb_forall in Hdig.
  assert (forall c, In c (n :: ns) <-> (In c s /\ c <> 46) /\ c <> 45) as Hn.
  { intros c. rewrite <- En, replace_nil_In, replace_nil_In. tauto. }
  split; [exact Hdots|]. split.
  - intros c Hc.
    destruct (N.eq_dec c 46) as [->|N46]; [auto|].
    destruct (N.eq_dec c 45) as [->|N45]; [auto|].
    right. right. apply Hdig, Hn. auto.
  - exists n. assert (In n (n :: ns)) as Hin by (left; reflexivity).
    pose proof (Hdig n Hin) as D. apply Hn in Hin.
    destruct Hin as [[A B] C]. auto.
Qed.

Lemma is_decimal_range (c : N) : is_decimal c = true <-> 48 <= c <= 57.
Proof.
  unfold is_decimal, in_range. rewrite andb_true_iff, !N.leb_le. tauto.
Qed.

Lemma drop_space_id (s : pystr) :
  (forall c, In c s -> is_space c = false) -> drop_space s = s.
Proof.
  destruct s as [|c s]; [reflexivity|]. intros H. simpl.
  rewrite (H c (or_introl eq_refl)). reflexivity.
Qed.

Lemma strip_id (s : pystr) :
  (forall c, In c s -> is_space c = false) -> strip s = s.
Proof.
  intros H. unfold strip. rewrite (drop_space_id s H).
  rewrite drop_space_id; [apply rev_involutive|].
  intros c Hc. apply H, in_rev, Hc.
Qed.

Lemma one_dot_at_most (t : pystr) :
  (count_char 46 t <= 1)%nat ->
  ~ In 46 t
  \/ exists a b, t = a ++ 46 :: b /\ ~ In 46 a /\ ~ In 46 b.
Proof.
  unfold count_char.
  induction t as [|c t IH]; [left; intros []|].
  cbn [filter]. destruct (46 =? c) eqn:E.
  - apply N.eqb_eq in E. subst c. cbn [List.length]. intros H.
    assert (~ In 46 t) as Hno.
    { intros Hin.
      assert (In 46 (filter (N.eqb 46) t)) as Hf
          by (apply filter_In; split; [exact Hin | reflexivity]).
      destruct (filter (N.eqb 46) t); [exact Hf | simpl in H; lia]. }
    right. exists [], t. split; [reflexivity|]. split; [intros [] | exact Hno].
  - apply N.eqb_neq in E. intros H. destruct (IH H) as [Hno | [a [b [-> [Ha Hb]]]]].
    + left. intros [Hc | Hin]; [congruence | exact (Hno Hin)].
    + right. exists (c :: a), b. split; [reflexivity|].
      split; [|exact Hb]. intros [Hc | Hin]; [congruence | exact (Ha Hin)].
Qed.

Lemma all_unicode_decimal_of (t : pystr) :
  (forall c, In c t -> is_unicode_decimal c = true) ->
  all_unicode_decimal t = true.
Proof. intros H. apply forallb_forall. exact H. Qed.

(** A decimal digit is neither white space nor a sign nor the point. *)
Lemma unicode_decimal_plain (c : N) :
  is_unicode_decimal c = true -> is_space c = false /\ 48 <= c.
Proof.
  intros H. unfold is_unicode_decimal, in_ranges, decimal_ranges in H.
  cbn [existsb fst snd] in H. unfold in_range in H.
  rewrite !orb_true_iff, !andb_true_iff, !N.leb_le in H.
  split; [|lia].
  destruct (is_space c) eqn:S; [|reflexivity]. exfalso.
  unfold is_space, in_range in S.
  rewrite !orb_true_iff, !andb_true_iff, !N.leb_le, !N.eqb_eq in S. lia.
Qed.

(** [float] on digits with at most one point. *)
Lemma unsigned_float_ok (t : pystr) :
  (forall c, In c t -> c = 46 \/ is_unicode_decimal c = true) ->
  (count_char 46 t <= 1)%nat ->
  (exists c, In c t /\ c <> 46) ->
  exists q, unsigned_float t = Ok q.
Proof.
  intros Hchars Hdots [d [Hd Hd46]].
  unfold unsigned_float, split_on.
  destruct (one_dot_at_most t Hdots) as [Hno | [a [b [-> [Ha Hb]]]]].
  - rewrite split_on_from_nosep by exact Hno. cbn [rev app].
    rewrite all_unicode_decimal_of.
    + destruct t; [contradiction | simpl; eauto].
    + intros c Hc. destruct (Hchars c Hc) as [-> | D]; [contradiction | exact D].
  - rewrite split_on_from_app by exact Ha.
    rewrite split_on_from_nosep by exact Hb. cbn [rev app].
    rewrite !all_unicode_decimal_of.
    + assert ((0 <? List.length a + List.length b)%nat = true) as ->;
        [|simpl; eauto].
      apply Nat.ltb_lt. apply in_app_or in Hd.
      destruct Hd as [Hd | [Hd | Hd]]; [|congruence|].
      * destruct a; [contradiction | simpl; lia].
      * destruct b; [contradiction | simpl; lia].
    + intros c Hc.
      destruct (Hchars c (in_or_app a (46 :: b) c (or_intror (in_cons 46 c b Hc))))
        as [-> | D]; [contradiction | exact D].
    + intros c Hc.
      destruct (Hchars c (in_or_app a (46 :: b) c (or_introl Hc)))
        as [-> | D]; [contradiction | exact D].
Qed.

Lemma count_tail (x c : N) (t : pystr) :
  (count_char x (c :: t) <= 1)%nat -> (count_char x t <= 1)%nat.
Proof.
  unfold count_char. cbn [filter]. destruct (x =? c); simpl; lia.
Qed.

(** [float] on a text the numeric test accepts, when its digits are plain
    and a minus sign stands only in front. *)
Lemma float_ok (s : pystr) :
  (count_char 46 s <= 1)%nat ->
  (forall c, In c s -> c = 46 \/ c = 45 \/ is_unicode_decimal c = true) ->
  (exists c, In c s /\ c <> 46 /\ c <> 45) ->
  ~ In 45 (tl s) ->
  exists q, float s = Ok q.
Proof.
  intros Hdots Hchars [d [Hd [Hd46 Hd45]]] Htail.
  unfold float. rewrite strip_id.
  - destruct s as [|c t]; [contradiction|]. cbn [tl] in Htail.
    assert (forall x, In x t -> x = 46 \/ is_unicode_decimal x = true) as Ht.
    { intros x Hx. destruct (Hchars x (or_intror Hx)) as [A | [A | A]]; auto.
      subst x. contradiction. }
    destruct (N.eq_dec c 45) as [-> | N45].
    + destruct (unsigned_float_ok t Ht (count_tail _ _ _ Hdots)) as [q Hq].
      * exists d. destruct Hd as [Hd | Hd]; [congruence | auto].
      * rewrite Hq. simpl. eauto.
    + assert (exists q, unsigned_float (c :: t) = Ok q) as [q Hq].
      { apply unsigned_float_ok; [|exact Hdots|exists d; auto].
        intros x [<- | Hx]; [|auto].
        destruct (Hchars c (or_introl eq_refl)) as [A | [A | A]];
          [auto | contradiction | auto]. }
      assert (c <> 43) as N43.
      { intros ->. destruct (Hchars 43 (or_introl eq_refl)) as [A | [A | A]];
          [discriminate A | discriminate A |].
        apply unicode_decimal_plain in A. destruct A as [_ A]. lia. }
      exists q. rewrite <- Hq.
      destruct c as [|p]; [reflexivity|].
      do 6 (destruct p as [p|p|]; try reflexivity); congruence.
  - intros c Hc.
    destruct (Hchars c Hc) as [-> | [-> | D]];
      [reflexivity | reflexivity |].
    apply unicode_decimal_plain in D. exact (proj1 D).
Qed.

Lemma cleaned_plain (value : pystr) :
  plain_digits value ->
  forall c, In c (cleaned value) -> is_digit c = true ->
            is_unicode_decimal c = true.
Proof.
  intros Hp c Hc Hd. unfold plain_digits in Hp. rewrite Forall_forall in Hp.
  destruct (cleaned_In c value Hc) as [[Hin _] | [-> _]].
  - apply Hp; assumption.
  - vm_compute in Hd. discriminate Hd.
Qed.

Lemma float_after_is_float (value : pystr) :
  _is_float value = true ->
  plain_digits value ->
  ~ In 45 (tl (cleaned value)) ->
  exists q, float (cleaned value) = Ok q.
Proof.
  intros Hf Hp Htail.
  destruct (_is_float_checked value Hf) as [Hdots [Hchars [d [Hd [A [B _]]]]]].
  apply float_ok; [exact Hdots| |exists d; auto|exact Htail].
  intros c Hc. destruct (Hchars c Hc) as [E | [E | E]]; auto.
  right. right. apply (cleaned_plain value Hp c Hc E).
Qed.

Lemma cleaned_no_space (value : pystr) :
  ~ In 32 value -> cleaned value = replace_char 44 [46] value.
Proof.
  unfold cleaned. intros H.
  assert (~ In 32 (replace_char 44 [46] value)) as H'.
  { unfold replace_char. intros Hin. apply in_flat_map in Hin.
    destruct Hin as [c [Hc Hin]]. destruct (c =? 44).
    - destruct Hin as [E | []]. discriminate E.
    - destruct Hin as [E | []]. subst c. contradiction. }
  revert H'. generalize (replace_char 44 [46] value). intros l Hl.
  induction l as [|c l IH]; [reflexivity|].
  rewrite replace_nil_cons.
  destruct (c =? 32) eqn:E.
  - apply N.eqb_eq in E. exfalso. apply Hl. left. exact E.
  - rewrite IH; [reflexivity|]. intros Hin. apply Hl. right. exact Hin.
Qed.

End Numeric.

(** X14. The numeric test accepts only texts made of digits, points,
    commas, spaces and minus signs, with at most one point or comma in all
    and at least one digit; so no exponent, no [inf] or [nan] and no
    underscore ever reaches [float]. *)
Theorem is_float_alphabet (value : pystr)
        (H : data_importer._is_float value = true) :
  Forall (fun c => is_digit c = true
                   \/ c = 46 \/ c = 44 \/ c = 32 \/ c = 45) value
  /\ (count_char 46 value + count_char 44 value <= 1)%nat
  /\ exists c, In c value /\ is_digit c = true.
Proof.
  destruct (_is_float_checked value H) as [Hdots [Hchars [d [Hd [A [B D]]]]]].
  split; [|split].
  - apply Forall_forall. intros c Hc.
    destruct (N.eq_dec c 32) as [->|N32]; [auto|].
    destruct (N.eq_dec c 44) as [->|N44]; [auto|].
    destruct (Hchars c (In_cleaned c value Hc N32 N44)) as [E | [E | E]]; auto.
  - rewrite <- count_cleaned. exact Hdots.
  - exists d. split; [|exact D].
    destruct (cleaned_In d value Hd) as [[Hin _] | [E _]];
      [exact Hin | contradiction].
Qed.

Lemma is_float_alphabet_witness :
  Forall (fun c => is_digit c = true
                   \/ c = 46 \/ c = 44 \/ c = 32 \/ c = 45) (u "1 234,50")
  /\ (count_char 46 (u "1 234,50") + count_char 44 (u "1 234,50") <= 1)%nat
  /\ exists c, In c (u "1 234,50") /\ is_digit c = true.
Proof.
  apply (is_float_alphabet (u "1 234,50")). vm_compute. reflexivity.
Defined.

(** X15. A text the numeric test accepts is read by [float] once its
    commas are points and its spaces are gone, which is what the tabular
    normaliser hands over, when its digits are decimal digits (none of the
    superscripts, circled digits and the like that [isdigit] accepts) and
    no minus sign follows its first character; when it holds no space
    either, [float] reads as well what the record-oriented normaliser
    hands over, which keeps the spaces. *)
Theorem accepted_plain_amount_is_read (value : pystr)
        (Hfloat : data_importer._is_float value = true)
        (Hplain : plain_digits value)
        (Hminus : ~ In 45 (tl (cleaned value))) :
  exists x,
    data_importer.float (cleaned value) = Ok x
    /\ (~ In 32 value ->
        data_importer.float (replace_char 44 [46] value) = Ok x).
Proof.
  destruct (float_after_is_float value Hfloat Hplain Hminus) as [x Hx].
  exists x. split; [exact Hx|].
  intros Hspace. rewrite <- (cleaned_no_space value Hspace). exact Hx.
Qed.

Lemma accepted_plain_amount_is_read_witness :
  exists x,
    data_importer.float (cleaned (u "-1234,50")) = Ok x
    /\ (~ In 32 (u "-1234,50") ->
        data_importer.float (replace_char 44 [46] (u "-1234,50")) = Ok x).
Proof.
  apply (accepted_plain_amount_is_read (u "-1234,50")).
  - vm_compute. reflexivity.
  - apply Forall_forall. intros c Hc. vm_compute in Hc.
    repeat (destruct Hc as [<- | Hc]; [vm_compute; auto|]). contradiction.
  - vm_compute. intros Hc.
    repeat (destruct Hc as [Hc | Hc]; [discriminate Hc|]). exact Hc.
Defined.

(** X16. The record-oriented normaliser does not raise on an item whose
    amount, besides decimal digits and a minus sign only in front, contains
    no space: the space is what it does not remove before [float]. The
    whole numbers of the item have at most 4300 digits, the length up to
    which [str] converts one. *)
Theorem record_normaliser_safe_on_plain_amounts_without_space
        (item : data_importer.raw_record)
        (Hsize : Forall (fun field => convertible (snd field)) item)
        (Hplain : plain_digits (json_amount_value item))
        (Hminus : ~ In 45 (tl (cleaned (json_amount_value item))))
        (Hspace : ~ In 32 (json_amount_value item)) :
  exists r, data_importer.normalize_json_item item = Ok r.
Proof.
  unfold data_importer.normalize_json_item.
  fold (json_amount_value item).
  rewrite <- (cleaned_no_space _ Hspace).
  destruct (data_importer.is_empty _); [eauto|].
  destruct (data_importer.is_empty _); [eauto|].
  destruct (data_importer.is_empty (json_amount_value item)); [simpl; eauto|].
  destruct (data_importer._is_float (json_amount_value item)) eqn:F;
    [|simpl; eauto].
  simpl.
  destruct (float_after_is_float _ F Hplain Hminus) as [q ->].
  simpl. eauto.
Qed.

Lemma record_normaliser_safe_on_plain_amounts_without_space_witness :
  exists r, data_importer.normalize_json_item plain_item = Ok r.
Proof.
  apply (record_normaliser_safe_on_plain_amounts_without_space plain_item).
  - repeat constructor.
  - apply Forall_forall. intros c Hc. vm_compute in Hc.
    repeat (destruct Hc as [<- | Hc]; [vm_compute; auto|]). contradiction.
  - vm_compute. intros Hc.
    repeat (destruct Hc as [Hc | Hc]; [discriminate Hc|]). exact Hc.
  - vm_compute. intros Hc.
    repeat (destruct Hc as [Hc | Hc]; [discriminate Hc|]). exact Hc.
Defined.

(** ** The budget comparison *)

Section Comparison.

Import budget_planner.

Local Open Scope Qc_scope.

Lemma dict_get_set (V : Type) (d : pydict V) (k c : pystr) (v : V) :
  dict_get (dict_set d k v) c
  = if str_eqb k c then Some v else dict_get d c.
Proof.
  induction d as [|[k' v'] d IH]; simpl.
  - reflexivity.
  - destruct (str_eqb k' k) eqn:E; simpl.
    + apply str_eqb_eq in E. subst k'.
      destruct (str_eqb k c); reflexivity.
    + rewrite IH. destruct (str_eqb k' c) eqn:E'; [|reflexivity].
      apply str_eqb_eq in E'. subst k'.
      destruct (str_eqb k c) eqn:E''; [|reflexivity].
      apply str_eqb_eq in E''. subst k. rewrite str_eqb_refl in E. discriminate.
Qed.

Lemma spent_or_zero_add (d : pydict Qc) (k c : pystr) (v : Qc) :
  spent_or_zero (analyzer.dict_add d k v) c
  = spent_or_zero d c + (if str_eqb k c then v else 0).
Proof.
  unfold analyzer.dict_add, spent_or_zero.
  destruct (dict_mem d k) eqn:M.
  - unfold dict_mem in M. destruct (dict_get d k) as [x|] eqn:G; [|discriminate].
    rewrite dict_get_set. destruct (str_eqb k c) eqn:E.
    + apply str_eqb_eq in E. subst c. rewrite G. reflexivity.
    + destruct (dict_get d c); ring.
  - apply dict_mem_false in M. rewrite dict_get_set_same, !dict_get_set.
    destruct (str_eqb k c) eqn:E.
    + apply str_eqb_eq in E. subst c. rewrite M. reflexivity.
    + destruct (dict_get d c); ring.
Qed.

Lemma spent_or_zero_fold (l : list transaction) (d : pydict Qc) (c : pystr) :
  spent_or_zero (fold_left actual_step l d) c = spent_or_zero d c + spent_in c l.
Proof.
  revert d. induction l as [|t l IH]; intros d.
  - simpl. unfold spent_in, Qcsum. simpl. ring.
  - simpl fold_left. rewrite IH. unfold actual_step, spent_in.
    cbn [filter]. unfold negative_amount.
    destruct (Qcltb (amount t) 0); cbn [andb].
    + rewrite spent_or_zero_add.
      destruct (str_eqb (category_or_default t) c); cbn [map].
      * rewrite Qcsum_cons. ring.
      * ring.
    + ring.
Qed.

Lemma str_eqb_neq (a b : pystr) : str_eqb a b = false <-> a <> b.
Proof.
  rewrite <- str_eqb_eq. destruct (str_eqb a b); split; congruence.
Qed.

(** The loop over the limits: when it raises and what it returns. *)
Lemma category_advice_spec (actual : pydict Qc) (limits : pydict Qc) :
  match category_advice actual limits with
  | Raise e =>
    e = ZeroDivisionError
    /\ exists c, In (c, 0) limits /\ c <> savings_label
                 /\ 0 < spent_or_zero actual c
  | Ok recs =>
    (forall c, In (c, 0) limits -> c <> savings_label ->
               ~ 0 < spent_or_zero actual c)
    /\ Forall (sound_advice limits (spent_or_zero actual)) recs
  end.
Proof.
  assert (forall (x : pystr * Qc) rest recs,
             Forall (sound_advice rest (spent_or_zero actual)) recs ->
             Forall (sound_advice (x :: rest) (spent_or_zero actual)) recs)
    as Hweak.
  { intros x rest recs. apply Forall_impl.
    intros r [c [l [A [B C]]]]. exists c, l.
    split; [exact A|]. split; [right; exact B | exact C]. }
  induction limits as [|[category limit] rest IH].
  - simpl. split; [intros c [] | constructor].
  - cbn [category_advice].
    destruct (str_eqb category savings_label) eqn:S.
    + apply str_eqb_eq in S.
      destruct (category_advice actual rest) as [recs|e].
      * destruct IH as [IH1 IH2]. split; [|apply Hweak, IH2].
        intros c [Hc | Hc] Hs; [|exact (IH1 c Hc Hs)].
        injection Hc as -> _. contradiction.
      * destruct IH as [-> [c [A [B C]]]]. split; [reflexivity|].
        exists c. split; [right; exact A | auto].
    + apply str_eqb_neq in S.
      change (match dict_get actual category with
              | Some a => a
              | None => 0
              end) with (spent_or_zero actual category).
      destruct (Qcltb limit (spent_or_zero actual category)) eqn:L.
      * apply Qcltb_lt in L. unfold py_div.
        destruct (Qceqb limit 0) eqn:Z.
        -- apply Qceqb_eq in Z. subst limit. simpl.
           split; [reflexivity|]. exists category.
           split; [left; reflexivity | auto].
        -- apply Qceqb_neq in Z. cbn [bind].
           destruct (category_advice actual rest) as [recs|e]; cbn [bind].
           ++ destruct IH as [IH1 IH2]. split.
              ** intros c [Hc | Hc] Hs; [|exact (IH1 c Hc Hs)].
                 injection Hc as _ E. congruence.
              ** constructor; [|apply Hweak, IH2].
                 exists category, limit.
                 split; [reflexivity|]. split; [left; reflexivity | auto].
           ++ destruct IH as [-> [c [A [B C]]]]. split; [reflexivity|].
              exists c. split; [right; exact A | auto].
      * apply Qcltb_ge in L.
        destruct (category_advice actual rest) as [recs|e].
        -- destruct IH as [IH1 IH2]. split; [|apply Hweak, IH2].
           intros c [Hc | Hc] Hs; [|exact (IH1 c Hc Hs)].
           injection Hc as -> ->. apply Qcle_not_lt. exact L.
        -- destruct IH as [-> [c [A [B C]]]]. split; [reflexivity|].
           exists c. split; [right; exact A | auto].
Qed.

Lemma spent_or_zero_actual (l : list transaction) (c : pystr) :
  spent_or_zero (fold_left actual_step l []) c = spent_in c l.
Proof.
  rewrite spent_or_zero_fold. unfold spent_or_zero. simpl. ring.
Qed.

(** The best item is one of the items and no item has a larger key. *)
Lemma max_by_abs_spec (items : list (pystr * Qc)) (best : pystr * Qc) :
  In (max_by_abs best items) (best :: items)
  /\ forall item, In item (best :: items) ->
                  Qcabs (snd item) <= Qcabs (snd (max_by_abs best items)).
Proof.
  revert best. induction items as [|x items IH]; intros best; cbn [max_by_abs].
  - split; [left; reflexivity|].
    intros item [<- | []]. apply Qcle_refl.
  - destruct (Qcltb (Qcabs (snd best)) (Qcabs (snd x))) eqn:E.
    + destruct (IH x) as [Hin Hmax]. split.
      * destruct Hin as [Hin | Hin]; [right; left; exact Hin | right; right; exact Hin].
      * intros item [<- | Hitem]; [|exact (Hmax item Hitem)].
        apply Qcltb_lt, Qclt_le_weak in E.
        apply Qcle_trans with (Qcabs (snd x)); [exact E|].
        apply Hmax. left. reflexivity.
    + destruct (IH best) as [Hin Hmax]. split.
      * destruct Hin as [Hin | Hin]; [left; exact Hin | right; right; exact Hin].
      * intros item [<- | [<- | Hitem]].
        -- apply Hmax. left. reflexivity.
        -- apply Qcltb_ge in E.
           apply Qcle_trans with (Qcabs (snd best)); [exact E|].
           apply Hmax. left. reflexivity.
        -- apply Hmax. right. exact Hitem.
Qed.

End Comparison.

(** X18. The budget comparison raises exactly when a category other than
    the savings one has a limit of 0 and something was spent in it, and
    what it raises is [ZeroDivisionError]. *)
Theorem comparison_raises_exactly_on_spent_zero_limit
        (b : budget_planner.budget) (transactions : list transaction) :
  ((exists e, budget_planner.compare_budget_vs_actual b transactions = Raise e)
   <-> exists c,
      In (c, 0%Qc) (budget_planner.budget_limits b)
      /\ c <> budget_planner.savings_label
      /\ (0 < spent_in c transactions)%Qc)
  /\ forall e,
      budget_planner.compare_budget_vs_actual b transactions = Raise e ->
      e = ZeroDivisionError.
Proof.
  unfold budget_planner.compare_budget_vs_actual.
  pose proof (category_advice_spec
                (fold_left budget_planner.actual_step transactions [])
                (budget_planner.budget_limits b)) as S.
  destruct (budget_planner.category_advice _ _) as [recs|e0]; cbn [bind].
  - destruct S as [S1 _]. split; [split|].
    + intros [e He]. discriminate He.
    + intros [c [A [B C]]]. exfalso. apply (S1 c A B).
      rewrite spent_or_zero_actual. exact C.
    + intros e He. discriminate He.
  - destruct S as [-> [c [A [B C]]]]. split; [split|].
    + intros _. exists c. rewrite spent_or_zero_actual in C. auto.
    + intros _. eauto.
    + intros e He. injection He as <-. reflexivity.
Qed.

(** X20. [generate_budget_recommendations] gives its three fixed lines and,
    when the expense rollup is not empty, a fourth naming a category of the
    rollup whose sum is the largest in absolute value; it does not read the
    budget analysis. *)
Theorem recommendations_name_largest_category
        (analysis : budget_planner.analysis) (rollup : pydict Qc) :
  (rollup = [] ->
   budget_planner.generate_budget_recommendations analysis rollup
   = [budget_planner.FixedWithinBudget;
      budget_planner.FixedReduceEntertainment;
      budget_planner.FixedGoal])
  /\ (rollup <> [] ->
      exists c x,
        budget_planner.generate_budget_recommendations analysis rollup
        = [budget_planner.FixedWithinBudget;
           budget_planner.FixedReduceEntertainment;
           budget_planner.FixedGoal;
           budget_planner.LargestCategory c (Qcabs x)]
        /\ In (c, x) rollup
        /\ forall c' x', In (c', x') rollup -> (Qcabs x' <= Qcabs x)%Qc).
Proof.
  unfold budget_planner.generate_budget_recommendations. split.
  - intros ->. reflexivity.
  - intros Hne. destruct rollup as [|item rest]; [contradiction|].
    destruct (max_by_abs_spec rest item) as [Hin Hmax].
    destruct (budget_planner.max_by_abs item rest) as [c x] eqn:E.
    exists c, x. split; [reflexivity|]. split; [exact Hin|].
    intros c' x' Hin'. exact (Hmax (c', x') Hin').
Qed.

(** ** The whole pipeline *)

Section Pipeline.

Local Open Scope Qc_scope.

Lemma analyze_spending_returns (transactions : list transaction) :
  exists a, budget_planner.analyze_historical_spending transactions = Ok a.
Proof.
  unfold budget_planner.analyze_historical_spending.
  destruct (analyse_rows_total
              (Qcsum (List.map (fun e => Qcabs (amount e))
                        (List.filter budget_planner.is_expense transactions)))
              (budget_planner.group_expenses
                 (List.filter budget_planner.is_expense transactions)))
    as [rows [-> _]].
  simpl. eexists. reflexivity.
Qed.

(** Two lists that agree on dates and amounts have the same sums and the
    same per-month rollup. *)
Lemma same_dates_and_amounts (l l' : list transaction) :
  Forall2 (fun t t' => amount t' = amount t /\ date t' = date t) l l' ->
  income_sum l' = income_sum l
  /\ signed_expense_sum l' = signed_expense_sum l
  /\ List.length l' = List.length l
  /\ forall monthly,
      fold_left analyzer.monthly_step l' monthly
      = fold_left analyzer.monthly_step l monthly.
Proof.
  induction 1 as [|t t' l l' [Ha Hd] _ [IH1 [IH2 [IH3 IH4]]]].
  - repeat split.
  - rewrite !income_sum_cons, !signed_expense_sum_cons, IH1, IH2, Ha.
    split; [reflexivity|]. split; [reflexivity|].
    split; [simpl; rewrite IH3; reflexivity|].
    intros monthly. simpl fold_left.
    assert (analyzer.monthly_step monthly t' = analyzer.monthly_step monthly t)
      as -> by (unfold analyzer.monthly_step; rewrite Ha, Hd; reflexivity).
    apply IH4.
Qed.

Lemma categorized_same_dates_and_amounts (l l' : list transaction) :
  categorize_all_transactions l = Ok l' ->
  Forall2 (fun t t' => amount t' = amount t /\ date t' = date t) l l'.
Proof.
  intros H. destruct (categorize_all_spec l) as [l'' [E F]].
  rewrite E in H. injection H as <-.
  revert F. apply Forall2_impl. intros t t' [c [_ ->]]. split; reflexivity.
Qed.

End Pipeline.

(** X21. [process_data] assigns nothing on an empty list and never raises on
    another one. The statistics it computes on the categorised list have
    the totals, the balance, the count and the per-month rollup of the
    transactions as loaded, categorising changes neither an amount nor a
    date nor the order; and the savings goal of the template is also
    stored as the limit of the savings category. *)
Theorem process_data_pipeline (transactions : list transaction) :
  main.process_data [] = Ok None
  /\ (transactions <> [] ->
      exists st,
        main.process_data transactions = Ok (Some st)
        /\ categorize_all_transactions transactions
           = Ok (main.categorized_transactions st)
        /\ let loaded := analyzer.calculate_basic_stats transactions in
           analyzer.total_income (main.stats st) = analyzer.total_income loaded
           /\ analyzer.total_expenses (main.stats st)
              = analyzer.total_expenses loaded
           /\ analyzer.balance (main.stats st) = analyzer.balance loaded
           /\ analyzer.transaction_count (main.stats st)
              = analyzer.transaction_count loaded
           /\ analyzer.monthly_stats (main.stats st)
              = analyzer.monthly_stats loaded
           /\ dict_get (budget_planner.budget_limits (main.budget_template st))
                       budget_planner.savings_label
              = Some (budget_planner.savings_goal (main.budget_template st))).
Proof.
  split; [reflexivity|]. intros Hne.
  unfold main.process_data.
  destruct transactions as [|t0 rest] eqn:Et; [contradiction|].
  rewrite <- Et. clear Hne.
  destruct (categorize_all_spec transactions) as [categorized [E _]].
  rewrite E. cbn [bind].
  destruct (analyze_spending_returns categorized) as [a Ea].
  rewrite Ea. cbn [bind].
  eexists. split; [reflexivity|]. cbn [main.categorized_transactions
    main.stats main.budget_analysis main.budget_template].
  split; [reflexivity|]. cbv zeta.
  destruct (same_dates_and_amounts transactions categorized
              (categorized_same_dates_and_amounts _ _ E))
    as [H1 [H2 [H3 H4]]].
  rewrite !stats_total_income, !stats_total_expenses, !stats_balance,
    !stats_count, !stats_monthly, <- !sums_cover, H1, H2, H3, H4.
  repeat (split; [reflexivity|]).
  unfold budget_planner.create_budget_template. cbn.
  apply dict_get_set_same.
Qed.

Lemma process_data_pipeline_witness :
  exists st,
    main.process_data [entry "2024-01-12" (-350) "Такси Яндекс" None]
    = Ok (Some st)
    /\ categorize_all_transactions
         [entry "2024-01-12" (-350) "Такси Яндекс" None]
       = Ok (main.categorized_transactions st)
    /\ analyzer.total_income (main.stats st)
       = analyzer.total_income
           (analyzer.calculate_basic_stats
              [entry "2024-01-12" (-350) "Такси Яндекс" None]).
Proof.
  destruct (proj2 (process_data_pipeline
                     [entry "2024-01-12" (-350) "Такси Яндекс" None]))
    as [st [A [B C]]]; [discriminate|].
  exists st. split; [exact A|]. split; [exact B|]. exact (proj1 C).
Defined.


(** ** The extended search *)

Section Extended.

Import categorizer.

Variable categories : pydict (list pystr).

(** After a first pass that found nothing, the second pass finds nothing. *)
Lemma extended_search_finds_nothing (desc_lower desc_clean : pystr)
      (names : list pystr) :
  expense_search categories (expense_hit desc_lower desc_clean) names = Ok None ->
  expense_search categories (extended_hit desc_lower) names = Ok None.
Proof.
  induction names as [|n names IH]; simpl; intros H; [reflexivity|].
  destruct (dict_get categories n) as [kn|]; [|discriminate H].
  destruct (existsb (expense_hit desc_lower desc_clean) kn) eqn:X;
    [discriminate H|].
  assert (existsb (extended_hit desc_lower) kn = false) as ->.
  { destruct (existsb (extended_hit desc_lower) kn) eqn:Y; [|reflexivity].
    apply existsb_exists in Y. destruct Y as [kw [Hkw Hhit]].
    apply (extended_hit_expense_hit desc_lower desc_clean) in Hhit.
    assert (existsb (expense_hit desc_lower desc_clean) kn = true) as T
        by (apply existsb_exists; exists kw; auto).
    rewrite T in X. discriminate X. }
  exact (IH H).
Qed.

End Extended.

(** X22. The extended search never decides a label: for a negative amount
    the label is the category the first pass finds, or "другое" when the
    first pass finds none, whatever the taxonomy. *)
Theorem extended_search_never_decides
        (description : pystr) (amount : Qc) (categories : pydict (list pystr))
        (Hneg : (amount < 0)%Qc) :
  categorizer.categorize_transaction description amount categories
  = match categorizer.expense_search categories
            (categorizer.expense_hit (lower description)
               (categorizer.strip_punct (lower description)))
            (categorizer.expense_categories categories) with
    | Ok (Some category) => Ok category
    | Ok None => Ok (u "другое")
    | Raise e => Raise e
    end.
Proof.
  unfold categorizer.categorize_transaction.
  assert (Qcleb 0 amount = false) as -> by (apply Qcleb_gt; exact Hneg).
  destruct (categorizer.expense_search categories
              (categorizer.expense_hit _ _) _) as [[c|]|e] eqn:S;
    cbn [bind]; [reflexivity| |reflexivity].
  rewrite (extended_search_finds_nothing categories _ _ _ S). reflexivity.
Qed.

Lemma extended_search_never_decides_witness :
  categorizer.categorize_transaction (u "Штраф за парковку")
    (Q2Qc (-500 # 1)%Q) categorizer.create_categories
  = match categorizer.expense_search categorizer.create_categories
            (categorizer.expense_hit (lower (u "Штраф за парковку"))
               (categorizer.strip_punct (lower (u "Штраф за парковку"))))
            (categorizer.expense_categories categorizer.create_categories) with
    | Ok (Some category) => Ok category
    | Ok None => Ok (u "другое")
    | Raise e => Raise e
    end.
Proof.
  apply (extended_search_never_decides (u "Штраф за парковку")
           (Q2Qc (-500 # 1)%Q) categorizer.create_categories).
  reflexivity.
Defined.

(** ** Dates written with slashes *)

Section SlashDates.

Import data_importer.

Lemma split_on_from_chars (sep x : N) (s cur : pystr) :
  In x (rev cur ++ s) ->
  x = sep \/ exists part, In part (split_on_from sep cur s) /\ In x part.
Proof.
  revert cur. induction s as [|c s IH]; intros cur Hin; simpl.
  - right. exists (rev cur). rewrite app_nil_r in Hin. split; [left; reflexivity | exact Hin].
  - destruct (c =? sep) eqn:E.
    + apply N.eqb_eq in E. subst c.
      apply in_app_or in Hin. destruct Hin as [Hin | [Hin | Hin]].
      * right. exists (rev cur). split; [left; reflexivity | exact Hin].
      * left. symmetry. exact Hin.
      * destruct (IH [] Hin) as [A | [part [A B]]]; [left; exact A|].
        right. exists part. split; [right; exact A | exact B].
    + apply IH. simpl. rewrite <- app_assoc. exact Hin.
Qed.

Ltac char_facts :=
  repeat match goal with
         | H : _ && _ = true |- _ => apply andb_true_iff in H; destruct H
         | H : in_range _ _ _ = true |- _ => unfold in_range in H
         | H : (_ <=? _) = true |- _ => apply N.leb_le in H
         | H : (_ =? _) = true |- _ => apply N.eqb_eq in H
         | H : _ || _ = true |- _ => apply orb_true_iff in H; destruct H
         end.

Lemma directive_chars (d : directive) (part : pystr) (v : N) :
  directive_value d part = Some v ->
  forall x, In x part -> 48 <= x <= 57 \/ x = 32.
Proof.
  destruct d.
  - destruct part as [|a [|b [|c [|e [|f part]]]]]; cbn [directive_value];
      try discriminate.
    destruct (all_decimal [a; b; c; e]) eqn:A; [|discriminate].
    intros _ x Hx. left. apply is_decimal_range.
    unfold all_decimal in A. rewrite forallb_forall in A. exact (A x Hx).
  - destruct part as [|a [|b [|c part]]]; cbn [directive_value];
      try discriminate.
    + destruct (in_range 49 57 a) eqn:A; [|discriminate].
      intros _ x [<- | []]. char_facts. lia.
    + destruct ((a =? 49) && in_range 48 50 b) eqn:A.
      * intros _ x [<- | [<- | []]]; char_facts; lia.
      * destruct ((a =? 48) && in_range 49 57 b) eqn:B; [|discriminate].
        intros _ x [<- | [<- | []]]; char_facts; lia.
  - destruct part as [|a [|b [|c part]]]; cbn [directive_value];
      try discriminate.
    + destruct (in_range 49 57 a) eqn:A; [|discriminate].
      intros _ x [<- | []]. char_facts. lia.
    + destruct ((a =? 51) && in_range 48 49 b) eqn:A.
      * intros _ x [<- | [<- | []]]; char_facts; lia.
      * destruct (in_range 49 50 a && in_range 48 57 b) eqn:B.
        -- intros _ x [<- | [<- | []]]; char_facts; lia.
        -- destruct (((a =? 48) || (a =? 32)) && in_range 49 57 b) eqn:C;
             [|discriminate].
           intros _ x [<- | [<- | []]]; char_facts; lia.
Qed.

(** A text a pattern accepts is made of digits, spaces and the separator
    of the pattern. *)
Lemma strptime_chars (s : pystr) (fmt : date_format) (d : N * N * N) :
  strptime s fmt = Some d ->
  forall x, In x s -> x = sep fmt \/ 48 <= x <= 57 \/ x = 32.
Proof.
  intros H x Hx. unfold strptime in H.
  destruct (split_on_from_chars (sep fmt) x s []) as [A | [part [A B]]];
    [exact Hx | left; exact A|].
  fold (split_on (sep fmt) s) in A.
  destruct (split_on (sep fmt) s) as [|p1 [|p2 [|p3 [|p4 ps]]]];
    try discriminate.
  destruct (directive_value (first fmt) p1) as [v1|] eqn:E1; [|discriminate].
  destruct (directive_value (second fmt) p2) as [v2|] eqn:E2; [|discriminate].
  destruct (directive_value (third fmt) p3) as [v3|] eqn:E3; [|discriminate].
  right. destruct A as [<- | [<- | [<- | []]]].
  - exact (directive_chars _ _ _ E1 x B).
  - exact (directive_chars _ _ _ E2 x B).
  - exact (directive_chars _ _ _ E3 x B).
Qed.

End SlashDates.

(** X23. Dates written with slashes are read day first: whenever the text
    before the first space is a valid date under [%d/%m/%Y], that reading is
    the result, and [%m/%d/%Y] is not consulted. *)
Theorem slash_dates_are_read_day_first
        (date_str : pystr) (date_obj : N * N * N)
        (Hspace : ~ In 32 date_str)
        (Hparse : data_importer.strptime date_str day_first_format
                  = Some date_obj) :
  data_importer.normalize_date date_str = data_importer.strftime date_obj.
Proof.
  assert (date_str <> []) as Hne by (intros ->; discriminate Hparse).
  rewrite normalize_date_clean by assumption.
  assert (forall fmt,
             data_importer.sep fmt = 45 \/ data_importer.sep fmt = 46 ->
             data_importer.strptime date_str fmt = None) as Hother.
  { intros fmt Hsep. apply strptime_needs_sep. intros Hin.
    destruct (strptime_chars _ _ _ Hparse _ Hin) as [A | [A | A]];
      simpl in A; destruct Hsep as [E | E]; rewrite E in *; lia. }
  unfold data_importer.date_formats. cbn [find].
  fold iso_format. fold day_first_format.
  unfold data_importer._is_valid_date at 1.
  rewrite (Hother iso_format (or_introl eq_refl)). cbv beta iota.
  unfold data_importer._is_valid_date at 1.
  rewrite (Hother {| data_importer.first := data_importer.dd;
                     data_importer.second := data_importer.dm;
                     data_importer.third := data_importer.dY;
                     data_importer.sep := 46 |} (or_intror eq_refl)).
  cbv beta iota.
  unfold data_importer._is_valid_date at 1.
  rewrite Hparse. cbv beta iota. rewrite Hparse. reflexivity.
Qed.

Lemma slash_dates_are_read_day_first_witness :
  data_importer.normalize_date (u "01/02/2024") = u "2024-02-01".
Proof.
  apply (slash_dates_are_read_day_first (u "01/02/2024") (2024, 2, 1)).
  - vm_compute. intros Hc.
    repeat (destruct Hc as [Hc | Hc]; [discriminate Hc|]). exact Hc.
  - vm_compute. reflexivity.
Defined.

(** * Sums in binary64 *)

(** ** Dictionaries filled by a loop *)

Section Upsert.

Context {V T : Type}.
Variables (init : V) (sel : T -> bool) (key : T -> pystr) (g : T -> V -> V).

Lemma dict_get_upsert (d : pydict V) (k c : pystr) (f : V -> V) :
  dict_get (dict_upsert d k init f) c
  = if str_eqb k c
    then Some (f (match dict_get d k with Some x => x | None => init end))
    else dict_get d c.
Proof.
  unfold dict_upsert. destruct (dict_mem d k) eqn:M; cbv zeta.
  - unfold dict_mem in M.
    destruct (dict_get d k) as [x|] eqn:G; [|discriminate M].
    apply dict_get_set.
  - apply dict_mem_false in M. rewrite dict_get_set_same, M, !dict_get_set.
    destruct (str_eqb k c); reflexivity.
Qed.

(** The entry of [c] after the loop, from the elements filed under [c]. *)
Lemma fold_upsert_get (l : list T) (d : pydict V) (c : pystr) :
  dict_get
    (fold_left
       (fun d t => if sel t then dict_upsert d (key t) init (g t) else d) l d)
    c
  = fold_left
      (fun o t => Some (g t (match o with Some x => x | None => init end)))
      (filter (fun t => sel t && str_eqb (key t) c) l)
      (dict_get d c).
Proof.
  revert d. induction l as [|t l IH]; intros d; [reflexivity|].
  cbn [fold_left filter]. rewrite IH. destruct (sel t); cbn [andb].
  - rewrite dict_get_upsert. destruct (str_eqb (key t) c) eqn:E.
    + apply str_eqb_eq in E. subst c. reflexivity.
    + reflexivity.
  - reflexivity.
Qed.

Lemma fold_present (ts : list T) (x : V) :
  fold_left
    (fun o t => Some (g t (match o with Some x => x | None => init end)))
    ts (Some x)
  = Some (fold_left (fun x t => g t x) ts x).
Proof.
  revert x. induction ts as [|t ts IH]; intros x; [reflexivity|].
  cbn [fold_left]. apply IH.
Qed.

Lemma fold_absent (ts : list T) :
  fold_left
    (fun o t => Some (g t (match o with Some x => x | None => init end)))
    ts None
  = match ts with
    | [] => None
    | _ => Some (fold_left (fun x t => g t x) ts init)
    end.
Proof.
  destruct ts as [|t ts]; [reflexivity|]. cbn [fold_left]. apply fold_present.
Qed.

End Upsert.

Section Counting.

Context {V : Type}.
Variable m : V -> nat.

Lemma list_sum_set_present (d : pydict V) (k : pystr) (x y : V) :
  dict_get d k = Some x ->
  (list_sum (map m (dict_values (dict_set d k y))) + m x
   = list_sum (map m (dict_values d)) + m y)%nat.
Proof.
  unfold dict_values.
  induction d as [|[k' v'] d IH]; simpl; [discriminate|].
  destruct (str_eqb k' k); simpl; intros H.
  - injection H as ->. lia.
  - specialize (IH H). lia.
Qed.

Lemma list_sum_upsert (d : pydict V) (k : pystr) (init : V) (f : V -> V) :
  m init = 0%nat ->
  (forall x, m (f x) = S (m x)) ->
  list_sum (map m (dict_values (dict_upsert d k init f)))
  = S (list_sum (map m (dict_values d))).
Proof.
  intros Hinit Hf. unfold dict_upsert.
  destruct (dict_mem d k) eqn:M; cbv zeta.
  - unfold dict_mem in M.
    destruct (dict_get d k) as [x|] eqn:G; [|discriminate M].
    pose proof (list_sum_set_present d k x (f x) G) as E.
    rewrite Hf in E. lia.
  - apply dict_mem_false in M. rewrite dict_get_set_same.
    pose proof (list_sum_set_present (dict_set d k init) k init (f init)
                  (dict_get_set_same d k init)) as E.
    rewrite Hf, Hinit in E.
    rewrite (dict_set_absent d k init M) in E at 2.
    unfold dict_values in E at 2. rewrite !map_app, list_sum_app in E.
    simpl in E. rewrite Hinit in E. unfold dict_values at 2. lia.
Qed.

End Counting.

(** ** The loops of [calculate_basic_stats] *)

Section Binary64.

Import binary64.

Lemma income_amounts_cons (t : transaction) (l : list transaction) :
  income_amounts (t :: l)
  = if counted_as_income t then amount t :: income_amounts l
    else income_amounts l.
Proof.
  unfold income_amounts. cbn [filter].
  destruct (counted_as_income t); reflexivity.
Qed.

Lemma expense_amounts_cons (t : transaction) (l : list transaction) :
  expense_amounts (t :: l)
  = if counted_as_income t then expense_amounts l
    else amount t :: expense_amounts l.
Proof.
  unfold expense_amounts. cbn [filter].
  destruct (counted_as_income t); reflexivity.
Qed.

Lemma income_amounts_app (l l' : list transaction) :
  income_amounts (l ++ l') = income_amounts l ++ income_amounts l'.
Proof. unfold income_amounts. rewrite filter_app, map_app. reflexivity. Qed.

Lemma expense_amounts_app (l l' : list transaction) :
  expense_amounts (l ++ l') = expense_amounts l ++ expense_amounts l'.
Proof. unfold expense_amounts. rewrite filter_app, map_app. reflexivity. Qed.

(** The first loop, from any running state. *)
Lemma float_totals_from (l : list transaction) (income expenses : float)
      (largest : list transaction) :
  fold_left totals_step l (income, expenses, largest)
  = (fold_left PrimFloat.add (income_amounts l) income,
     fold_left PrimFloat.add (expense_amounts l) expenses,
     largest ++ filter (fun t => negb (counted_as_income t)) l).
Proof.
  revert income expenses largest.
  induction l as [|t l IH]; intros income expenses largest.
  - cbn. rewrite app_nil_r. reflexivity.
  - cbn [fold_left]. rewrite income_amounts_cons, expense_amounts_cons.
    cbn [filter].
    change (totals_step (income, expenses, largest) t)
      with (if counted_as_income t
            then ((income + amount t)%float, expenses, largest)
            else (income, (expenses + amount t)%float, largest ++ [t])).
    destruct (counted_as_income t); rewrite IH; cbn [negb fold_left].
    + reflexivity.
    + rewrite <- app_assoc. reflexivity.
Qed.

Lemma float_total_income (l : list transaction) :
  total_income (calculate_basic_stats l) = fsum (income_amounts l).
Proof.
  unfold calculate_basic_stats, totals. rewrite float_totals_from. reflexivity.
Qed.

Lemma float_total_expenses (l : list transaction) :
  total_expenses (calculate_basic_stats l) = PrimFloat.abs (fsum (expense_amounts l)).
Proof.
  unfold calculate_basic_stats, totals. rewrite float_totals_from. reflexivity.
Qed.

Lemma float_balance (l : list transaction) :
  balance (calculate_basic_stats l)
  = (fsum (income_amounts l) + fsum (expense_amounts l))%float.
Proof.
  unfold calculate_basic_stats, totals. rewrite float_totals_from. reflexivity.
Qed.

Lemma float_monthly (l : list transaction) :
  monthly_stats (calculate_basic_stats l) = fold_left monthly_step l [].
Proof.
  unfold calculate_basic_stats, totals. rewrite float_totals_from. reflexivity.
Qed.

Lemma float_count (l : list transaction) :
  transaction_count (calculate_basic_stats l) = List.length l.
Proof.
  unfold calculate_basic_stats, totals. rewrite float_totals_from. reflexivity.
Qed.

Lemma fsum_last (xs : list float) (x : float) :
  fsum (xs ++ [x]) = (fsum xs + x)%float.
Proof. unfold fsum. rewrite fold_left_app. reflexivity. Qed.

Lemma monthly_step_short_date (monthly : pydict month_row) (t : transaction) :
  (List.length (date t) < 7)%nat -> monthly_step monthly t = monthly.
Proof.
  intros H. unfold monthly_step. apply Nat.leb_gt in H. rewrite H. reflexivity.
Qed.

(** ** The per-month rollup *)

(** The row a run of transactions leaves, from any row. *)
Lemma month_update_fold (ts : list transaction) (r0 : month_row) :
  month_income (fold_left (fun row t => month_update t row) ts r0)
  = fold_left PrimFloat.add (income_amounts ts) (month_income r0)
  /\ month_expenses (fold_left (fun row t => month_update t row) ts r0)
     = fold_left PrimFloat.add (expense_amounts ts) (month_expenses r0)
  /\ (ts <> [] ->
      month_balance (fold_left (fun row t => month_update t row) ts r0)
      = (month_income (fold_left (fun row t => month_update t row) ts r0)
         + month_expenses (fold_left (fun row t => month_update t row) ts r0))
          %float).
Proof.
  revert r0. induction ts as [|t ts IH]; intros r0.
  - cbn. split; [reflexivity|]. split; [reflexivity|].
    intros H. contradiction H. reflexivity.
  - cbn [fold_left]. rewrite income_amounts_cons, expense_amounts_cons.
    destruct (IH (month_update t r0)) as [Hi [He Hb]].
    rewrite Hi, He. split; [|split].
    + unfold month_update, counted_as_income.
      destruct (0 <=? amount t)%float; reflexivity.
    + unfold month_update, counted_as_income.
      destruct (0 <=? amount t)%float; reflexivity.
    + intros _. destruct ts as [|t' ts'].
      * reflexivity.
      * rewrite <- Hi, <- He. apply Hb. discriminate.
Qed.

Lemma monthly_entry (l : list transaction) (key : pystr) :
  dict_get (fold_left monthly_step l []) key
  = match filter (in_month key) l with
    | [] => None
    | listed =>
      Some (fold_left (fun row t => month_update t row) listed zero_row)
    end.
Proof.
  change (fold_left monthly_step l [])
    with (fold_left
            (fun d t =>
               if (7 <=? List.length (date t))%nat
               then dict_upsert d (firstn 7 (date t)) zero_row (month_update t)
               else d) l []).
  rewrite (fold_upsert_get zero_row
             (fun t => (7 <=? List.length (date t))%nat)
             (fun t => firstn 7 (date t)) month_update).
  cbn [dict_get]. rewrite fold_absent.
  change (fun t => (7 <=? List.length (date t))%nat
                   && str_eqb (firstn 7 (date t)) key)
    with (in_month key).
  destruct (filter (in_month key) l); reflexivity.
Qed.

(** ** The rollups by category *)

Lemma fold_add_amounts (ts : list transaction) (a : float) :
  fold_left (fun x t => (x + amount t)%float) ts a
  = fold_left PrimFloat.add (map amount ts) a.
Proof.
  revert a. induction ts as [|t ts IH]; intros a; [reflexivity|].
  cbn [fold_left map]. apply IH.
Qed.

Lemma expenses_by_category_fold (l : list transaction) (st : category_stats) :
  expenses_by_category (fold_left by_category_step l st)
  = fold_left
      (fun d t =>
         if filed_as_expense t
         then dict_upsert d (category_or_default t) 0%float
                          (fun x => (x + amount t)%float)
         else d) l (expenses_by_category st).
Proof.
  revert st. induction l as [|t l IH]; intros st; [reflexivity|].
  cbn [fold_left]. rewrite IH. f_equal.
  unfold by_category_step, filed_as_expense.
  destruct (amount t <? 0)%float; reflexivity.
Qed.

Lemma income_by_category_fold (l : list transaction) (st : category_stats) :
  income_by_category (fold_left by_category_step l st)
  = fold_left
      (fun d t =>
         if negb (filed_as_expense t)
         then dict_upsert d (category_or_default t) 0%float
                          (fun x => (x + amount t)%float)
         else d) l (income_by_category st).
Proof.
  revert st. induction l as [|t l IH]; intros st; [reflexivity|].
  cbn [fold_left]. rewrite IH. f_equal.
  unfold by_category_step, filed_as_expense.
  destruct (amount t <? 0)%float; reflexivity.
Qed.

Lemma sum_if_any_fold (ts : list transaction) :
  match ts with
  | [] => None
  | _ => Some (fold_left (fun x t => (x + amount t)%float) ts 0%float)
  end
  = sum_if_any (map amount ts).
Proof.
  destruct ts as [|t ts]; [reflexivity|].
  rewrite fold_add_amounts. reflexivity.
Qed.

Lemma expense_rollup_entry (l : list transaction) (c : pystr) :
  dict_get (expenses_by_category (calculate_by_category l)) c
  = sum_if_any (category_expense_amounts c l).
Proof.
  unfold calculate_by_category. rewrite expenses_by_category_fold.
  cbn [expenses_by_category].
  rewrite (fold_upsert_get 0%float filed_as_expense category_or_default
             (fun t x => (x + amount t)%float)).
  cbn [dict_get]. unfold category_expense_amounts.
  etransitivity;
    [exact (fold_absent 0%float (fun t x => (x + amount t)%float) _)|].
  apply sum_if_any_fold.
Qed.

Lemma income_rollup_entry (l : list transaction) (c : pystr) :
  dict_get (income_by_category (calculate_by_category l)) c
  = sum_if_any (category_income_amounts c l).
Proof.
  unfold calculate_by_category. rewrite income_by_category_fold.
  cbn [income_by_category].
  rewrite (fold_upsert_get 0%float (fun t => negb (filed_as_expense t))
             category_or_default (fun t x => (x + amount t)%float)).
  cbn [dict_get]. unfold category_income_amounts.
  etransitivity;
    [exact (fold_absent 0%float (fun t x => (x + amount t)%float) _)|].
  apply sum_if_any_fold.
Qed.

Lemma sum_if_any_or_zero (xs : list float) :
  match sum_if_any xs with Some x => x | None => 0%float end = fsum xs.
Proof. destruct xs; reflexivity. Qed.

(** When the two sign tests disagree on every amount and every expense is
    filed under [c], the expenses of [c] are all the expenses. *)
Lemma one_category_expenses (l : list transaction) (c : pystr) :
  Forall (fun t => filed_as_expense t = negb (counted_as_income t)) l ->
  Forall (fun t => filed_as_expense t = true -> category_or_default t = c) l ->
  category_expense_amounts c l = expense_amounts l.
Proof.
  intros Hsign Hcat. unfold category_expense_amounts, expense_amounts.
  f_equal. apply filter_ext_in. intros t Ht.
  rewrite Forall_forall in Hsign, Hcat.
  rewrite <- (Hsign t Ht).
  destruct (filed_as_expense t) eqn:E; [|reflexivity].
  rewrite (Hcat t Ht E), str_eqb_refl. reflexivity.
Qed.

Lemma one_category_incomes (l : list transaction) (c : pystr) :
  Forall (fun t => filed_as_expense t = negb (counted_as_income t)) l ->
  Forall (fun t => filed_as_expense t = false -> category_or_default t = c) l ->
  category_income_amounts c l = income_amounts l.
Proof.
  intros Hsign Hcat. unfold category_income_amounts, income_amounts.
  f_equal. apply filter_ext_in. intros t Ht.
  rewrite Forall_forall in Hsign, Hcat.
  assert (counted_as_income t = negb (filed_as_expense t)) as ->
      by (rewrite (Hsign t Ht), negb_involutive; reflexivity).
  destruct (filed_as_expense t) eqn:E; [reflexivity|].
  rewrite (Hcat t Ht E), str_eqb_refl. reflexivity.
Qed.

(** ** The summary by category *)

Lemma summary_rows_fold (ts : list transaction) (r0 : summary_row) :
  fold_left
    (fun row t =>
       {| count := S (count row);
          total_amount := (total_amount row + amount t)%float;
          transactions_of := transactions_of row ++ [t] |}) ts r0
  = {| count := count r0 + List.length ts;
       total_amount := fold_left PrimFloat.add (map amount ts) (total_amount r0);
       transactions_of := transactions_of r0 ++ ts |}.
Proof.
  revert r0. induction ts as [|t ts IH]; intros r0.
  - destruct r0. cbn. rewrite Nat.add_0_r, app_nil_r. reflexivity.
  - cbn [fold_left]. rewrite IH. cbn [count total_amount transactions_of map
                                       fold_left List.length].
    rewrite <- app_assoc. f_equal. lia.
Qed.

Lemma summary_entry (l : list transaction) (c : pystr) :
  dict_get (get_category_summary l) c
  = match filter (fun t => str_eqb (summary_key t) c) l with
    | [] => None
    | listed =>
      Some {| count := List.length listed;
              total_amount := fsum (map amount listed);
              transactions_of := listed |}
    end.
Proof.
  unfold get_category_summary.
  change (fold_left summary_step l [])
    with (fold_left
            (fun d t =>
               if (fun _ : transaction => true) t
               then dict_upsert d (summary_key t)
                      {| count := 0; total_amount := 0%float;
                         transactions_of := [] |}
                      ((fun t row =>
                          {| count := S (count row);
                             total_amount := (total_amount row + amount t)%float;
                             transactions_of := transactions_of row ++ [t] |}) t)
               else d) l []).
  rewrite (fold_upsert_get
             {| count := 0; total_amount := 0%float; transactions_of := [] |}
             (fun _ => true) summary_key
             (fun t row =>
                {| count := S (count row);
                   total_amount := (total_amount row + amount t)%float;
                   transactions_of := transactions_of row ++ [t] |})).
  cbn [dict_get andb].
  etransitivity;
    [exact (fold_absent
              {| count := 0; total_amount := 0%float; transactions_of := [] |}
              (fun t row =>
                 {| count := S (count row);
                    total_amount := (total_amount row + amount t)%float;
                    transactions_of := transactions_of row ++ [t] |}) _)|].
  destruct (filter (fun t => str_eqb (summary_key t) c) l) as [|t ts];
    [reflexivity|].
  cbv beta. rewrite summary_rows_fold. reflexivity.
Qed.

Lemma summary_counts (l : list transaction) (summary : pydict summary_row) :
  list_sum (map count (dict_values (fold_left summary_step l summary)))
  = (list_sum (map count (dict_values summary)) + List.length l)%nat.
Proof.
  revert summary. induction l as [|t l IH]; intros summary.
  - cbn [fold_left List.length]. rewrite Nat.add_0_r. reflexivity.
  - cbn [fold_left List.length]. rewrite IH. unfold summary_step.
    rewrite (list_sum_upsert count); [lia | reflexivity | reflexivity].
Qed.

End Binary64.

(** C6, as the code has it. The total income plus the signed sum of the
    expense amounts, both added in list order, is the balance, and
    [total_expenses] is the absolute value of that signed sum; the balance
    of a reordered list is the same when the reordering keeps the incomes
    in their order and the expenses in theirs. *)
Theorem C6_balance_identity_and_order_keeping_reordering
        (transactions reordered : list binary64.transaction)
        (Hperm : Permutation transactions reordered)
        (Hincomes : income_amounts reordered = income_amounts transactions)
        (Hexpenses : expense_amounts reordered = expense_amounts transactions) :
  let stats := binary64.calculate_basic_stats transactions in
  binary64.total_income stats = fsum (income_amounts transactions)
  /\ binary64.total_expenses stats
     = PrimFloat.abs (fsum (expense_amounts transactions))
  /\ (binary64.total_income stats + fsum (expense_amounts transactions))%float
     = binary64.balance stats
  /\ binary64.balance (binary64.calculate_basic_stats reordered)
     = binary64.balance stats.
Proof.
  cbv zeta.
  rewrite float_total_income, float_total_expenses, !float_balance,
    Hincomes, Hexpenses.
  repeat split.
Qed.

Lemma C6_order_keeping_witness :
  binary64.balance
    (binary64.calculate_basic_stats
       [posting "2024-01-12" (-350.25) "Такси" None;
        posting "2024-01-10" 0.1 "Кэшбэк" None;
        posting "2024-01-11" 0.2 "Кэшбэк" None])
  = binary64.balance
      (binary64.calculate_basic_stats
         [posting "2024-01-10" 0.1 "Кэшбэк" None;
          posting "2024-01-12" (-350.25) "Такси" None;
          posting "2024-01-11" 0.2 "Кэшбэк" None]).
Proof.
  apply (C6_balance_identity_and_order_keeping_reordering
           [posting "2024-01-10" 0.1 "Кэшбэк" None;
            posting "2024-01-12" (-350.25) "Такси" None;
            posting "2024-01-11" 0.2 "Кэшбэк" None]
           [posting "2024-01-12" (-350.25) "Такси" None;
            posting "2024-01-10" 0.1 "Кэшбэк" None;
            posting "2024-01-11" 0.2 "Кэшбэк" None]).
  - apply perm_swap.
  - vm_compute. reflexivity.
  - vm_compute. reflexivity.
Defined.

(** C6 as stated fails on the incomes 0.1, 0.2, 0.3: in this order the
    balance is 0.6000000000000001, in the opposite order it is 0.6. *)
Lemma C6_reordering_changes_balance :
  Permutation
    [posting "2024-01-10" 0.1 "a" None; posting "2024-01-11" 0.2 "b" None;
     posting "2024-01-12" 0.3 "c" None]
    [posting "2024-01-12" 0.3 "c" None; posting "2024-01-11" 0.2 "b" None;
     posting "2024-01-10" 0.1 "a" None]
  /\ binary64.balance
       (binary64.calculate_basic_stats
          [posting "2024-01-10" 0.1 "a" None; posting "2024-01-11" 0.2 "b" None;
           posting "2024-01-12" 0.3 "c" None])
     = 0.6000000000000001%float
  /\ binary64.balance
       (binary64.calculate_basic_stats
          [posting "2024-01-12" 0.3 "c" None; posting "2024-01-11" 0.2 "b" None;
           posting "2024-01-10" 0.1 "a" None])
     = 0.6%float
  /\ binary64.balance
       (binary64.calculate_basic_stats
          [posting "2024-01-10" 0.1 "a" None; posting "2024-01-11" 0.2 "b" None;
           posting "2024-01-12" 0.3 "c" None])
     <> binary64.balance
          (binary64.calculate_basic_stats
             [posting "2024-01-12" 0.3 "c" None;
              posting "2024-01-11" 0.2 "b" None;
              posting "2024-01-10" 0.1 "a" None]).
Proof.
  split; [|split; [|split]].
  - apply Permutation_rev
      with (l := [posting "2024-01-10" 0.1 "a" None;
                  posting "2024-01-11" 0.2 "b" None;
                  posting "2024-01-12" 0.3 "c" None]).
  - vm_compute. reflexivity.
  - vm_compute. reflexivity.
  - intros H. apply (f_equal (fun x => (x =? 0.6)%float)) in H.
    vm_compute in H. discriminate H.
Qed.

(** C7, as the code has it. The entry of a category in the expense rollup
    is the sum, in list order, of the signed amounts of the expenses filed
    under it, the fallback category included, and there is no entry when
    there are none. When every expense is filed under one category (and
    no amount is a NaN, on which the two functions disagree), the absolute
    value of its entry is [total_expenses]. *)
Theorem C7_category_sums_are_signed_sums_in_list_order
        (transactions : list binary64.transaction) (c : pystr) :
  let rollup :=
    binary64.expenses_by_category
      (binary64.calculate_by_category transactions) in
  let stats := binary64.calculate_basic_stats transactions in
  dict_get rollup c = sum_if_any (category_expense_amounts c transactions)
  /\ (Forall (fun t => filed_as_expense t = negb (counted_as_income t))
             transactions ->
      Forall (fun t => filed_as_expense t = true ->
                       binary64.category_or_default t = c) transactions ->
      PrimFloat.abs (entry_or_zero rollup c) = binary64.total_expenses stats).
Proof.
  cbv zeta. split; [apply expense_rollup_entry|].
  intros Hsign Hcat. unfold entry_or_zero.
  rewrite expense_rollup_entry, sum_if_any_or_zero, float_total_expenses,
    (one_category_expenses _ _ Hsign Hcat).
  reflexivity.
Qed.

Lemma C7_one_category_witness :
  PrimFloat.abs (entry_or_zero
         (binary64.expenses_by_category
            (binary64.calculate_by_category
               [posting "2024-01-15" (-0.3) "обед" (Some "еда");
                posting "2024-01-10" 1500 "Зарплата" (Some "зарплата");
                posting "2024-01-16" (-0.2) "ужин" (Some "еда");
                posting "2024-01-17" (-0.1) "кофе" (Some "еда")]))
         (u "еда"))
  = binary64.total_expenses
      (binary64.calculate_basic_stats
         [posting "2024-01-15" (-0.3) "обед" (Some "еда");
          posting "2024-01-10" 1500 "Зарплата" (Some "зарплата");
          posting "2024-01-16" (-0.2) "ужин" (Some "еда");
          posting "2024-01-17" (-0.1) "кофе" (Some "еда")]).
Proof.
  apply (C7_category_sums_are_signed_sums_in_list_order
           [posting "2024-01-15" (-0.3) "обед" (Some "еда");
            posting "2024-01-10" 1500 "Зарплата" (Some "зарплата");
            posting "2024-01-16" (-0.2) "ужин" (Some "еда");
            posting "2024-01-17" (-0.1) "кофе" (Some "еда")]
           (u "еда")).
  - repeat constructor.
  - repeat constructor; vm_compute; congruence.
Defined.

(** C7 as stated fails twice. On one expense of -10 the rollup holds -10
    where [total_expenses] is 10. On the expenses -0.3 and -0.1 for food
    and -0.2 for transport the entries are -0.4 and -0.2, which add up to
    0.6000000000000001 in absolute value, where [total_expenses] is 0.6. *)
Lemma C7_rollup_differs_from_total_expenses :
  rollup_sum
    (binary64.expenses_by_category
       (binary64.calculate_by_category
          [posting "2024-01-15" (-10) "обед" (Some "еда")]))
  <> binary64.total_expenses
       (binary64.calculate_basic_stats
          [posting "2024-01-15" (-10) "обед" (Some "еда")])
  /\ PrimFloat.abs (rollup_sum
            (binary64.expenses_by_category
               (binary64.calculate_by_category
                  [posting "2024-01-15" (-0.3) "обед" (Some "еда");
                   posting "2024-01-16" (-0.2) "метро" (Some "транспорт");
                   posting "2024-01-17" (-0.1) "кофе" (Some "еда")])))
     <> binary64.total_expenses
          (binary64.calculate_basic_stats
             [posting "2024-01-15" (-0.3) "обед" (Some "еда");
              posting "2024-01-16" (-0.2) "метро" (Some "транспорт");
              posting "2024-01-17" (-0.1) "кофе" (Some "еда")]).
Proof.
  split.
  - intros H. apply (f_equal (fun x => (x =? 10)%float)) in H.
    vm_compute in H. discriminate H.
  - intros H. apply (f_equal (fun x => (x =? 0.6)%float)) in H.
    vm_compute in H. discriminate H.
Qed.

(** C10. A transaction whose date has fewer than 7 characters leaves the
    per-month rollup as it is and adds one to the count; its amount is one
    of the amounts the flat totals add up, at its place in the list, and
    with them it enters the balance; when it comes last, the total it
    belongs to is the total of the others plus its amount. There is a list
    whose monthly incomes and expenses sum to less than its flat totals. *)
Theorem C10_short_date_counted_but_not_monthly
        (t : binary64.transaction) (before after : list binary64.transaction)
        (H : (List.length (binary64.date t) < 7)%nat) :
  let stats := binary64.calculate_basic_stats (before ++ t :: after) in
  let without := binary64.calculate_basic_stats (before ++ after) in
  binary64.monthly_stats stats = binary64.monthly_stats without
  /\ binary64.transaction_count stats
     = S (binary64.transaction_count without)
  /\ binary64.balance stats
     = (binary64.total_income stats
        + fsum (expense_amounts (before ++ t :: after)))%float
  /\ binary64.total_expenses stats
     = PrimFloat.abs (fsum (expense_amounts (before ++ t :: after)))
  /\ (counted_as_income t = true ->
      binary64.total_income stats
      = fsum (income_amounts before
              ++ binary64.amount t :: income_amounts after)
      /\ binary64.total_expenses stats = binary64.total_expenses without
      /\ (after = [] ->
          binary64.total_income stats
          = (binary64.total_income without + binary64.amount t)%float))
  /\ (counted_as_income t = false ->
      expense_amounts (before ++ t :: after)
      = expense_amounts before ++ binary64.amount t :: expense_amounts after
      /\ binary64.total_income stats = binary64.total_income without
      /\ (after = [] ->
          binary64.total_expenses stats
          = PrimFloat.abs (fsum (expense_amounts before) + binary64.amount t)%float))
  /\ exists transactions,
      let s := binary64.calculate_basic_stats transactions in
      (months_income s <? binary64.total_income s)%float = true
      /\ (PrimFloat.abs (months_expenses s) <? binary64.total_expenses s)%float = true.
Proof.
  cbv zeta.
  rewrite !float_monthly, !float_count, !float_balance, !float_total_income,
    !float_total_expenses.
  rewrite !income_amounts_app, !expense_amounts_app,
    income_amounts_cons, expense_amounts_cons.
  split; [|split; [|split; [|split; [|split; [|split]]]]].
  - rewrite !fold_left_app. cbn [fold_left].
    rewrite (monthly_step_short_date _ t H). reflexivity.
  - rewrite !length_app. cbn [List.length]. lia.
  - reflexivity.
  - reflexivity.
  - intros Hin. rewrite Hin. split; [reflexivity|]. split; [reflexivity|].
    intros ->. cbn [income_amounts filter map].
    rewrite app_nil_r. apply fsum_last.
  - intros Hout. rewrite Hout. split; [reflexivity|]. split; [reflexivity|].
    intros ->. cbn [expense_amounts filter map].
    rewrite fsum_last. reflexivity.
  - exists [posting "2024" 100 "перевод" None; posting "2024" (-40) "обед" None].
    vm_compute. split; reflexivity.
Qed.

Lemma C10_short_date_witness :
  binary64.monthly_stats
    (binary64.calculate_basic_stats
       [posting "2024-01-10" 50000 "Зарплата" None;
        posting "2024" (-350.5) "Такси" None])
  = binary64.monthly_stats
      (binary64.calculate_basic_stats
         [posting "2024-01-10" 50000 "Зарплата" None]).
Proof.
  apply (C10_short_date_counted_but_not_monthly
           (posting "2024" (-350.5) "Такси" None)
           [posting "2024-01-10" 50000 "Зарплата" None] []).
  vm_compute. lia.
Defined.

(** X4. The entry of a category in the income rollup is the sum, in list
    order, of the amounts filed under it that are not negative, and there
    is no entry when there are none; when all such amounts are filed under
    one category (and no amount is a NaN), its entry is [total_income]. *)
Theorem income_rollup_entries_are_sums_in_list_order
        (transactions : list binary64.transaction) (c : pystr) :
  let rollup :=
    binary64.income_by_category
      (binary64.calculate_by_category transactions) in
  let stats := binary64.calculate_basic_stats transactions in
  dict_get rollup c = sum_if_any (category_income_amounts c transactions)
  /\ (Forall (fun t => filed_as_expense t = negb (counted_as_income t))
             transactions ->
      Forall (fun t => filed_as_expense t = false ->
                       binary64.category_or_default t = c) transactions ->
      entry_or_zero rollup c = binary64.total_income stats).
Proof.
  cbv zeta. split; [apply income_rollup_entry|].
  intros Hsign Hcat. unfold entry_or_zero.
  rewrite income_rollup_entry, sum_if_any_or_zero, float_total_income,
    (one_category_incomes _ _ Hsign Hcat).
  reflexivity.
Qed.

Lemma income_rollup_entries_are_sums_in_list_order_witness :
  entry_or_zero
    (binary64.income_by_category
       (binary64.calculate_by_category
          [posting "2024-01-10" 0.1 "Кэшбэк" (Some "зарплата");
           posting "2024-01-15" (-0.3) "обед" (Some "еда");
           posting "2024-01-11" 0.2 "Кэшбэк" (Some "зарплата")]))
    (u "зарплата")
  = binary64.total_income
      (binary64.calculate_basic_stats
         [posting "2024-01-10" 0.1 "Кэшбэк" (Some "зарплата");
          posting "2024-01-15" (-0.3) "обед" (Some "еда");
          posting "2024-01-11" 0.2 "Кэшбэк" (Some "зарплата")]).
Proof.
  apply (income_rollup_entries_are_sums_in_list_order
           [posting "2024-01-10" 0.1 "Кэшбэк" (Some "зарплата");
            posting "2024-01-15" (-0.3) "обед" (Some "еда");
            posting "2024-01-11" 0.2 "Кэшбэк" (Some "зарплата")]
           (u "зарплата")).
  - repeat constructor.
  - repeat constructor; vm_compute; congruence.
Defined.

(** X5. The per-month rollup has a row for a key exactly when a transaction
    with a date of at least 7 characters starts with it; the key then has 7
    characters, the income of the row is the sum, in list order, of the
    non-negative amounts of these transactions, its expenses the sum of
    the others, and its balance the sum of the two. *)
Theorem monthly_rollup_rows
        (transactions : list binary64.transaction) (key : pystr) :
  let monthly :=
    binary64.monthly_stats (binary64.calculate_basic_stats transactions) in
  let listed := List.filter (in_month key) transactions in
  match dict_get monthly key with
  | None => listed = []
  | Some row =>
    listed <> []
    /\ List.length key = 7%nat
    /\ binary64.month_income row = fsum (income_amounts listed)
    /\ binary64.month_expenses row = fsum (expense_amounts listed)
    /\ binary64.month_balance row
       = (binary64.month_income row + binary64.month_expenses row)%float
  end.
Proof.
  cbv zeta. rewrite float_monthly, monthly_entry.
  destruct (filter (in_month key) transactions) as [|t ts] eqn:E;
    [reflexivity|].
  destruct (month_update_fold (t :: ts) binary64.zero_row) as [Hi [He Hb]].
  split; [discriminate|]. split; [|split; [exact Hi|split; [exact He|]]].
  - assert (In t (filter (in_month key) transactions)) as Hin
        by (rewrite E; left; reflexivity).
    apply filter_In in Hin. destruct Hin as [_ Hin].
    unfold in_month in Hin. apply andb_true_iff in Hin.
    destruct Hin as [Hlen Hkey].
    apply Nat.leb_le in Hlen. apply str_eqb_eq in Hkey. subst key.
    rewrite length_firstn. lia.
  - apply Hb. discriminate.
Qed.

(** X8. The summary by category has a row for a category exactly when a
    transaction is filed under it; the row lists these transactions in
    list order, counts them, and its total is the sum of their amounts in
    that order. Over all rows the counts add up to the number of
    transactions. *)
Theorem category_summary_rows
        (transactions : list binary64.transaction) (c : pystr) :
  let summary := binary64.get_category_summary transactions in
  let listed :=
    List.filter (fun t => str_eqb (binary64.summary_key t) c) transactions in
  dict_get summary c
  = match listed with
    | [] => None
    | _ => Some {| binary64.count := List.length listed;
                   binary64.total_amount :=
                     fsum (List.map binary64.amount listed);
                   binary64.transactions_of := listed |}
    end
  /\ list_sum (List.map binary64.count (dict_values summary))
     = List.length transactions.
Proof.
  cbv zeta. split.
  - rewrite summary_entry.
    destruct (filter (fun t => str_eqb (binary64.summary_key t) c) transactions);
      reflexivity.
  - unfold binary64.get_category_summary. rewrite summary_counts. reflexivity.
Qed.
